(** * TaskIt: a verification model of the REST back end

    The back end is an Express application over two MongoDB collections
    (users and tasks).  Each request handler of the controllers is embedded
    as a function from the request and the database to the new database and
    the HTTP response.  The external services the handlers call (bcrypt,
    jsonwebtoken, the regular-expression engine, the conversions of
    ObjectIds) are interfaces. *)

From Stdlib Require Import Ascii.
From stdpp Require Import gmap strings list fin_maps pretty.

(** ** JavaScript values the handlers rely on *)

Module Js.

(** Strings.  A JavaScript string is a sequence of UTF-16 code units.
    The model covers the strings whose code units are all below 256 and
    has one character per code unit: the character with code 233 is the
    one-unit string of the letter e with an acute accent (not the two
    bytes of its UTF-8 form). *)

(** The [length] property, which the [minlength] and [maxlength]
    validators compare: the number of code units. *)
Definition length (s : string) : nat := String.length s.

(** Truthiness of a possibly absent string: [undefined] and the empty
    string are falsy. *)
Definition truthy (v : option string) : bool :=
  match v with
  | Some s => negb (String.eqb s "")
  | None => false
  end.

(** White space and line terminators among these code units: tab, line
    feed, vertical tab, form feed, carriage return, space and the
    no-break space U+00A0. *)
Definition is_space (c : ascii) : bool :=
  match nat_of_ascii c with
  | 9 | 10 | 11 | 12 | 13 | 32 | 160 => true
  | _ => false
  end.

Fixpoint trimStart (s : string) : string :=
  match s with
  | String c s' => if is_space c then trimStart s' else s
  | EmptyString => EmptyString
  end.

Definition trimEnd (s : string) : string :=
  String.rev (trimStart (String.rev s)).

Definition trim (s : string) : string := trimEnd (trimStart s).

(** The lower case of a code unit: the letters A to Z and the capital
    letters U+00C0 to U+00DE (the multiplication sign U+00D7 apart) are
    32 below their lower case. *)
Definition lower_char (c : ascii) : ascii :=
  let n := nat_of_ascii c in
  if (65 <=? n)%nat && (n <=? 90)%nat
     || (192 <=? n)%nat && (n <=? 222)%nat && negb (n =? 215)%nat
  then ascii_of_nat (n + 32) else c.

Fixpoint toLowerCase (s : string) : string :=
  match s with
  | String c s' => String (lower_char c) (toLowerCase s')
  | EmptyString => EmptyString
  end.

(** Value of a character as a digit in the given radix. *)
Definition digit_val (radix : Z) (c : ascii) : option Z :=
  let n := Z.of_nat (nat_of_ascii c) in
  let d :=
    if (48 <=? n)%Z && (n <=? 57)%Z then Some (n - 48)%Z
    else if (97 <=? n)%Z && (n <=? 122)%Z then Some (n - 87)%Z
    else if (65 <=? n)%Z && (n <=? 90)%Z then Some (n - 55)%Z
    else None in
  match d with
  | Some v => if (v <? radix)%Z then Some v else None
  | None => None
  end.

(** Longest prefix of digits; [None] when there is no digit at all. *)
Fixpoint digits (radix : Z) (s : string) (acc : option Z) : option Z :=
  match s with
  | String c s' =>
      match digit_val radix c with
      | Some d => digits radix s' (Some (radix * default 0%Z acc + d)%Z)
      | None => acc
      end
  | EmptyString => acc
  end.

Definition strip_sign (s : string) : Z * string :=
  match s with
  | String "-"%char s' => ((-1)%Z, s')
  | String "+"%char s' => (1%Z, s')
  | _ => (1%Z, s)
  end.

Definition strip_hex (s : string) : Z * string :=
  match s with
  | String c1 (String c2 s') =>
      if Ascii.eqb c1 "0" && (Ascii.eqb c2 "x" || Ascii.eqb c2 "X")
      then (16%Z, s') else (10%Z, s)
  | _ => (10%Z, s)
  end.

Definition infinity : Z := (2 ^ 1024)%Z.

(** The Number nearest to an integer: 53 significant bits, a tie goes to
    the even one, and what exceeds the largest Number is an infinity. *)
Definition number (n : Z) : Z :=
  let a := Z.abs n in
  if (a <? 2 ^ 53)%Z then n
  else
    let e := (Z.log2 a - 52)%Z in
    let q := Z.shiftr a e in
    let r := (a - Z.shiftl q e)%Z in
    let half := Z.shiftl 1 (e - 1) in
    let q' := if (r <? half)%Z then q
              else if (half <? r)%Z then (q + 1)%Z
              else if Z.even q then q else (q + 1)%Z in
    (Z.sgn n * Z.min infinity (Z.shiftl q' e))%Z.

(** [a - b] and [a * b] on such Numbers.  The product of 0 and an
    infinity, which is NaN, is 0 here: it arises in the handlers only as
    a number of documents to skip, where the store reads NaN as 0. *)
Definition sub (a b : Z) : Z := number (a - b).
Definition mul (a b : Z) : Z := number (a * b).

(** [parseInt(v)] without a radix; [None] is NaN.  An absent parameter is
    converted to the string "undefined", which has no digits.  The result
    is the Number nearest to the integer the digits denote. *)
Definition parseInt (v : option string) : option Z :=
  match v with
  | None => None
  | Some s =>
      let '(sign, s1) := strip_sign (trimStart s) in
      let '(radix, s2) := strip_hex s1 in
      match digits radix s2 None with
      | Some n => Some (number (sign * n))
      | None => None
      end
  end.

Definition is_digit (c : ascii) : bool :=
  (48 <=? nat_of_ascii c)%nat && (nat_of_ascii c <=? 57)%nat.



(** [x || d] on numbers: NaN and 0 are falsy. *)
Definition num_or (x : option Z) (d : Z) : Z :=
  match x with
  | Some n => if (n =? 0)%Z then d else n
  | None => d
  end.

(** [Math.ceil(a / b)] for a count [a] of stored documents and a non-zero
    divisor: for a count below [2^53] the rounding of the quotient does
    not change its ceiling. *)
Definition ceil_div (a b : Z) : Z :=
  if (Z.abs b =? infinity)%Z then 0%Z else (- ((- a) / b))%Z.

(** [String.prototype.split] on a separator character. *)
Fixpoint split (sep : ascii) (s : string) : list string :=
  match s with
  | EmptyString => [EmptyString]
  | String c r =>
      if Ascii.eqb c sep then EmptyString :: split sep r
      else match split sep r with
           | h :: t => String c h :: t
           | [] => [String c EmptyString]
           end
  end.

(** [Array.prototype.includes] on strings. *)
Definition includes (l : list string) (v : option string) : bool :=
  match v with
  | Some s => bool_decide (s ∈ l)
  | None => false
  end.

End Js.

(** ** Errors passed to [next(error)] *)

(** The properties of a thrown error that [errorHandler] inspects. *)
Record Err := {
  err_name : string;
  err_message : string;
  err_code : option Z;
  err_keyField : option string;     (* first key of [err.keyValue] *)
  err_statusCode : option nat;
  err_errors : list (string * string) (* path and message of each failure *)
}.

Definition ValidationError (errors : list (string * string)) : Err :=
  {| err_name := "ValidationError"; err_message := "Validation failed";
     err_code := None; err_keyField := None; err_statusCode := None;
     err_errors := errors |}.

(** MongoDB's duplicate-key error (E11000) on the given indexed field. *)
Definition DuplicateKey (field : string) : Err :=
  {| err_name := "MongoServerError";
     err_message := "E11000 duplicate key error";
     err_code := Some 11000%Z; err_keyField := Some field;
     err_statusCode := None; err_errors := [] |}.

(** Mongoose's error for a value that does not convert to the type of its
    path: here a string that is not an ObjectId. *)
Definition CastError (value : string) : Err :=
  {| err_name := "CastError";
     err_message := "Cast to ObjectId failed for value " +:+ value;
     err_code := None; err_keyField := None; err_statusCode := None;
     err_errors := [] |}.

(** The error of the store for a rejected cursor option (a negative
    skip), with the message the store gives it. *)
Definition BadCursor (message : string) : Err :=
  {| err_name := "MongoServerError";
     err_message := message;
     err_code := Some 2%Z; err_keyField := None;
     err_statusCode := None; err_errors := [] |}.

(** ** External services *)

(** bcryptjs: [hash(plaintext, salt)] and [compare(candidate, digest)]. *)
Class Bcrypt := {
  bcrypt_hash : string → string → string;
  bcrypt_compare : string → string → bool
}.

(** The claim set of a token: the refresh token carries the id only. *)
Record Claims := {
  claim_id : nat;
  claim_email : option string;
  claim_role : option string
}.

(** Outcome of [jwt.verify]: the decoded claims or one of the two errors it
    raises for a token without a not-before claim (no token of this
    application carries one). *)
Inductive JwtResult :=
| Decoded (c : Claims)
| JsonWebTokenError
| TokenExpiredError.

(** jsonwebtoken: [sign(claims, secret, expiresIn)] reads the clock;
    [verify(token, secret)] first checks the token and its signature, which
    gives the claims it carries, then compares its expiry with the clock. *)
Class Jwt := {
  jwt_sign : Claims → string → string → Z → string;
  jwt_payload : string → string → option Claims;
  jwt_expired : string → Z → bool
}.

Definition jwt_verify `{!Jwt} (token secret : string) (now : Z) : JwtResult :=
  match jwt_payload token secret with
  | None => JsonWebTokenError
  | Some c => if jwt_expired token now then TokenExpiredError else Decoded c
  end.

(** The test of the e-mail pattern of the user schema. *)
Class EmailPattern := { email_match : string → bool }.

(** The conversions between ObjectIds, which are numbers here, and
    strings: the cast of a request parameter to an ObjectId ([None] when
    Mongoose raises its cast error) and [ObjectId.prototype.toString]. *)
Class ObjectIds := {
  castObjectId : string → option nat;
  idToString : nat → string
}.

(** [process.env] *)
Record Env := {
  JWT_SECRET : string;
  JWT_EXPIRE : option string;
  JWT_REFRESH_SECRET : string;
  JWT_REFRESH_EXPIRE : option string
}.

(** ** models/User.js *)

Module User.

Record doc := {
  _id : nat;
  name : string;
  email : string;
  password : string;
  role : string;
  refreshToken : option string;
  passwordChangedAt : option Z;
  createdAt : Z;
  updatedAt : Z
}.

#[global] Instance doc_eq_dec : EqDecision doc.
Proof. solve_decision. Defined.

(** Every document is stored under its own [_id]. *)
Definition keyed (users : gmap nat doc) : Prop :=
  map_Forall (λ k u, _id u = k) users.

(** No two accounts hold the same e-mail (the unique index). *)
Definition unique_emails (users : gmap nat doc) : Prop :=
  map_Forall (λ i u, map_Forall (λ j v, email u = email v → i = j) users) users.

Definition set_refreshToken (tok : option string) (now : Z) (u : doc) : doc :=
  {| _id := _id u; name := name u; email := email u; password := password u;
     role := role u; refreshToken := tok;
     passwordChangedAt := passwordChangedAt u;
     createdAt := createdAt u; updatedAt := now |}.

(** Schema setters. *)
Definition set_name (s : string) : string := Js.trim s.
Definition set_email (s : string) : string := Js.trim (Js.toLowerCase s).

Definition roles : list string := ["user"; "admin"].

(** Every account has one of the two roles (the enum of the schema). *)
Definition valid_roles (users : gmap nat doc) : Prop :=
  map_Forall (λ _ u, role u ∈ roles) users.

Section schema.
Context `{!Bcrypt} `{!Jwt} `{!EmailPattern} (env : Env).

Definition validate_name (v : string) : list (string * string) :=
  if String.eqb v "" then [("name", "Name is required")]
  else if Js.length v <? 2 then [("name", "Name must be at least 2 characters")]
  else if 50 <? Js.length v then [("name", "Name cannot exceed 50 characters")]
  else [].

Definition validate_email (v : string) : list (string * string) :=
  if String.eqb v "" then [("email", "Email is required")]
  else if email_match v then []
  else [("email", "Please provide a valid email")].

Definition validate_password (v : string) : list (string * string) :=
  if String.eqb v "" then [("password", "Password is required")]
  else if Js.length v <? 6 then [("password", "Password must be at least 6 characters")]
  else [].

Definition validate_role (v : string) : list (string * string) :=
  if bool_decide (v ∈ roles) then []
  else [("role", "`" +:+ v +:+ "` is not a valid enum value for path `role`.")].

(** Pre-save middleware: hash the password when it was modified. *)
Definition pre_save (isNew passwordModified : bool) (salt : string) (now : Z)
    (u : doc) : doc :=
  if negb passwordModified then u
  else
    {| _id := _id u; name := name u; email := email u;
       password := bcrypt_hash (password u) salt;
       role := role u; refreshToken := refreshToken u;
       passwordChangedAt :=
         if negb isNew then Some (now - 1000)%Z else passwordChangedAt u;
       createdAt := createdAt u; updatedAt := updatedAt u |}.

Definition comparePassword (u : doc) (candidatePassword : string) : bool :=
  bcrypt_compare candidatePassword (password u).

Definition generateAccessToken (u : doc) (now : Z) : string :=
  jwt_sign
    {| claim_id := _id u; claim_email := Some (email u);
       claim_role := Some (role u) |}
    (JWT_SECRET env) (default "7d" (JWT_EXPIRE env)) now.

Definition generateRefreshToken (u : doc) (now : Z) : string :=
  jwt_sign
    {| claim_id := _id u; claim_email := None; claim_role := None |}
    (JWT_REFRESH_SECRET env) (default "30d" (JWT_REFRESH_EXPIRE env)) now.

(** The documents holding a given stored e-mail (the unique index
    leaves at most one). *)
Definition find_email (users : gmap nat doc) (e : string) : option doc :=
  head (filter (λ u, email u = e) (map_to_list users).*2).

(** [User.findOne({ email })]: the query value goes through the setters
    of the path. *)
Definition findOne_email (users : gmap nat doc) (e : string) : option doc :=
  find_email users (set_email e).

Definition findById (users : gmap nat doc) (id : nat) : option doc :=
  users !! id.

(** [User.create({ name, email, password, role })]: setters, validation,
    the pre-save hook, then the insert under the unique indexes. *)
Definition create (users : gmap nat doc)
    (name email password : option string) (role : string)
    (newId : nat) (salt : string) (now : Z) : Err + (gmap nat doc * doc) :=
  let u := {| _id := newId; name := set_name (default "" name);
              email := set_email (default "" email);
              password := default "" password; role := role;
              refreshToken := None; passwordChangedAt := None;
              createdAt := now; updatedAt := now |} in
  let errors := validate_name (User.name u) ++ validate_email (User.email u)
                ++ validate_password (User.password u)
                ++ validate_role (User.role u) in
  match errors with
  | _ :: _ => inl (ValidationError errors)
  | [] =>
      let u' := pre_save true true salt now u in
      if bool_decide (is_Some (users !! newId)) then inl (DuplicateKey "_id")
      else if bool_decide (is_Some (find_email users (User.email u')))
      then inl (DuplicateKey "email")
      else inr (<[newId := u']> users, u')
  end.

(** [user.refreshToken = tok; user.save({ validateBeforeSave: false })]
    on a loaded account.  [loaded] is the token the document was loaded
    with, [None] when the query did not select the path (it is
    [select: false] in the schema).  Assigning the value the document
    already holds modifies nothing, and [save] then writes nothing;
    otherwise the token and [updatedAt] are written. *)
Definition save_refreshToken (users : gmap nat doc) (id : nat)
    (loaded : option string) (tok : string) (now : Z) : gmap nat doc :=
  if bool_decide (loaded = Some tok) then users
  else alter (set_refreshToken (Some tok) now) id users.

(** [User.findByIdAndUpdate(id, fields, { new: true, runValidators:
    true })]: setters and validators of the paths that are set, then the
    write under the unique e-mail index; the updated document, or null
    when there is none with this id. *)
Definition findByIdAndUpdate (users : gmap nat doc) (id : nat)
    (name' email' role' : option string) (now : Z)
    : Err + (gmap nat doc * option doc) :=
  let n := set_name <$> name' in
  let e := set_email <$> email' in
  let errors := from_option validate_name [] n
                ++ from_option validate_email [] e
                ++ from_option validate_role [] role' in
  match errors with
  | _ :: _ => inl (ValidationError errors)
  | [] =>
      match users !! id with
      | None => inr (users, None)
      | Some u =>
          let u' := {| _id := _id u; name := default (name u) n;
                       email := default (email u) e;
                       password := password u;
                       role := default (role u) role';
                       refreshToken := refreshToken u;
                       passwordChangedAt := passwordChangedAt u;
                       createdAt := createdAt u; updatedAt := now |} in
          match find_email (delete id users) (email u') with
          | Some _ => inl (DuplicateKey "email")
          | None => inr (<[id := u']> users, Some u')
          end
      end
  end.

(** [User.findByIdAndDelete(id)] *)
Definition findByIdAndDelete (users : gmap nat doc) (id : nat) : gmap nat doc :=
  delete id users.

(** Method: check if password changed after token was issued.  The
    timestamp of the change is cut to whole seconds. *)
Definition changedPasswordAfter (u : doc) (JWTTimestamp : Z) : bool :=
  match passwordChangedAt u with
  | Some changed => (JWTTimestamp <? Z.quot changed 1000)%Z
  | None => false
  end.

Definition InvalidCredentialsError : Err :=
  {| err_name := "Error"; err_message := "Invalid credentials";
     err_code := None; err_keyField := None; err_statusCode := None;
     err_errors := [] |}.

(** Static: find user by credentials. *)
Definition findByCredentials (users : gmap nat doc) (email password : string)
    : Err + doc :=
  match findOne_email users email with
  | None => inl InvalidCredentialsError
  | Some user =>
      if negb (comparePassword user password)
      then inl InvalidCredentialsError else inr user
  end.

Definition set_password (p : string) (u : doc) : doc :=
  {| _id := _id u; name := name u; email := email u; password := p;
     role := role u; refreshToken := refreshToken u;
     passwordChangedAt := passwordChangedAt u;
     createdAt := createdAt u; updatedAt := updatedAt u |}.

(** [user.password = newPassword; user.save()] on a loaded account:
    validation of the document, the pre-save hook when the password
    differs from the loaded one, then the write of the paths that
    changed. *)
Definition save_password (users : gmap nat doc) (u : doc) (newPassword : string)
    (salt : string) (now : Z) : Err + (gmap nat doc * doc) :=
  let u1 := set_password newPassword u in
  let errors := validate_name (name u1) ++ validate_email (email u1)
                ++ validate_password (password u1)
                ++ validate_role (role u1) in
  match errors with
  | _ :: _ => inl (ValidationError errors)
  | [] =>
      let modified := bool_decide (newPassword ≠ password u) in
      let u2 := pre_save false modified salt now u1 in
      if modified
      then
        inr (alter (λ stored,
               {| _id := _id stored; name := name stored;
                  email := email stored; password := password u2;
                  role := role stored; refreshToken := refreshToken stored;
                  passwordChangedAt := passwordChangedAt u2;
                  createdAt := createdAt stored; updatedAt := now |})
               (_id u) users, u2)
      else inr (users, u2)
  end.

End schema.

End User.

(** ** models/Task.js *)

Module Task.

Record doc := {
  _id : nat;
  title : string;
  description : option string;
  status : string;
  priority : string;
  dueDate : option Z;
  tags : list string;
  user : nat;
  completedAt : option Z;
  createdAt : Z;
  updatedAt : Z
}.

#[global] Instance doc_eq_dec : EqDecision doc.
Proof. solve_decision. Defined.

Definition statuses : list string := ["pending"; "in-progress"; "completed"].
Definition priorities : list string := ["low"; "medium"; "high"].

(** Schema setters. *)
Definition set_title (s : string) : string := Js.trim s.
Definition set_description (s : string) : string := Js.trim s.
Definition set_tag (s : string) : string := Js.toLowerCase (Js.trim s).

Definition set_completedAt (c : option Z) (t : doc) : doc :=
  {| _id := _id t; title := title t; description := description t;
     status := status t; priority := priority t; dueDate := dueDate t;
     tags := tags t; user := user t; completedAt := c;
     createdAt := createdAt t; updatedAt := updatedAt t |}.

Definition set_updatedAt (now : Z) (t : doc) : doc :=
  {| _id := _id t; title := title t; description := description t;
     status := status t; priority := priority t; dueDate := dueDate t;
     tags := tags t; user := user t; completedAt := completedAt t;
     createdAt := createdAt t; updatedAt := now |}.

Definition validate_title (v : string) : list (string * string) :=
  if String.eqb v "" then [("title", "Task title is required")]
  else if Js.length v <? 3 then [("title", "Title must be at least 3 characters")]
  else if 100 <? Js.length v then [("title", "Title cannot exceed 100 characters")]
  else [].

Definition validate_description (v : option string) : list (string * string) :=
  match v with
  | Some d =>
      if 1000 <? Js.length d
      then [("description", "Description cannot exceed 1000 characters")]
      else []
  | None => []
  end.

Definition validate_status (v : string) : list (string * string) :=
  if bool_decide (v ∈ statuses) then []
  else [("status", "Status must be pending, in-progress, or completed")].

Definition validate_priority (v : string) : list (string * string) :=
  if bool_decide (v ∈ priorities) then []
  else [("priority", "Priority must be low, medium, or high")].

(** The validator of [dueDate]; [today] is the local midnight before the
    clock reading. *)
Definition validate_dueDate (isNew : bool) (today : Z) (v : option Z)
    : list (string * string) :=
  match v with
  | Some d =>
      if isNew && negb (today <=? d)%Z
      then [("dueDate", "Due date must be today or in the future")]
      else []
  | None => []
  end.

Definition validate (isNew : bool) (today : Z) (t : doc) : list (string * string) :=
  validate_title (title t) ++ validate_description (description t)
  ++ validate_status (status t) ++ validate_priority (priority t)
  ++ validate_dueDate isNew today (dueDate t).

(** Pre-save middleware: keep [completedAt] in step with [status]. *)
Definition pre_save (statusModified : bool) (now : Z) (t : doc) : doc :=
  let t1 :=
    if statusModified && String.eqb (status t) "completed"
    then set_completedAt (Some now) t else t in
  if statusModified && negb (String.eqb (status t1) "completed")
  then set_completedAt None t1 else t1.

(** [Task.create(fields)]: setters and defaults, validation, the pre-save
    hook, then the insert. *)
Definition create (tasks : gmap nat doc)
    (title description status priority : option string)
    (dueDate : option (option Z)) (tags : option (list string)) (owner : nat)
    (newId : nat) (now today : Z) : Err + (gmap nat doc * doc) :=
  let t := {| _id := newId; title := set_title (default "" title);
              description := set_description <$> description;
              status := default "pending" status;
              priority := default "medium" priority;
              dueDate := mjoin dueDate;
              tags := set_tag <$> default [] tags;
              user := owner; completedAt := None;
              createdAt := now; updatedAt := now |} in
  match validate true today t with
  | (_ :: _) as errors => inl (ValidationError errors)
  | [] =>
      let t' := pre_save (bool_decide (is_Some status)) now t in
      if bool_decide (is_Some (tasks !! newId)) then inl (DuplicateKey "_id")
      else inr (<[newId := t']> tasks, t')
  end.

(** [task.save()] of a document loaded as [old] and changed to [t]:
    validation of the document, the pre-save hook, the timestamp, then
    the write. An unchanged document is not written. *)
Definition save (tasks : gmap nat doc) (old t : doc) (now today : Z)
    : Err + (gmap nat doc * doc) :=
  match validate false today t with
  | (_ :: _) as errors => inl (ValidationError errors)
  | [] =>
      let t' := pre_save (bool_decide (status t ≠ status old)) now t in
      let t'' := if bool_decide (t' = old) then t' else set_updatedAt now t' in
      inr (<[_id old := t'']> tasks, t'')
  end.

(** [findOne({ _id, user })] *)
Definition findOne_owned (tasks : gmap nat doc) (id owner : nat) : option doc :=
  match tasks !! id with
  | Some t => if bool_decide (user t = owner) then Some t else None
  | None => None
  end.

(** [findOne({ _id })] *)
Definition findOne_id (tasks : gmap nat doc) (id : nat) : option doc :=
  tasks !! id.

(** [find(query)]: the matching documents in storage order. *)
Definition find (tasks : gmap nat doc) (query : doc → bool) : list doc :=
  filter (λ t, query t = true) (map_to_list tasks).*2.

Definition countDocuments (tasks : gmap nat doc) (query : doc → bool) : Z :=
  Z.of_nat (length (find tasks query)).

(** [deleteMany(query)] *)
Definition deleteMany (tasks : gmap nat doc) (query : doc → bool) : gmap nat doc :=
  filter (λ kv, query kv.2 = false) tasks.

(** [updateMany(query, update)]: the new documents and [modifiedCount]. *)
Definition updateMany (tasks : gmap nat doc) (query : doc → bool)
    (update : doc → doc) : gmap nat doc * nat :=
  ((λ t, if query t then update t else t) <$> tasks,
   length (filter (λ t, query t = true ∧ update t ≠ t) (map_to_list tasks).*2)).

(** Every document is stored under its own [_id]. *)
Definition keyed (tasks : gmap nat doc) : Prop :=
  map_Forall (λ k t, _id t = k) tasks.

(** Virtual: check if task is overdue. *)
Definition isOverdue (now : Z) (t : doc) : bool :=
  if String.eqb (status t) "completed" || bool_decide (dueDate t = None)
  then false
  else from_option (λ due, (due <? now)%Z) false (dueDate t).

(** [$group] by a field with [count: { $sum: 1 }], reduced to an object
    from the values of the field to the counts. *)
Definition count_by (key : doc → string) (l : list doc) : gmap string nat :=
  foldr (λ t acc, <[key t := S (default 0 (acc !! key t))]> acc) ∅ l.

(** Static: get task statistics for a user. *)
Definition getStats (tasks : gmap nat doc) (userId : nat)
    : gmap string nat * gmap string nat :=
  let owned := find tasks (λ t, bool_decide (user t = userId)) in
  (count_by status owned, count_by priority owned).

End Task.

(** ** validators/task.validator.js *)

Module TaskValidator.








End TaskValidator.

(** ** The storage engine: ordering and pattern matching *)

(** [sort({ field: direction })] on task documents, the case-insensitive
    [$regex] match of a pattern against a string, and the message of the
    error for a negative number of documents to skip. *)
Class Mongo := {
  mongo_sort : string → Z → list Task.doc → list Task.doc;
  regex_match_i : string → string → bool;
  skip_message : Z → string
}.

(** [sort({ field: direction })] on user documents. *)
Class MongoUsers := {
  users_sort : string → Z → list User.doc → list User.doc
}.

(** [find(...).skip(skip).limit(limit)] on the sorted matches: a negative
    skip is rejected, limit 0 is no limit and a negative limit is its
    absolute value.  A skip or a limit beyond the integers of the store (an
    infinity) counts as the largest of them, which is more than the
    documents there are. *)
Definition cursor `{!Mongo} {A} (docs : list A) (skip limit : Z) : Err + list A :=
  if (skip <? 0)%Z then inl (BadCursor (skip_message skip))
  else
    let rest := drop (Z.to_nat skip) docs in
    inr (if (limit =? 0)%Z then rest else take (Z.to_nat (Z.abs limit)) rest).

Record Db := {
  users : gmap nat User.doc;
  tasks : gmap nat Task.doc
}.

(** ** Responses *)

Record UserView := {
  view_id : nat;
  view_name : string;
  view_email : string;
  view_role : string
}.

Definition view (u : User.doc) : UserView :=
  {| view_id := User._id u; view_name := User.name u;
     view_email := User.email u; view_role := User.role u |}.

Inductive Data :=
| NoData
| AuthData (u : UserView) (accessToken refreshToken : string)
| TokenData (accessToken refreshToken : string)
| TaskData (t : Task.doc)
| TaskPage (tasks : list Task.doc) (page limit total pages : Z)
| UserData (u : option UserView).

Record Response := {
  statusCode : nat;
  success : bool;
  message : option string;
  data : Data;
  errors : list (string * string)
}.

(** What a handler does with the request: answer, or pass an error on. *)
Inductive Outcome :=
| Json (r : Response)
| Next (e : Err).

Definition fail (code : nat) (msg : string) : Response :=
  {| statusCode := code; success := false; message := Some msg;
     data := NoData; errors := [] |}.

Definition ok (code : nat) (msg : option string) (d : Data) : Response :=
  {| statusCode := code; success := true; message := msg;
     data := d; errors := [] |}.

(** ** middleware/errorHandler.js

    The [stack] property that the handler adds in development mode is left
    out of the response. *)

(** The upper case of the first character of a field name: the letters a
    to z and U+00E0 to U+00FE (the division sign U+00F7 apart) are 32 above
    their upper case.  The field is a path of a unique index of the
    schemas; the three code units whose upper case is no single code unit
    below 256 (U+00B5, U+00DF, U+00FF) start none of them. *)
Definition upper_char (c : ascii) : ascii :=
  let n := nat_of_ascii c in
  if (97 <=? n)%nat && (n <=? 122)%nat
     || (224 <=? n)%nat && (n <=? 254)%nat && negb (n =? 247)%nat
  then ascii_of_nat (n - 32) else c.

Definition capitalize (s : string) : string :=
  match s with
  | String c r => String (upper_char c) r
  | EmptyString => EmptyString
  end.

Definition errorHandler (err : Err) : Response :=
  let error0 := (err_message err, err_statusCode err, err_errors err) in
  let error1 :=
    if String.eqb (err_name err) "CastError"
    then ("Resource not found", Some 404, []) else error0 in
  let error2 :=
    if bool_decide (err_code err = Some 11000%Z)
    then (capitalize (default "" (err_keyField err)) +:+ " already exists",
          Some 400, [])
    else error1 in
  let error3 :=
    if String.eqb (err_name err) "ValidationError"
    then ("Validation failed", Some 400, err_errors err) else error2 in
  let error4 :=
    if String.eqb (err_name err) "JsonWebTokenError"
    then ("Invalid token", Some 401, []) else error3 in
  let error5 :=
    if String.eqb (err_name err) "TokenExpiredError"
    then ("Token expired", Some 401, []) else error4 in
  let '(msg, code, errs) := error5 in
  {| statusCode := match code with Some (S n) => S n | _ => 500 end;
     success := false;
     message := Some (if String.eqb msg "" then "Server Error" else msg);
     data := NoData;
     errors := errs |}.

(** The response the client receives. *)
Definition respond (o : Outcome) : Response :=
  match o with
  | Json r => r
  | Next e => errorHandler e
  end.

(** ** controllers/auth.controller.js *)

Module AuthController.

Record RegisterBody := {
  reg_name : option string;
  reg_email : option string;
  reg_password : option string;
  reg_role : option string
}.

Record LoginBody := {
  login_email : option string;
  login_password : option string
}.

(** bcrypt rejects a candidate that is not a string. *)
Definition IllegalArguments : Err :=
  {| err_name := "Error"; err_message := "Illegal arguments: undefined, string";
     err_code := None; err_keyField := None; err_statusCode := None;
     err_errors := [] |}.

Record PasswordBody := {
  pw_current : option string;
  pw_new : option string
}.

Record ProfileBody := {
  prof_name : option string;
  prof_email : option string
}.

(** A property is read from the account that the lookup did not find. *)
Definition NullAccount (property : string) : Err :=
  {| err_name := "TypeError";
     err_message :=
       "Cannot read properties of null (reading '" +:+ property +:+ "')";
     err_code := None; err_keyField := None; err_statusCode := None;
     err_errors := [] |}.

(** The program points of [refreshToken] between its storage operations:
    before the read, between the read and the write (with the token the
    account was loaded with), and after the response. *)
Inductive RefreshPc :=
| Start (presented : option string)
| Saving (id : nat) (loaded : option string)
    (newAccessToken newRefreshToken : string)
| Done (o : Outcome).

Section handlers.
Context `{!Bcrypt} `{!Jwt} `{!EmailPattern} (env : Env).

(** Generate tokens and send response.  None of the callers has loaded
    the refresh token of the account. *)
Definition sendTokenResponse (user : User.doc) (code : nat) (msg : string)
    (now : Z) (db : Db) : Db * Outcome :=
  let accessToken := User.generateAccessToken env user now in
  let refreshToken := User.generateRefreshToken env user now in
  let db' := {| users := User.save_refreshToken (users db) (User._id user)
                           None refreshToken now;
                tasks := tasks db |} in
  (db', Json (ok code (Some msg)
                (AuthData (view user) accessToken refreshToken))).

Definition register (body : RegisterBody) (newId : nat) (salt : string)
    (now : Z) (db : Db) : Db * Outcome :=
  match reg_email body ≫= User.findOne_email (users db) with
  | Some _ => (db, Json (fail 400 "User with this email already exists"))
  | None =>
      let validRole :=
        if Js.includes ["user"; "admin"] (reg_role body)
        then default "user" (reg_role body) else "user" in
      match User.create (users db) (reg_name body) (reg_email body)
              (reg_password body) validRole newId salt now with
      | inl e => (db, Next e)
      | inr (users', user) =>
          sendTokenResponse user 201 "Registration successful" now
            {| users := users'; tasks := tasks db |}
      end
  end.

Definition login (body : LoginBody) (now : Z) (db : Db) : Db * Outcome :=
  match login_email body ≫= User.findOne_email (users db) with
  | None => (db, Json (fail 401 "Invalid credentials"))
  | Some user =>
      match login_password body with
      | None => (db, Next IllegalArguments)
      | Some password =>
          if negb (User.comparePassword user password)
          then (db, Json (fail 401 "Invalid credentials"))
          else sendTokenResponse user 200 "Login successful" now db
      end
  end.

(** The handler answers the two errors of [jwt.verify] itself; its
    storage operations do not fail here, so nothing is passed on. *)
Definition refreshToken (presented : option string) (now : Z) (db : Db)
    : Db * Outcome :=
  if negb (Js.truthy presented)
  then (db, Json (fail 400 "Refresh token is required"))
  else
    let tok := default "" presented in
    match jwt_verify tok (JWT_REFRESH_SECRET env) now with
    | JsonWebTokenError | TokenExpiredError =>
        (db, Json (fail 401 "Invalid or expired refresh token"))
    | Decoded decoded =>
        match User.findById (users db) (claim_id decoded) with
        | None => (db, Json (fail 401 "Invalid refresh token"))
        | Some user =>
            if bool_decide (User.refreshToken user ≠ Some tok)
            then (db, Json (fail 401 "Invalid refresh token"))
            else
              let newAccessToken := User.generateAccessToken env user now in
              let newRefreshToken := User.generateRefreshToken env user now in
              ({| users := User.save_refreshToken (users db) (User._id user)
                             (User.refreshToken user) newRefreshToken now;
                  tasks := tasks db |},
               Json (ok 200 (Some "Token refreshed successfully")
                       (TokenData newAccessToken newRefreshToken)))
        end
    end.

(** One storage operation of a [refreshToken] call, with the code that
    follows it up to the next one: the read of the account with the
    comparison, then the write with the response. *)
Definition refresh_step (now : Z) (db : Db) (pc : RefreshPc) : Db * RefreshPc :=
  match pc with
  | Start presented =>
      if negb (Js.truthy presented)
      then (db, Done (Json (fail 400 "Refresh token is required")))
      else
        let tok := default "" presented in
        match jwt_verify tok (JWT_REFRESH_SECRET env) now with
        | JsonWebTokenError | TokenExpiredError =>
            (db, Done (Json (fail 401 "Invalid or expired refresh token")))
        | Decoded decoded =>
            match User.findById (users db) (claim_id decoded) with
            | None => (db, Done (Json (fail 401 "Invalid refresh token")))
            | Some user =>
                if bool_decide (User.refreshToken user ≠ Some tok)
                then (db, Done (Json (fail 401 "Invalid refresh token")))
                else (db, Saving (User._id user) (User.refreshToken user)
                            (User.generateAccessToken env user now)
                            (User.generateRefreshToken env user now))
            end
        end
  | Saving id loaded newAccessToken newRefreshToken =>
      ({| users := User.save_refreshToken (users db) id loaded
                     newRefreshToken now;
          tasks := tasks db |},
       Done (Json (ok 200 (Some "Token refreshed successfully")
                     (TokenData newAccessToken newRefreshToken))))
  | Done o => (db, Done o)
  end.

(** Logout user / clear token. *)
Definition logout (caller : User.doc) (now : Z) (db : Db) : Db * Outcome :=
  ({| users := alter (User.set_refreshToken None now) (User._id caller) (users db);
      tasks := tasks db |},
   Json {| statusCode := 200; success := true;
           message := Some "Logged out successfully";
           data := NoData; errors := [] |}).

Definition updatePassword (caller : User.doc) (body : PasswordBody)
    (salt : string) (now : Z) (db : Db) : Db * Outcome :=
  match User.findById (users db) (User._id caller) with
  | None => (db, Next (NullAccount "comparePassword"))
  | Some user =>
      match pw_current body with
      | None => (db, Next IllegalArguments)
      | Some currentPassword =>
          if negb (User.comparePassword user currentPassword)
          then (db, Json (fail 401 "Current password is incorrect"))
          else
            match User.save_password (users db) user
                    (default "" (pw_new body)) salt now with
            | inl e => (db, Next e)
            | inr (users', user') =>
                sendTokenResponse user' 200 "Password updated successfully" now
                  {| users := users'; tasks := tasks db |}
            end
      end
  end.

Definition updateProfile (caller : User.doc) (body : ProfileBody)
    (now : Z) (db : Db) : Db * Outcome :=
  let taken :=
    if Js.truthy (prof_email body)
       && bool_decide (prof_email body ≠ Some (User.email caller))
    then prof_email body ≫= User.findOne_email (users db)
    else None in
  match taken with
  | Some _ => (db, Json (fail 400 "Email is already in use"))
  | None =>
      match User.findByIdAndUpdate (users db) (User._id caller)
              (if Js.truthy (prof_name body) then prof_name body else None)
              (if Js.truthy (prof_email body) then prof_email body else None)
              None now with
      | inl e => (db, Next e)
      | inr (_, None) => (db, Next (NullAccount "_id"))
      | inr (users', Some user) =>
          ({| users := users'; tasks := tasks db |},
           Json (ok 200 (Some "Profile updated successfully")
                   (UserData (Some (view user)))))
      end
  end.

(** Two concurrent calls under a schedule: [true] lets the first call
    take its next step, [false] the second. *)
Fixpoint interleave (schedule : list bool) (now1 now2 : Z) (db : Db)
    (pc1 pc2 : RefreshPc) : Db * RefreshPc * RefreshPc :=
  match schedule with
  | [] => (db, pc1, pc2)
  | true :: rest =>
      let '(db', pc1') := refresh_step now1 db pc1 in
      interleave rest now1 now2 db' pc1' pc2
  | false :: rest =>
      let '(db', pc2') := refresh_step now2 db pc2 in
      interleave rest now1 now2 db' pc1 pc2'
  end.

End handlers.

End AuthController.

(** ** controllers/task.controller.js *)

Module TaskController.

Record ListQuery := {
  q_page : option string;
  q_limit : option string;
  q_status : option string;
  q_priority : option string;
  q_search : option string;
  q_tags : option string;
  q_sortBy : option string;
  q_order : option string
}.

Record TaskBody := {
  b_title : option string;
  b_description : option string;
  b_status : option string;
  b_priority : option string;
  b_dueDate : option (option Z);   (* absent, null or a date *)
  b_tags : option (list string)
}.

Record BulkBody := {
  taskIds : option (list string);   (* [None]: absent or not an array *)
  bulk_status : option string
}.


(** The data of the statistics response. *)
Record TaskStatsData := {
  byStatus : gmap string nat;
  byPriority : gmap string nat;
  overdue : Z;
  dueToday : Z
}.

Record AdminQuery := {
  aq_page : option string;
  aq_limit : option string;
  aq_userId : option nat;
  aq_status : option string
}.

Record OwnerView := {
  owner_id : nat;
  owner_name : string;
  owner_email : string
}.



Definition page_of (q : ListQuery) : Z := Js.num_or (Js.parseInt (q_page q)) 1.
Definition limit_of (q : ListQuery) : Z := Js.num_or (Js.parseInt (q_limit q)) 10.

Definition sort_of (q : ListQuery) : string * Z :=
  if Js.truthy (q_sortBy q)
  then (default "" (q_sortBy q),
        if bool_decide (q_order q = Some "asc") then 1%Z else (-1)%Z)
  else ("createdAt", (-1)%Z).

Definition wanted_tags (q : ListQuery) : list string :=
  (λ tag, Js.toLowerCase (Js.trim tag)) <$> Js.split "," (default "" (q_tags q)).

(** The fields assigned by [updateTask]. *)
Definition assign (task : Task.doc) (body : TaskBody) : Task.doc :=
  {| Task._id := Task._id task;
     Task.title :=
       if Js.truthy (b_title body)
       then Task.set_title (default "" (b_title body)) else Task.title task;
     Task.description :=
       match b_description body with
       | Some d => Some (Task.set_description d)
       | None => Task.description task
       end;
     Task.status :=
       if Js.truthy (b_status body)
       then default "" (b_status body) else Task.status task;
     Task.priority :=
       if Js.truthy (b_priority body)
       then default "" (b_priority body) else Task.priority task;
     Task.dueDate :=
       match b_dueDate body with
       | Some d => d
       | None => Task.dueDate task
       end;
     Task.tags :=
       match b_tags body with
       | Some l => Task.set_tag <$> l
       | None => Task.tags task
       end;
     Task.user := Task.user task;
     Task.completedAt := Task.completedAt task;
     Task.createdAt := Task.createdAt task;
     Task.updatedAt := Task.updatedAt task |}.

(** The update document of [bulkUpdateStatus]. *)
Definition bulk_update (s : string) (now : Z) (t : Task.doc) : Task.doc :=
  {| Task._id := Task._id t; Task.title := Task.title t;
     Task.description := Task.description t;
     Task.status := s; Task.priority := Task.priority t;
     Task.dueDate := Task.dueDate t; Task.tags := Task.tags t;
     Task.user := Task.user t;
     Task.completedAt := if String.eqb s "completed" then Some now else None;
     Task.createdAt := Task.createdAt t; Task.updatedAt := now |}.

Section handlers.
Context `{!Mongo} `{!ObjectIds}.

(** The cast of the elements of [{ _id: { $in: taskIds } }]: the first
    one that is no ObjectId raises the cast error. *)
Fixpoint cast_ids (raw : list string) : Err + list nat :=
  match raw with
  | [] => inr []
  | s :: rest =>
      match castObjectId s with
      | None => inl (CastError s)
      | Some id =>
          match cast_ids rest with
          | inl e => inl e
          | inr ids => inr (id :: ids)
          end
      end
  end.

(** The query document built by [getTasks]. *)
Definition list_query (caller : User.doc) (q : ListQuery) (t : Task.doc) : bool :=
  bool_decide (Task.user t = User._id caller)
  && (if Js.truthy (q_status q)
      then bool_decide (Some (Task.status t) = q_status q) else true)
  && (if Js.truthy (q_priority q)
      then bool_decide (Some (Task.priority t) = q_priority q) else true)
  && (if Js.truthy (q_search q)
      then regex_match_i (default "" (q_search q)) (Task.title t)
           || from_option (regex_match_i (default "" (q_search q))) false
                (Task.description t)
      else true)
  && (if Js.truthy (q_tags q)
      then existsb (λ tag, bool_decide (tag ∈ wanted_tags q)) (Task.tags t)
      else true).

(** The query sorts before it skips and limits, whatever the order of
    the calls that build it. *)
Definition getTasks (caller : User.doc) (q : ListQuery) (db : Db) : Db * Outcome :=
  let page := page_of q in
  let limit := limit_of q in
  let skip := Js.mul (Js.sub page 1) limit in
  let query := list_query caller q in
  let '(field, dir) := sort_of q in
  match cursor (mongo_sort field dir (Task.find (tasks db) query)) skip limit with
  | inl e => (db, Next e)
  | inr found =>
      let total := Task.countDocuments (tasks db) query in
      (db, Json (ok 200 None
                   (TaskPage found page limit total (Js.ceil_div total limit))))
  end.

Definition getTask (caller : User.doc) (id : nat) (db : Db) : Db * Outcome :=
  match Task.findOne_owned (tasks db) id (User._id caller) with
  | None => (db, Json (fail 404 "Task not found"))
  | Some task => (db, Json (ok 200 None (TaskData task)))
  end.

Definition createTask (caller : User.doc) (body : TaskBody) (newId : nat)
    (now today : Z) (db : Db) : Db * Outcome :=
  match Task.create (tasks db) (b_title body) (b_description body)
          (b_status body) (b_priority body) (b_dueDate body) (b_tags body)
          (User._id caller) newId now today with
  | inl e => (db, Next e)
  | inr (tasks', task) =>
      ({| users := users db; tasks := tasks' |},
       Json (ok 201 (Some "Task created successfully") (TaskData task)))
  end.

Definition updateTask (caller : User.doc) (id : nat) (body : TaskBody)
    (now today : Z) (db : Db) : Db * Outcome :=
  (* Admin can update any task, regular users can only update their own *)
  let found :=
    if bool_decide (User.role caller ≠ "admin")
    then Task.findOne_owned (tasks db) id (User._id caller)
    else Task.findOne_id (tasks db) id in
  match found with
  | None => (db, Json (fail 404 "Task not found"))
  | Some task =>
      match Task.save (tasks db) task (assign task body) now today with
      | inl e => (db, Next e)
      | inr (tasks', task') =>
          ({| users := users db; tasks := tasks' |},
           Json (ok 200 (Some "Task updated successfully") (TaskData task')))
      end
  end.

Definition deleteTask (caller : User.doc) (id : nat) (db : Db) : Db * Outcome :=
  match Task.findOne_owned (tasks db) id (User._id caller) with
  | None => (db, Json (fail 404 "Task not found"))
  | Some _ =>
      ({| users := users db; tasks := delete id (tasks db) |},
       Json (ok 200 (Some "Task deleted successfully") NoData))
  end.

Definition bulkUpdateStatus (caller : User.doc) (body : BulkBody) (now : Z)
    (db : Db) : Db * Outcome :=
  match taskIds body with
  | None | Some [] => (db, Json (fail 400 "Task IDs array is required"))
  | Some raw =>
      if negb (Js.includes ["pending"; "in-progress"; "completed"] (bulk_status body))
      then (db, Json (fail 400 "Invalid status"))
      else
        match cast_ids raw with
        | inl e => (db, Next e)
        | inr ids =>
            let s := default "" (bulk_status body) in
            let '(tasks', modifiedCount) :=
              Task.updateMany (tasks db)
                (λ t, bool_decide (Task._id t ∈ ids)
                      && bool_decide (Task.user t = User._id caller))
                (bulk_update s now) in
            ({| users := users db; tasks := tasks' |},
             Json (ok 200
                     (Some (pretty modifiedCount +:+ " tasks updated successfully"))
                     NoData))
        end
  end.

Definition bulkDelete (caller : User.doc) (body : BulkBody) (db : Db)
    : Db * Outcome :=
  match taskIds body with
  | None | Some [] => (db, Json (fail 400 "Task IDs array is required"))
  | Some raw =>
      match cast_ids raw with
      | inl e => (db, Next e)
      | inr ids =>
          let query t := bool_decide (Task._id t ∈ ids)
                         && bool_decide (Task.user t = User._id caller) in
          let deletedCount := length (Task.find (tasks db) query) in
          ({| users := users db; tasks := Task.deleteMany (tasks db) query |},
           Json (ok 200
                   (Some (pretty deletedCount +:+ " tasks deleted successfully"))
                   NoData))
      end
  end.

(** Get task statistics: the answer is always 200 with these data.
    [today] and [tomorrow] are the local midnights around the clock
    reading. *)
Definition getTaskStats (caller : User.doc) (now today tomorrow : Z) (db : Db)
    : TaskStatsData :=
  let stats := Task.getStats (tasks db) (User._id caller) in
  let overdueTasks :=
    Task.countDocuments (tasks db)
      (λ t, bool_decide (Task.user t = User._id caller)
            && negb (String.eqb (Task.status t) "completed")
            && from_option (λ due, (due <? now)%Z) false (Task.dueDate t)) in
  let tasksDueToday :=
    Task.countDocuments (tasks db)
      (λ t, bool_decide (Task.user t = User._id caller)
            && negb (String.eqb (Task.status t) "completed")
            && from_option (λ due, (today <=? due)%Z && (due <? tomorrow)%Z)
                 false (Task.dueDate t)) in
  {| byStatus := stats.1; byPriority := stats.2;
     overdue := overdueTasks; dueToday := tasksDueToday |}.

(** The query document built by [getAllTasksAdmin]. *)
Definition admin_query (q : AdminQuery) (t : Task.doc) : bool :=
  from_option (λ owner, bool_decide (Task.user t = owner)) true (aq_userId q)
  && (if Js.truthy (aq_status q)
      then bool_decide (Some (Task.status t) = aq_status q) else true).

(** [populate('user', 'name email')] *)
Definition populate (users : gmap nat User.doc) (t : Task.doc)
    : Task.doc * option OwnerView :=
  (t, (λ u, {| owner_id := User._id u; owner_name := User.name u;
               owner_email := User.email u |}) <$> users !! Task.user t).

(** Get all tasks (admin only): the page of populated tasks with the
    pagination fields, or the error passed on. *)
Definition getAllTasksAdmin (q : AdminQuery) (db : Db)
    : Err + (list (Task.doc * option OwnerView) * (Z * Z * Z * Z)) :=
  let page := Js.num_or (Js.parseInt (aq_page q)) 1 in
  let limit := Js.num_or (Js.parseInt (aq_limit q)) 10 in
  let skip := Js.mul (Js.sub page 1) limit in
  match cursor (mongo_sort "createdAt" (-1) (Task.find (tasks db) (admin_query q)))
          skip limit with
  | inl e => inl e
  | inr found =>
      let total := Task.countDocuments (tasks db) (admin_query q) in
      inr (populate (users db) <$> found,
           (page, limit, total, Js.ceil_div total limit))
  end.

End handlers.

End TaskController.

(** ** controllers/user.controller.js *)

Module UserController.

Record UpdateBody := {
  upd_name : option string;
  upd_email : option string;
  upd_role : option string
}.

Record RecentUser := {
  recent_id : nat;
  recent_name : string;
  recent_email : string;
  recent_role : string;
  recent_createdAt : Z
}.

(** The data of the user statistics; [regular] is the field [users]. *)
Record UserStatsData := {
  total : Z;
  admins : Z;
  regular : Z;
  recentUsers : list RecentUser
}.

Record CreateBody := {
  new_name : option string;
  new_email : option string;
  new_password : option string;
  new_role : option string
}.

Definition keep_truthy (v : option string) : option string :=
  if Js.truthy v then v else None.

Section handlers.
Context `{!EmailPattern} `{!ObjectIds}.

(** [id] is [req.params.id], the string of the route.  The queries cast
    it to an ObjectId; the guard compares it, as it is, with the string
    of the caller's id. *)
Definition updateUser (caller : User.doc) (id : string) (body : UpdateBody)
    (now : Z) (db : Db) : Db * Outcome :=
  match castObjectId id with
  | None => (db, Next (CastError id))
  | Some oid =>
  match User.findById (users db) oid with
  | None => (db, Json (fail 404 "User not found"))
  | Some user =>
      (* Prevent admin from modifying their own role *)
      if bool_decide (idToString (User._id caller) = id)
         && Js.truthy (upd_role body)
         && bool_decide (upd_role body ≠ Some (User.role caller))
      then (db, Json (fail 400 "You cannot change your own role"))
      else
        let taken :=
          if Js.truthy (upd_email body)
             && bool_decide (upd_email body ≠ Some (User.email user))
          then upd_email body ≫= User.findOne_email (users db)
          else None in
        match taken with
        | Some _ => (db, Json (fail 400 "Email is already in use"))
        | None =>
            match User.findByIdAndUpdate (users db) oid
                    (keep_truthy (upd_name body)) (keep_truthy (upd_email body))
                    (keep_truthy (upd_role body)) now with
            | inl e => (db, Next e)
            | inr (users', updated) =>
                ({| users := users'; tasks := tasks db |},
                 Json (ok 200 (Some "User updated successfully")
                         (UserData (view <$> updated))))
            end
        end
  end
  end.

Definition deleteUser (caller : User.doc) (id : string) (db : Db)
    : Db * Outcome :=
  match castObjectId id with
  | None => (db, Next (CastError id))
  | Some oid =>
  match User.findById (users db) oid with
  | None => (db, Json (fail 404 "User not found"))
  | Some _ =>
      (* Prevent admin from deleting themselves *)
      if bool_decide (idToString (User._id caller) = id)
      then (db, Json (fail 400 "You cannot delete your own account"))
      else
        (* Delete user's tasks first *)
        let tasks' := Task.deleteMany (tasks db)
                        (λ t, bool_decide (Task.user t = oid)) in
        let users' := User.findByIdAndDelete (users db) oid in
        ({| users := users'; tasks := tasks' |},
         Json (ok 200 (Some "User and associated tasks deleted successfully")
                 NoData))
  end
  end.

End handlers.

Section accounts.
Context `{!Bcrypt} `{!EmailPattern}.

Definition createUser (body : CreateBody) (newId : nat) (salt : string)
    (now : Z) (db : Db) : Db * Outcome :=
  match new_email body ≫= User.findOne_email (users db) with
  | Some _ => (db, Json (fail 400 "User with this email already exists"))
  | None =>
      match User.create (users db) (new_name body) (new_email body)
              (new_password body)
              (if Js.truthy (new_role body) then default "" (new_role body)
               else "user")
              newId salt now with
      | inl e => (db, Next e)
      | inr (users', user) =>
          ({| users := users'; tasks := tasks db |},
           Json (ok 201 (Some "User created successfully")
                   (UserData (Some (view user)))))
      end
  end.

(** Get user statistics; the answer is always 200 with these data. *)
Definition getUserStats `{!MongoUsers} (db : Db) : UserStatsData :=
  let all := (map_to_list (users db)).*2 in
  {| total := Z.of_nat (length all);
     admins := Z.of_nat (length (filter (λ u, User.role u = "admin") all));
     regular := Z.of_nat (length (filter (λ u, User.role u = "user") all));
     recentUsers :=
       (λ u, {| recent_id := User._id u; recent_name := User.name u;
                recent_email := User.email u; recent_role := User.role u;
                recent_createdAt := User.createdAt u |})
       <$> take 5 (users_sort "createdAt" (-1) all) |}.

End accounts.

End UserController.

(** ** The error classes of the specification, as responses *)

Definition InvalidOrExpiredToken (r : Response) : Prop :=
  r = fail 401 "Invalid refresh token"
  ∨ r = fail 401 "Invalid or expired refresh token".

Definition InvalidCredentials : Response := fail 401 "Invalid credentials".

Definition NotFound : Response := fail 404 "Task not found".

Definition ForbiddenSelfAction (r : Response) : Prop :=
  r = fail 400 "You cannot change your own role"
  ∨ r = fail 400 "You cannot delete your own account".

(** The completion timestamp is set exactly when the status is
    [completed]. *)
Definition completed_iff (t : Task.doc) : Prop :=
  is_Some (Task.completedAt t) ↔ Task.status t = "completed".

(** Every stored task has its completion timestamp in step with its
    status. *)
Definition completion_invariant (tasks : gmap nat Task.doc) : Prop :=
  map_Forall (λ _ t, completed_iff t) tasks.

(** A schedule of two calls of two steps each that runs both to the end. *)
Definition complete (schedule : list bool) : Prop :=
  length (filter (λ b, b = true) schedule) = 2
  ∧ length (filter (λ b, b = false) schedule) = 2.

(** Both calls read the account before either writes it. *)
Definition reads_first (schedule : list bool) : Prop :=
  take 2 schedule = [true; false] ∨ take 2 schedule = [false; true].

(** ** Fixtures: small instances of the services and sample data *)

Module Fixture.

#[local] Instance bcrypt : Bcrypt := {|
  bcrypt_hash p salt := "$2a$" +:+ salt +:+ "$" +:+ p;
  bcrypt_compare c d :=
    bool_decide (Exists (λ salt, d = "$2a$" +:+ salt +:+ "$" +:+ c) ["s1"; "s2"])
|}.

Definition sign (c : Claims) (secret ttl : string) (now : Z) : string :=
  secret +:+ "." +:+ pretty (claim_id c) +:+ "." +:+ pretty now.

Definition id_claims (id : nat) : Claims :=
  {| claim_id := id; claim_email := None; claim_role := None |}.

(** Tokens issued for accounts 0..4 at times 0..9. *)
Definition issued : list (nat * Z) :=
  id ← seq 0 5; iat ← seqZ 0 10; [(id, iat)].

Definition lookup_token (token secret : string) : option (nat * Z) :=
  snd <$> list_find (λ p, sign (id_claims p.1) secret "" p.2 = token) issued.

#[local] Instance jwt : Jwt := {|
  jwt_sign := sign;
  jwt_payload token secret := id_claims ∘ fst <$> lookup_token token secret;
  jwt_expired token now :=
    match lookup_token token "r" with
    | Some (_, iat) => (iat + 30 <=? now)%Z
    | None => false
    end
|}.

#[local] Instance emailPattern : EmailPattern := {|
  email_match e := bool_decide ("@"%char ∈ String.list_ascii_of_string e)
|}.

Fixpoint insert_by (le : Task.doc → Task.doc → bool) (x : Task.doc)
    (l : list Task.doc) : list Task.doc :=
  match l with
  | [] => [x]
  | y :: l' => if le x y then x :: l else y :: insert_by le x l'
  end.

Definition sort_by (le : Task.doc → Task.doc → bool) (l : list Task.doc)
    : list Task.doc :=
  foldr (insert_by le) [] l.

(** Orders by [createdAt], then by id; other fields are left in storage
    order. *)
#[local] Instance mongo : Mongo := {|
  mongo_sort field dir l :=
    if String.eqb field "createdAt"
    then sort_by (λ a b,
           let ka := (dir * Task.createdAt a)%Z in
           let kb := (dir * Task.createdAt b)%Z in
           (ka <? kb)%Z || ((ka =? kb)%Z && (Task._id a <=? Task._id b))) l
    else l;
  regex_match_i pat s := String.eqb (Js.toLowerCase pat) (Js.toLowerCase s);
  skip_message skip :=
    "BSON field 'skip' value must be >= 0, actual value '" +:+ pretty skip +:+ "'"
|}.

#[local] Instance mongoUsers : MongoUsers := {|
  users_sort field dir l := l
|}.

(** ObjectIds as strings of 24 hexadecimal digits, read in either case
    and written in lower case. *)
Definition hex_char (d : Z) : ascii :=
  ascii_of_nat (Z.to_nat (if (d <? 10)%Z then 48 + d else 87 + d)).

Fixpoint hex (digits : nat) (n : Z) (acc : string) : string :=
  match digits with
  | O => acc
  | S k => hex k (n / 16) (String (hex_char (n mod 16)) acc)
  end.

Definition is_hex (c : ascii) : bool :=
  bool_decide (is_Some (Js.digit_val 16 c)).

#[local] Instance objectIds : ObjectIds := {|
  castObjectId s :=
    if (String.length s =? 24)%nat
       && forallb is_hex (String.list_ascii_of_string s)
    then Z.to_nat <$> Js.digits 16 s None else None;
  idToString n := hex 24 (Z.of_nat n) ""
|}.

Definition env : Env :=
  {| JWT_SECRET := "a"; JWT_EXPIRE := None;
     JWT_REFRESH_SECRET := "r"; JWT_REFRESH_EXPIRE := None |}.

Definition mkUser (id : nat) (name email role : string)
    (tok : option string) : User.doc :=
  {| User._id := id; User.name := name; User.email := email;
     User.password := "$2a$s1$secret1"; User.role := role;
     User.refreshToken := tok; User.passwordChangedAt := None;
     User.createdAt := 0; User.updatedAt := 0 |}.

Definition mkTask (id owner : nat) (title status : string)
    (done : option Z) (created : Z) : Task.doc :=
  {| Task._id := id; Task.title := title; Task.description := None;
     Task.status := status; Task.priority := "medium";
     Task.dueDate := None; Task.tags := []; Task.user := owner;
     Task.completedAt := done; Task.createdAt := created;
     Task.updatedAt := created |}.

Definition admin : User.doc := mkUser 1 "Ada" "ada@example.com" "admin" (Some "r.1.0").
Definition bob : User.doc := mkUser 2 "Bob" "bob@example.com" "user" None.
Definition eve : User.doc := mkUser 171 "Eve" "eve@example.com" "admin" None.

Definition t10 : Task.doc := mkTask 10 2 "Write report" "pending" None 1.
Definition t11 : Task.doc := mkTask 11 2 "Review code" "completed" (Some 5%Z) 2.
Definition t12 : Task.doc := mkTask 12 2 "Plan sprint" "in-progress" None 3.
Definition t13 : Task.doc := mkTask 13 1 "Audit users" "pending" None 4.

Definition db0 : Db :=
  {| users := <[1 := admin]> (<[2 := bob]> ∅);
     tasks := <[10 := t10]> (<[11 := t11]> (<[12 := t12]> (<[13 := t13]> ∅))) |}.

(** A database with the administrator Eve, whose id has letters among
    its hexadecimal digits. *)
Definition db2 : Db :=
  {| users := <[171 := eve]> (<[2 := bob]> ∅);
     tasks := <[10 := t10]> (<[14 := mkTask 14 171 "Rotate keys" "pending" None 5]> ∅) |}.

(** The database after Ada's refresh token has been exchanged at time 3. *)
Definition db1 : Db :=
  (AuthController.refreshToken env (Some "r.1.0") 3 db0).1.

Definition noQuery : TaskController.ListQuery :=
  {| TaskController.q_page := None; TaskController.q_limit := None;
     TaskController.q_status := None; TaskController.q_priority := None;
     TaskController.q_search := None; TaskController.q_tags := None;
     TaskController.q_sortBy := None; TaskController.q_order := None |}.


Definition noBody : TaskController.TaskBody :=
  {| TaskController.b_title := None; TaskController.b_description := None;
     TaskController.b_status := None; TaskController.b_priority := None;
     TaskController.b_dueDate := None; TaskController.b_tags := None |}.

Definition statusBody (s : string) : TaskController.TaskBody :=
  {| TaskController.b_title := None; TaskController.b_description := None;
     TaskController.b_status := Some s; TaskController.b_priority := None;
     TaskController.b_dueDate := None; TaskController.b_tags := None |}.

Definition bulkBody (ids : list nat) (s : string) : TaskController.BulkBody :=
  {| TaskController.taskIds := Some (idToString <$> ids);
     TaskController.bulk_status := Some s |}.

Definition registerBody (name email password : string) (role : option string)
    : AuthController.RegisterBody :=
  {| AuthController.reg_name := Some name; AuthController.reg_email := Some email;
     AuthController.reg_password := Some password;
     AuthController.reg_role := role |}.

Definition loginBody (email password : string) : AuthController.LoginBody :=
  {| AuthController.login_email := Some email;
     AuthController.login_password := Some password |}.

Definition roleBody (role : string) : UserController.UpdateBody :=
  {| UserController.upd_name := None; UserController.upd_email := None;
     UserController.upd_role := Some role |}.

End Fixture.

(** * Properties *)

(** ** The JavaScript helpers on sample inputs *)

Example parseInt_prefix : Js.parseInt (Some "12abc") = Some 12%Z.
Proof. reflexivity. Qed.

Example parseInt_word : Js.parseInt (Some "abc") = None.
Proof. reflexivity. Qed.

Example parseInt_signed : Js.parseInt (Some "  -7") = Some (-7)%Z.
Proof. reflexivity. Qed.

Example parseInt_hex : Js.parseInt (Some "0x1f") = Some 31%Z.
Proof. reflexivity. Qed.

Example parseInt_absent : Js.parseInt None = None.
Proof. reflexivity. Qed.

(** Beyond [2^53] the digits denote integers that are no Numbers. *)
Example parseInt_rounds :
  Js.parseInt (Some "9007199254740993") = Some 9007199254740992%Z
  ∧ Js.parseInt (Some "9007199254740995") = Some 9007199254740996%Z.
Proof. split; vm_compute; reflexivity. Qed.

Example mul_rounds :
  Js.mul (Js.sub 9007199254740992 1) 10 = 90071992547409904%Z.
Proof. vm_compute. reflexivity. Qed.

Example number_overflows :
  Js.number (2 ^ 1024 - 2 ^ 970) = Js.infinity
  ∧ Js.sub Js.infinity 1 = Js.infinity
  ∧ Js.ceil_div 3 Js.infinity = 0%Z.
Proof. split_and!; vm_compute; reflexivity. Qed.

Example num_or_zero : Js.num_or (Js.parseInt (Some "0")) 10 = 10%Z.
Proof. reflexivity. Qed.

Example trim_both : Js.trim "  ab c  " = "ab c".
Proof. reflexivity. Qed.

(** Code units above 127: the no-break space is trimmed, the capital
    letters with accents have a lower case, and each counts once. *)
Example trim_no_break_space :
  Js.trim (String (ascii_of_nat 160) "ab") = "ab".
Proof. reflexivity. Qed.

Example toLowerCase_accent :
  Js.toLowerCase (String (ascii_of_nat 201) "F")
  = String (ascii_of_nat 233) "f".
Proof. reflexivity. Qed.

Example title_of_two_units :
  Task.validate_title
    (Task.set_title (String (ascii_of_nat 233) (String (ascii_of_nat 233) "")))
  = [("title", "Title must be at least 3 characters")]
  ∧ Task.validate_title (Task.set_title (String (ascii_of_nat 160) "ab"))
    = [("title", "Title must be at least 3 characters")].
Proof. split; reflexivity. Qed.

Example password_of_four_units :
  User.validate_password
    (String (ascii_of_nat 233) (String (ascii_of_nat 233) "1a"))
  = [("password", "Password must be at least 6 characters")].
Proof. reflexivity. Qed.

Example split_tags : Js.split "," "a, B,c" = ["a"; " B"; "c"].
Proof. reflexivity. Qed.

Example ceil_div_samples :
  Js.ceil_div 21 10 = 3%Z ∧ Js.ceil_div 20 10 = 2%Z ∧ Js.ceil_div 0 10 = 0%Z.
Proof. done. Qed.

Example errorHandler_validation :
  errorHandler (ValidationError [("title", "Task title is required")])
  = {| statusCode := 400; success := false;
       message := Some "Validation failed"; data := NoData;
       errors := [("title", "Task title is required")] |}.
Proof. reflexivity. Qed.

Example errorHandler_duplicate :
  errorHandler (DuplicateKey "email") = fail 400 "Email already exists".
Proof. reflexivity. Qed.

Example errorHandler_cursor :
  errorHandler (BadCursor "skip must be >= 0") = fail 500 "skip must be >= 0".
Proof. reflexivity. Qed.

(** ** Refresh-token rotation *)

Section refresh.
Context `{!Jwt} (env : Env).

(** A successful refresh presented the token stored on the account the
    token names, and saved the new one in its place. *)
Lemma refreshToken_success_inv presented now db db' r :
  AuthController.refreshToken env presented now db = (db', Json r) →
  statusCode r = 200 →
  ∃ tok c u,
    presented = Some tok
    ∧ Js.truthy presented = true
    ∧ jwt_payload tok (JWT_REFRESH_SECRET env) = Some c
    ∧ users db !! claim_id c = Some u
    ∧ User.refreshToken u = Some tok
    ∧ data r = TokenData (User.generateAccessToken env u now)
                 (User.generateRefreshToken env u now)
    ∧ db' = {| users := User.save_refreshToken (users db) (User._id u)
                          (Some tok) (User.generateRefreshToken env u now) now;
               tasks := tasks db |}.
Proof.
  unfold AuthController.refreshToken, jwt_verify, User.findById.
  intros Hrun Hok.
  destruct presented as [tok|]; simpl in Hrun; [|by simplify_eq].
  destruct (negb (String.eqb tok "")) eqn:Htruthy; simpl in Hrun;
    [|by simplify_eq].
  destruct (jwt_payload tok (JWT_REFRESH_SECRET env)) as [c|] eqn:Hc;
    [|by simplify_eq].
  destruct (jwt_expired tok now); [by simplify_eq|].
  destruct (users db !! claim_id c) as [u|] eqn:Hu; [|by simplify_eq].
  case_bool_decide as Htok; [by simplify_eq|].
  simplify_eq. simpl.
  exists tok, c, u. by rewrite Htok.
Qed.

(** A token that is not the one stored on the account it names is turned
    down, and nothing is written. *)
Lemma refreshToken_mismatch presented now db :
  (∀ tok c u, presented = Some tok →
     jwt_payload tok (JWT_REFRESH_SECRET env) = Some c →
     users db !! claim_id c = Some u → User.refreshToken u ≠ Some tok) →
  ∃ r, AuthController.refreshToken env presented now db = (db, Json r)
       ∧ success r = false
       ∧ (Js.truthy presented = true → InvalidOrExpiredToken r).
Proof.
  intros Hne. unfold AuthController.refreshToken, jwt_verify, User.findById.
  destruct (Js.truthy presented) eqn:Htruthy; simpl;
    [|eexists; split_and!; [done..|intros [=]]].
  destruct presented as [tok|]; [simpl|done].
  destruct (jwt_payload tok (JWT_REFRESH_SECRET env)) as [c|] eqn:Hc;
    [|eexists; split_and!; [done..|right; done]].
  destruct (jwt_expired tok now);
    [eexists; split_and!; [done..|right; done]|].
  destruct (users db !! claim_id c) as [u|] eqn:Hu;
    [|eexists; split_and!; [done..|left; done]].
  rewrite bool_decide_eq_true_2 by eauto.
  eexists; split_and!; [done..|left; done].
Qed.

(** A refresh leaves every account under its own id. *)
Lemma refreshToken_keyed presented now db :
  User.keyed (users db) →
  User.keyed (users (AuthController.refreshToken env presented now db).1).
Proof.
  intros Hkeyed. unfold AuthController.refreshToken.
  destruct (negb (Js.truthy presented)); [done|].
  destruct (jwt_verify _ _ _) as [c| |]; [|done..].
  destruct (User.findById _ _) as [u|]; [|done].
  destruct (bool_decide _); [done|]. simpl.
  unfold User.save_refreshToken. case_bool_decide; [done|].
  intros k u' Hk.
  apply lookup_alter_Some in Hk as [(_ & u0 & Hu0 & ->)|[_ Hk]];
    [|by apply Hkeyed].
  simpl. by apply Hkeyed.
Qed.

(** Once a successful refresh has stored a token other than the one it
    was presented with, the presented one is turned down. *)
Lemma refreshToken_replay R now now2 db db' r access newR :
  User.keyed (users db) →
  AuthController.refreshToken env (Some R) now db = (db', Json r) →
  statusCode r = 200 →
  data r = TokenData access newR →
  newR ≠ R →
  ∃ r2, AuthController.refreshToken env (Some R) now2 db' = (db', Json r2)
        ∧ success r2 = false ∧ InvalidOrExpiredToken r2.
Proof.
  intros Hkeyed Hrun Hok Hdata Hnew.
  destruct (refreshToken_success_inv _ _ _ _ _ Hrun Hok)
    as (tok & c & u & [= <-] & Htruthy & Hc & Hu & Hstored & Hr & ->).
  rewrite Hdata in Hr. injection Hr as -> ->.
  pose proof (Hkeyed _ _ Hu) as Hid. simpl in Hid.
  destruct (refreshToken_mismatch (Some R) now2
    {| users := User.save_refreshToken (users db) (User._id u) (Some R)
                  (User.generateRefreshToken env u now) now;
       tasks := tasks db |}) as (r2 & Hrun2 & Hfail & Hclass).
  - intros tok c' u' [= <-] Hc' Hu'. rewrite Hc in Hc'. injection Hc' as <-.
    simpl in Hu'. unfold User.save_refreshToken in Hu'.
    rewrite bool_decide_eq_false_2 in Hu' by congruence.
    rewrite Hid, lookup_alter_eq, Hu in Hu'. simpl in Hu'.
    injection Hu' as <-. simpl. congruence.
  - exists r2. split_and!; [done..|by apply Hclass].
Qed.

(** A refresh that issues the token it was presented with writes
    nothing. *)
Lemma refreshToken_reissue R now db db' r access :
  AuthController.refreshToken env (Some R) now db = (db', Json r) →
  statusCode r = 200 →
  data r = TokenData access R →
  db' = db.
Proof.
  intros Hrun Hok Hdata.
  destruct (refreshToken_success_inv _ _ _ _ _ Hrun Hok)
    as (tok & c & u & [= <-] & _ & _ & _ & _ & Hr & ->).
  rewrite Hdata in Hr. injection Hr as _ HR.
  unfold User.save_refreshToken.
  rewrite bool_decide_eq_true_2 by congruence. by destruct db.
Qed.

(** C1, as the code has it. After a refresh presented with [R] has
    succeeded: when the token it issued differs from [R], presenting [R]
    again is rejected with [InvalidOrExpiredToken] and changes nothing;
    when the token it issued is [R] itself (the signer gives the same
    string for the same account in the same second), nothing was written
    and [R] is still the stored token.  More generally every refresh
    whose token is not the one stored on the account it names fails (a
    missing token with 400, any other with [InvalidOrExpiredToken]). *)
Theorem refresh_token_single_use R now now2 db db' r access newR :
  User.keyed (users db) →
  AuthController.refreshToken env (Some R) now db = (db', Json r) →
  statusCode r = 200 →
  data r = TokenData access newR →
  (newR ≠ R →
   ∃ r2, AuthController.refreshToken env (Some R) now2 db' = (db', Json r2)
         ∧ success r2 = false ∧ InvalidOrExpiredToken r2)
  ∧ (newR = R →
     db' = db
     ∧ ∃ u, users db' !! User._id u = Some u ∧ User.refreshToken u = Some R)
  ∧ (∀ presented t d,
       (∀ tok c u, presented = Some tok →
          jwt_payload tok (JWT_REFRESH_SECRET env) = Some c →
          users d !! claim_id c = Some u → User.refreshToken u ≠ Some tok) →
       ∃ r', AuthController.refreshToken env presented t d = (d, Json r')
             ∧ success r' = false
             ∧ (Js.truthy presented = true → InvalidOrExpiredToken r')).
Proof.
  intros Hkeyed Hrun Hok Hdata. split_and!.
  - intros Hnew. by eapply refreshToken_replay.
  - intros ->. pose proof (refreshToken_reissue _ _ _ _ _ _ Hrun Hok Hdata) as ->.
    split; [done|].
    destruct (refreshToken_success_inv _ _ _ _ _ Hrun Hok)
      as (tok & c & u & [= <-] & _ & _ & Hu & Hstored & _).
    exists u. by rewrite (Hkeyed _ _ Hu).
  - intros presented t d. apply refreshToken_mismatch.
Qed.

(** The two steps of a call, run back to back, are the handler. *)
Lemma refresh_steps_sequential presented now db :
  (let '(db1, pc1) := AuthController.refresh_step env now db
                        (AuthController.Start presented) in
   AuthController.refresh_step env now db1 pc1)
  = (let '(db', o) := AuthController.refreshToken env presented now db in
     (db', AuthController.Done o)).
Proof.
  unfold AuthController.refresh_step, AuthController.refreshToken.
  destruct (negb (Js.truthy presented)); [reflexivity|].
  destruct (jwt_verify _ _ _) as [c| |]; [|reflexivity..].
  destruct (User.findById _ _) as [u|]; [|reflexivity].
  destruct (bool_decide _); reflexivity.
Qed.

Lemma complete_length schedule : complete schedule → length schedule = 4.
Proof.
  intros [Ht Hf].
  assert (∀ l : list bool,
            length (filter (λ b, b = true) l) + length (filter (λ b, b = false) l)
            = length l) as Hsplit.
  { induction l as [|[] l IH]; [done|..].
    - rewrite (filter_cons_True (λ b, b = true)) by done.
      rewrite (filter_cons_False (λ b, b = false)) by done. simpl. lia.
    - rewrite (filter_cons_False (λ b, b = true)) by done.
      rewrite (filter_cons_True (λ b, b = false)) by done. simpl. lia. }
  rewrite <- Hsplit. lia.
Qed.

(** Two calls one after the other: once the first has stored a token
    other than [R], the second is turned down. *)
Lemma serial_refresh_second_rejected R now1 now2 db db' pc1 pc2 r1 a1 n1 :
  User.keyed (users db) →
  AuthController.interleave env [true; true; false; false] now1 now2 db
    (AuthController.Start (Some R)) (AuthController.Start (Some R))
    = (db', pc1, pc2) →
  pc1 = AuthController.Done (Json r1) →
  statusCode r1 = 200 → data r1 = TokenData a1 n1 → n1 ≠ R →
  ∃ r2, pc2 = AuthController.Done (Json r2) ∧ InvalidOrExpiredToken r2.
Proof.
  intros Hkeyed Hrun -> Hok Hdata Hnew.
  cbn [AuthController.interleave] in Hrun.
  pose proof (refresh_steps_sequential (Some R) now1 db) as Hseq1.
  destruct (AuthController.refresh_step env now1 db _) as [db1 pc1].
  rewrite Hseq1 in Hrun.
  destruct (AuthController.refreshToken env (Some R) now1 db)
    as [db1' o1] eqn:Hcall1.
  pose proof (refresh_steps_sequential (Some R) now2 db1') as Hseq2.
  destruct (AuthController.refresh_step env now2 db1' _) as [db2 pc2'].
  rewrite Hseq2 in Hrun.
  destruct (AuthController.refreshToken env (Some R) now2 db1')
    as [db2' o2] eqn:Hcall2.
  simplify_eq.
  destruct (refreshToken_replay R now1 now2 db db1' r1 a1 n1)
    as (r2 & Hcall2' & _ & Hbad); [done..|].
  rewrite Hcall2 in Hcall2'. simplify_eq. by exists r2.
Qed.

(** C9, as the code has it. The rotation is a read of the account
    followed by a separate write, and other calls may run in between.
    When one of two concurrent calls that present the same [R] has
    written a token other than [R] before the other reads, the two do
    not both succeed: if both succeed, then both read the account before
    either wrote it.  Only the token of the call that wrote first
    matters. *)
Theorem concurrent_refresh_both_succeed_only_if_reads_first
    R now1 now2 db schedule db' r1 r2 a1 n1 a2 n2 :
  User.keyed (users db) →
  complete schedule →
  AuthController.interleave env schedule now1 now2 db
    (AuthController.Start (Some R)) (AuthController.Start (Some R))
    = (db', AuthController.Done (Json r1), AuthController.Done (Json r2)) →
  statusCode r1 = 200 → data r1 = TokenData a1 n1 →
  statusCode r2 = 200 → data r2 = TokenData a2 n2 →
  (take 2 schedule = [true; true] → n1 ≠ R) →
  (take 2 schedule = [false; false] → n2 ≠ R) →
  reads_first schedule.
Proof.
  intros Hkeyed Hcomplete Hrun Hok1 Hdata1 Hok2 Hdata2 Hn1 Hn2.
  pose proof (complete_length _ Hcomplete) as Hlen.
  destruct Hcomplete as [Ht Hf].
  destruct schedule as [|b1 [|b2 [|b3 [|b4 [|b5 rest]]]]]; try done.
  destruct b1, b2; [|by left|by right|].
  - (* the first call runs to its end before the second starts *)
    destruct b3, b4; try done. exfalso.
    specialize (Hn1 eq_refl). clear Hn2.
    cbn [AuthController.interleave] in Hrun.
    pose proof (refresh_steps_sequential (Some R) now1 db) as Hseq1.
    destruct (AuthController.refresh_step env now1 db _) as [db1 pc1].
    rewrite Hseq1 in Hrun.
    destruct (AuthController.refreshToken env (Some R) now1 db)
      as [db1' o1] eqn:Hcall1.
    pose proof (refresh_steps_sequential (Some R) now2 db1') as Hseq2.
    destruct (AuthController.refresh_step env now2 db1' _) as [db2 pc2].
    rewrite Hseq2 in Hrun.
    destruct (AuthController.refreshToken env (Some R) now2 db1')
      as [db2' o2] eqn:Hcall2.
    simplify_eq.
    destruct (refreshToken_replay R now1 now2 db db1' r1 a1 n1)
      as (r2' & Hcall2' & _ & [Hbad|Hbad]); [done..| |];
      rewrite Hcall2 in Hcall2'; simplify_eq.
  - (* the second call runs to its end before the first starts *)
    destruct b3, b4; try done. exfalso.
    specialize (Hn2 eq_refl). clear Hn1.
    cbn [AuthController.interleave] in Hrun.
    pose proof (refresh_steps_sequential (Some R) now2 db) as Hseq2.
    destruct (AuthController.refresh_step env now2 db _) as [db1 pc1].
    rewrite Hseq2 in Hrun.
    destruct (AuthController.refreshToken env (Some R) now2 db)
      as [db1' o2] eqn:Hcall2.
    pose proof (refresh_steps_sequential (Some R) now1 db1') as Hseq1.
    destruct (AuthController.refresh_step env now1 db1' _) as [db2 pc2].
    rewrite Hseq1 in Hrun.
    destruct (AuthController.refreshToken env (Some R) now1 db1')
      as [db2' o1] eqn:Hcall1.
    simplify_eq.
    destruct (refreshToken_replay R now2 now1 db db1' r2 a2 n2)
      as (r1' & Hcall1' & _ & [Hbad|Hbad]); [done..| |];
      rewrite Hcall1 in Hcall1'; simplify_eq.
Qed.

End refresh.

(** ** Ownership scoping of tasks *)

Section tasks.

Lemma findOne_owned_other tasks id owner t :
  tasks !! id = Some t → Task.user t ≠ owner →
  Task.findOne_owned tasks id owner = None.
Proof.
  intros Ht Hne. unfold Task.findOne_owned. rewrite Ht.
  by rewrite bool_decide_eq_false_2.
Qed.

Lemma findOne_owned_missing tasks id owner :
  tasks !! id = None → Task.findOne_owned tasks id owner = None.
Proof. intros Ht. unfold Task.findOne_owned. by rewrite Ht. Qed.

Lemma findOne_owned_Some tasks id owner t :
  Task.findOne_owned tasks id owner = Some t ↔
  tasks !! id = Some t ∧ Task.user t = owner.
Proof.
  unfold Task.findOne_owned. destruct (tasks !! id) as [t'|].
  - case_bool_decide as Howner.
    + split; [by intros [= <-]|by intros [[= <-] _]].
    + split; [done|]. intros [[= <-] Heq]. by destruct Howner.
  - split; [done|by intros [? _]].
Qed.

(** C3. A request of a caller for a single task, or for its deletion,
    when the task belongs to another account: the answer is [NotFound],
    the very answer given when there is no such task, never a 403, and
    the database is unchanged.  This holds for every caller, so for the
    non-elevated ones. *)
Theorem foreign_task_not_found caller id t db :
  tasks db !! id = Some t →
  Task.user t ≠ User._id caller →
  TaskController.getTask caller id db = (db, Json NotFound)
  ∧ TaskController.deleteTask caller id db = (db, Json NotFound)
  ∧ statusCode NotFound ≠ 403
  ∧ (∀ db2, tasks db2 !! id = None →
       respond (TaskController.getTask caller id db2).2 = NotFound
       ∧ respond (TaskController.deleteTask caller id db2).2 = NotFound).
Proof.
  intros Ht Hne. unfold TaskController.getTask, TaskController.deleteTask.
  rewrite (findOne_owned_other _ _ _ _ Ht Hne).
  split_and!; [done..|].
  intros db2 Hnone. by rewrite (findOne_owned_missing _ _ _ Hnone).
Qed.

End tasks.

(** ** Login *)

Section login.
Context `{!Bcrypt} `{!Jwt} (env : Env).

(** C5. A login with an e-mail that matches no account and a login with
    an existing e-mail and a wrong password get the same response,
    [InvalidCredentials], and neither changes the database. *)
Theorem login_failures_indistinguishable body1 body2 now1 now2 db u wrong :
  AuthController.login_email body1 ≫= User.findOne_email (users db) = None →
  AuthController.login_email body2 ≫= User.findOne_email (users db) = Some u →
  AuthController.login_password body2 = Some wrong →
  User.comparePassword u wrong = false →
  AuthController.login env body1 now1 db = (db, Json InvalidCredentials)
  ∧ AuthController.login env body2 now2 db = (db, Json InvalidCredentials)
  ∧ respond (AuthController.login env body1 now1 db).2
    = respond (AuthController.login env body2 now2 db).2.
Proof.
  intros Hnone Hsome Hpw Hcmp. unfold AuthController.login.
  rewrite Hnone, Hsome, Hpw, Hcmp. done.
Qed.

End login.

(** ** Administration of accounts *)

Section accounts.
Context `{!EmailPattern} `{!ObjectIds}.

(** The guards of [updateUser] and [deleteUser] answer
    [ForbiddenSelfAction] when the id of the route is, character for
    character, the string of the caller's id. *)
Lemma self_protection_same_string caller body role' now db u :
  castObjectId (idToString (User._id caller)) = Some (User._id caller) →
  users db !! User._id caller = Some u →
  UserController.upd_role body = Some role' →
  role' ≠ "" →
  role' ≠ User.role caller →
  (∃ r, UserController.updateUser caller (idToString (User._id caller)) body now db
          = (db, Json r) ∧ ForbiddenSelfAction r)
  ∧ (∃ r, UserController.deleteUser caller (idToString (User._id caller)) db
            = (db, Json r) ∧ ForbiddenSelfAction r).
Proof.
  intros Hcast Hu Hrole Hne Hdiff.
  unfold UserController.updateUser, UserController.deleteUser, User.findById.
  rewrite Hcast, Hu, Hrole. simpl.
  rewrite bool_decide_eq_true_2 by done. simpl.
  assert (String.eqb role' "" = false) as -> by by apply String.eqb_neq.
  rewrite bool_decide_eq_true_2 by congruence. simpl.
  split; eexists; (split; [done|]); [by left|by right].
Qed.

(** C6, where the code fails it. The guards compare the id of the route
    as a string with the string of the caller's id, while the queries
    cast it to an ObjectId.  For an id that casts to the caller's own
    ObjectId without being that string, [deleteUser] deletes the caller's
    account with its tasks, and [updateUser] gives the caller's account
    the role of the body. *)
Theorem self_protection_bypassed caller id body role' now db u :
  castObjectId id = Some (User._id caller) →
  idToString (User._id caller) ≠ id →
  users db !! User._id caller = Some u →
  User.find_email (delete (User._id caller) (users db)) (User.email u) = None →
  UserController.upd_name body = None →
  UserController.upd_email body = None →
  UserController.upd_role body = Some role' →
  role' ∈ User.roles →
  UserController.deleteUser caller id db
  = ({| users := delete (User._id caller) (users db);
        tasks := Task.deleteMany (tasks db)
                   (λ t, bool_decide (Task.user t = User._id caller)) |},
     Json (ok 200 (Some "User and associated tasks deleted successfully") NoData))
  ∧ ∃ u', UserController.updateUser caller id body now db
          = ({| users := <[User._id caller := u']> (users db); tasks := tasks db |},
             Json (ok 200 (Some "User updated successfully")
                     (UserData (Some (view u')))))
          ∧ User.role u' = role'.
Proof.
  intros Hcast Hne Hu Hfree Hname Hemail Hrole Hin.
  unfold UserController.updateUser, UserController.deleteUser, User.findById,
    User.findByIdAndDelete.
  rewrite Hcast, Hu. rewrite !bool_decide_eq_false_2 by done. simpl.
  split; [done|].
  rewrite Hname, Hemail, Hrole. simpl.
  assert (Js.truthy (Some role') = true) as Htruthy.
  { unfold User.roles in Hin. simpl.
    apply elem_of_cons in Hin as [->|Hin]; [done|].
    by apply list_elem_of_singleton in Hin as ->. }
  unfold UserController.keep_truthy. rewrite Htruthy. simpl.
  unfold User.findByIdAndUpdate. simpl.
  unfold User.validate_role. rewrite bool_decide_eq_true_2 by done. simpl.
  rewrite Hu. simpl. rewrite Hfree.
  eexists. split; [reflexivity|done].
Qed.

(** C8. After an account has been deleted by an administrator, no task
    that refers to the account is left, and the account is gone. *)
Theorem delete_user_cascades caller id oid db db' r :
  castObjectId id = Some oid →
  UserController.deleteUser caller id db = (db', Json r) →
  statusCode r = 200 →
  (∀ k t, tasks db' !! k = Some t → Task.user t ≠ oid)
  ∧ Task.countDocuments (tasks db') (λ t, bool_decide (Task.user t = oid)) = 0%Z
  ∧ users db' !! oid = None.
Proof.
  unfold UserController.deleteUser, User.findById. intros -> Hrun Hok.
  destruct (users db !! oid); [|by simplify_eq].
  case_bool_decide; [by simplify_eq|]. simplify_eq. simpl.
  assert (∀ k t, Task.deleteMany (tasks db)
            (λ t, bool_decide (Task.user t = oid)) !! k = Some t →
          Task.user t ≠ oid) as Hgone.
  { intros k t Hk. unfold Task.deleteMany in Hk.
    apply map_lookup_filter_Some in Hk as [_ Hk]. simpl in Hk.
    by apply bool_decide_eq_false in Hk. }
  split_and!; [done| |apply lookup_delete_eq].
  unfold Task.countDocuments, Task.find.
  destruct (filter _ _) as [|t rest] eqn:Hfilter; [done|].
  assert (t ∈ t :: rest) as Ht by left. rewrite <- Hfilter in Ht.
  apply list_elem_of_filter in Ht as [Hq Ht].
  apply list_elem_of_fmap in Ht as ([k t'] & -> & Ht).
  apply elem_of_map_to_list in Ht. apply Hgone in Ht.
  by apply bool_decide_eq_true in Hq.
Qed.

End accounts.

(** ** Registration *)

Section register.
Context `{!Bcrypt} `{!Jwt} `{!EmailPattern} (env : Env).

(** The role [register] keeps from the request. *)
Lemma validRole_cases (requested : option string) :
  let validRole :=
    if Js.includes ["user"; "admin"] requested
    then default "user" requested else "user" in
  validRole ∈ User.roles
  ∧ (requested = Some "user" ∨ requested = Some "admin" →
     Some validRole = requested)
  ∧ (requested ≠ Some "user" → requested ≠ Some "admin" → validRole = "user").
Proof.
  unfold Js.includes, User.roles. destruct requested as [s|]; simpl.
  - case_bool_decide as Hs; simpl.
    + split_and!; [done|done|].
      intros Hu Ha. apply elem_of_cons in Hs as [->|Hs]; [done|].
      apply elem_of_cons in Hs as [->|Hs]; [done|]. by apply elem_of_nil in Hs.
    + split_and!; [by left| |done].
      intros [[= ->]|[= ->]]; destruct Hs; [by left|by right; left].
  - split_and!; [by left| |done]. by intros [?|?].
Qed.

(** C7. A registration with an unused e-mail and valid inputs creates the
    account with the requested role when that is [user] or [admin], and
    with the role [user] for any other requested role, an absent one
    included. *)
Theorem register_role body e newId salt now db :
  AuthController.reg_email body = Some e →
  User.findOne_email (users db) e = None →
  users db !! newId = None →
  User.validate_name (User.set_name (default "" (AuthController.reg_name body))) = [] →
  User.validate_email (User.set_email e) = [] →
  User.validate_password (default "" (AuthController.reg_password body)) = [] →
  ∃ db' account access refresh,
    AuthController.register env body newId salt now db
      = (db', Json (ok 201 (Some "Registration successful")
                      (AuthData account access refresh)))
    ∧ (∃ u, users db' !! newId = Some u ∧ view u = account)
    ∧ (AuthController.reg_role body = Some "user"
       ∨ AuthController.reg_role body = Some "admin" →
       Some (view_role account) = AuthController.reg_role body)
    ∧ (AuthController.reg_role body ≠ Some "user" →
       AuthController.reg_role body ≠ Some "admin" →
       view_role account = "user").
Proof.
  intros He Hunused Hfresh Hname Hemail Hpassword.
  destruct (validRole_cases (AuthController.reg_role body))
    as (Hin & Hknown & Hother).
  unfold AuthController.register, User.create. rewrite He. simpl.
  rewrite Hunused, Hname, Hemail, Hpassword. simpl.
  unfold User.validate_role. rewrite bool_decide_eq_true_2 by done. simpl.
  rewrite bool_decide_eq_false_2 by (rewrite Hfresh; by intros [? ?]).
  unfold User.findOne_email in Hunused. rewrite Hunused.
  rewrite bool_decide_eq_false_2 by (by intros [? ?]).
  unfold AuthController.sendTokenResponse, User.save_refreshToken. simpl.
  eexists _, _, _, _. split; [reflexivity|]. simpl.
  split_and!; [|done..].
  rewrite lookup_alter_eq, lookup_insert_eq. simpl. by eexists.
Qed.

End register.

(** ** The completion timestamp *)

Section completion.
Context `{!ObjectIds}.

Lemma pre_save_unmodified now t : Task.pre_save false now t = t.
Proof. done. Qed.

Lemma pre_save_modified now t : completed_iff (Task.pre_save true now t).
Proof.
  unfold Task.pre_save, completed_iff. simpl.
  destruct (String.eqb (Task.status t) "completed") eqn:Hs; simpl.
  - rewrite Hs. simpl. apply String.eqb_eq in Hs. split; [done|by eexists].
  - rewrite Hs. simpl. apply String.eqb_neq in Hs.
    split; [by intros [? [=]]|done].
Qed.

Lemma pre_save_fields m now t :
  Task._id (Task.pre_save m now t) = Task._id t
  ∧ Task.status (Task.pre_save m now t) = Task.status t
  ∧ Task.user (Task.pre_save m now t) = Task.user t.
Proof.
  unfold Task.pre_save.
  destruct m, (String.eqb (Task.status t) "completed") eqn:Hs; simpl;
    rewrite ?Hs; done.
Qed.

Lemma completed_iff_set_updatedAt now t :
  completed_iff (Task.set_updatedAt now t) ↔ completed_iff t.
Proof. done. Qed.

(** What a successful [save] stores. *)
Lemma save_inv tasks old t now today tasks' t' :
  Task.save tasks old t now today = inr (tasks', t') →
  Task.validate false today t = []
  ∧ tasks' = <[Task._id old := t']> tasks
  ∧ Task.status t' = Task.status t
  ∧ Task.user t' = Task.user t
  ∧ (Task.status t ≠ Task.status old → completed_iff t')
  ∧ (Task.status t = Task.status old →
     Task.completedAt t = Task.completedAt old →
     completed_iff old → completed_iff t').
Proof.
  unfold Task.save. intros Hsave.
  destruct (Task.validate false today t) eqn:Hvalid; [|done].
  injection Hsave as <- <-.
  destruct (pre_save_fields (bool_decide (Task.status t ≠ Task.status old)) now t)
    as (_ & Hstatus & Huser).
  split_and!; [done|done|..].
  - by destruct (bool_decide (Task.pre_save _ now t = old)).
  - by destruct (bool_decide (Task.pre_save _ now t = old)).
  - intros Hmod. rewrite (bool_decide_eq_true_2 (_ ≠ _)) by done.
    pose proof (pre_save_modified now t).
    by destruct (bool_decide (Task.pre_save _ now t = old)).
  - intros Hsame Hdone Hold.
    rewrite (bool_decide_eq_false_2 (_ ≠ _)) by naive_solver.
    rewrite pre_save_unmodified.
    assert (completed_iff t) by (unfold completed_iff; by rewrite Hsame, Hdone).
    by destruct (bool_decide (t = old)).
Qed.

Lemma save_valid tasks old t now today :
  Task.validate false today t = [] →
  ∃ t', Task.save tasks old t now today = inr (<[Task._id old := t']> tasks, t')
        ∧ Task.user t' = Task.user t ∧ Task.status t' = Task.status t.
Proof.
  intros Hvalid. unfold Task.save. rewrite Hvalid.
  destruct (pre_save_fields (bool_decide (Task.status t ≠ Task.status old)) now t)
    as (_ & Hstatus & Huser).
  eexists. split; [done|].
  by destruct (bool_decide (Task.pre_save _ now t = old)).
Qed.

(** The document [updateTask] works on is the one stored under the id. *)
Lemma updateTask_inv caller id body now today db db' r :
  TaskController.updateTask caller id body now today db = (db', Json r) →
  statusCode r = 200 →
  ∃ t t', tasks db !! id = Some t
          ∧ Task.save (tasks db) t (TaskController.assign t body) now today
            = inr (tasks db', t')
          ∧ data r = TaskData t'.
Proof.
  unfold TaskController.updateTask, Task.findOne_id. intros Hrun Hok.
  destruct (if bool_decide (User.role caller ≠ "admin") then _ else _)
    as [t|] eqn:Hfound; [|by simplify_eq].
  assert (tasks db !! id = Some t) as Ht.
  { case_bool_decide; [by apply findOne_owned_Some in Hfound as [? _]|done]. }
  destruct (Task.save _ _ _ _ _) as [e|[tasks' t']] eqn:Hsave; [done|].
  simplify_eq. by exists t, t'.
Qed.

Lemma createTask_inv caller body newId now today db db' r :
  TaskController.createTask caller body newId now today db = (db', Json r) →
  ∃ t, data r = TaskData t ∧ statusCode r = 201
       ∧ tasks db' = <[newId := t]> (tasks db)
       ∧ Task.status t = default "pending" (TaskController.b_status body)
       ∧ Task.user t = User._id caller
       ∧ completed_iff t.
Proof.
  unfold TaskController.createTask, Task.create. intros Hrun.
  destruct (Task.validate true today _); [|done].
  case_bool_decide; [done|]. simplify_eq. simpl.
  eexists. split_and!; [done..| | |].
  - apply pre_save_fields.
  - apply pre_save_fields.
  - destruct (TaskController.b_status body) as [s|]; simpl.
    + apply pre_save_modified.
    + unfold completed_iff. simpl.
      split; [by intros [? ?]|done].
Qed.

Lemma bulk_update_completed s now t :
  Task.status (TaskController.bulk_update s now t) = s
  ∧ completed_iff (TaskController.bulk_update s now t).
Proof.
  unfold completed_iff. simpl. split; [done|].
  destruct (String.eqb s "completed") eqn:Hs.
  - apply String.eqb_eq in Hs. split; [done|by eexists].
  - apply String.eqb_neq in Hs. split; [by intros [? ?]|done].
Qed.

Lemma bulkUpdateStatus_inv caller body now db db' r :
  TaskController.bulkUpdateStatus caller body now db = (db', Json r) →
  statusCode r = 200 →
  ∃ raw ids s,
    TaskController.taskIds body = Some raw
    ∧ TaskController.cast_ids raw = inr ids
    ∧ TaskController.bulk_status body = Some s
    ∧ s ∈ Task.statuses
    ∧ tasks db' =
        (λ t, if bool_decide (Task._id t ∈ ids)
                 && bool_decide (Task.user t = User._id caller)
              then TaskController.bulk_update s now t else t) <$> tasks db.
Proof.
  unfold TaskController.bulkUpdateStatus, Task.updateMany, Js.includes.
  intros Hrun Hok.
  destruct (TaskController.taskIds body) as [[|i ids]|]; [by simplify_eq..| |by simplify_eq].
  destruct (TaskController.cast_ids (i :: ids)) as [e|cast] eqn:Hcast;
    (destruct (TaskController.bulk_status body) as [s|]; simpl in Hrun;
     [|by simplify_eq]);
    (case_bool_decide as Hs; simpl in Hrun; [|by simplify_eq]);
    [by simplify_eq|].
  simplify_eq. by exists (i :: ids), cast, s.
Qed.

(** C4. Each operation that changes the status of a task leaves its
    completion timestamp set exactly when the status is [completed]:
    creation, an update through [save] that changes the status (an
    update that keeps the status keeps the property), and the bulk
    status update on every task it matches. *)
Theorem completedAt_tracks_status caller db :
  (∀ body newId now today db' r,
     TaskController.createTask caller body newId now today db = (db', Json r) →
     ∃ t, data r = TaskData t ∧ tasks db' !! newId = Some t ∧ completed_iff t)
  ∧ (∀ id body now today db' r,
       TaskController.updateTask caller id body now today db = (db', Json r) →
       statusCode r = 200 →
       ∃ t t', tasks db !! id = Some t ∧ data r = TaskData t'
               ∧ tasks db' !! Task._id t = Some t'
               ∧ (Task.status t' ≠ Task.status t → completed_iff t')
               ∧ (completed_iff t → completed_iff t'))
  ∧ (∀ body now db' r,
       TaskController.bulkUpdateStatus caller body now db = (db', Json r) →
       statusCode r = 200 →
       ∃ raw ids s,
         TaskController.taskIds body = Some raw
         ∧ TaskController.cast_ids raw = inr ids
         ∧ TaskController.bulk_status body = Some s
         ∧ ∀ k t, tasks db !! k = Some t →
             Task._id t ∈ ids → Task.user t = User._id caller →
             ∃ t', tasks db' !! k = Some t' ∧ Task.status t' = s
                   ∧ completed_iff t').
Proof.
  split_and!.
  - intros body newId now today db' r Hrun.
    destruct (createTask_inv _ _ _ _ _ _ _ _ Hrun)
      as (t & Hdata & _ & -> & _ & _ & Hiff).
    exists t. by rewrite lookup_insert_eq.
  - intros id body now today db' r Hrun Hok.
    destruct (updateTask_inv _ _ _ _ _ _ _ _ Hrun Hok)
      as (t & t' & Ht & Hsave & Hdata).
    apply save_inv in Hsave as (_ & -> & Hstatus & _ & Hmod & Hsame).
    exists t, t'. rewrite lookup_insert_eq. split_and!; [done..| |].
    + intros Hne. apply Hmod. by rewrite <- Hstatus.
    + intros Hold.
      destruct (decide (Task.status (TaskController.assign t body) = Task.status t))
        as [Heq|Hne]; [by apply Hsame|by apply Hmod].
  - intros body now db' r Hrun Hok.
    destruct (bulkUpdateStatus_inv _ _ _ _ _ _ Hrun Hok)
      as (raw & ids & s & Hraw & Hids & Hs & _ & ->).
    exists raw, ids, s. split_and!; [done..|].
    intros k t Ht Hin Howner. rewrite lookup_fmap, Ht. simpl.
    rewrite !bool_decide_eq_true_2 by done. simpl.
    eexists. split; [done|]. apply bulk_update_completed.
Qed.

End completion.

(** ** What an administrator may do with a task *)

Section admin.

(** C2, as the code has it. For a caller with the role [admin] and any
    stored task, whoever owns it, an update whose resulting document
    passes the schema validation succeeds: the lookup has no owner
    filter.  The requests for a single task and for its deletion keep the
    owner filter: they answer [NotFound] unless the caller owns the
    task. *)
Theorem admin_update_any_task caller id body now today db t :
  User.role caller = "admin" →
  tasks db !! id = Some t →
  Task.validate false today (TaskController.assign t body) = [] →
  (∃ t', TaskController.updateTask caller id body now today db
           = ({| users := users db; tasks := <[Task._id t := t']> (tasks db) |},
              Json (ok 200 (Some "Task updated successfully") (TaskData t')))
         ∧ Task.user t' = Task.user t)
  ∧ (Task.user t ≠ User._id caller →
     TaskController.getTask caller id db = (db, Json NotFound)
     ∧ TaskController.deleteTask caller id db = (db, Json NotFound))
  ∧ (Task.user t = User._id caller →
     TaskController.getTask caller id db = (db, Json (ok 200 None (TaskData t)))
     ∧ TaskController.deleteTask caller id db
       = ({| users := users db; tasks := delete id (tasks db) |},
          Json (ok 200 (Some "Task deleted successfully") NoData))).
Proof.
  intros Hadmin Ht Hvalid. split_and!.
  - unfold TaskController.updateTask, Task.findOne_id.
    rewrite bool_decide_eq_false_2 by (intros Hne; by apply Hne).
    rewrite Ht.
    destruct (save_valid (tasks db) t (TaskController.assign t body) now today
                Hvalid) as (t' & -> & Huser & _).
    exists t'. split; [done|]. by rewrite Huser.
  - intros Hne. unfold TaskController.getTask, TaskController.deleteTask.
    by rewrite (findOne_owned_other _ _ _ _ Ht Hne).
  - intros Heq. unfold TaskController.getTask, TaskController.deleteTask.
    by rewrite (proj2 (findOne_owned_Some _ _ _ _) (conj Ht Heq)).
Qed.

End admin.

(** ** Pagination of the task list *)

(** *** Numbers *)

Section numbers.






End numbers.

Section validation.

Lemma digit_not_space c : Js.is_digit c = true → Js.is_space c = false.
Proof. destruct c as [[] [] [] [] [] [] [] []]; done. Qed.








End validation.

Section pagination.
Context `{!Mongo}.








End pagination.

(** * Worked instances *)

Lemma refresh_token_single_use_witness :
  ∃ r2, AuthController.refreshToken (H0 := Fixture.jwt) Fixture.env
          (Some "r.1.0") 4 Fixture.db1 = (Fixture.db1, Json r2)
        ∧ success r2 = false ∧ InvalidOrExpiredToken r2.
Proof.
  refine (proj1 (@refresh_token_single_use Fixture.jwt Fixture.env
    "r.1.0" 3 4 Fixture.db0 Fixture.db1
    (ok 200 (Some "Token refreshed successfully") (TokenData "a.1.3" "r.1.3"))
    "a.1.3" "r.1.3" _ _ _ _) _).
  - unfold User.keyed. refine (bool_decide_unpack _ _). vm_compute. exact I.
  - vm_compute. reflexivity.
  - reflexivity.
  - reflexivity.
  - intros H. discriminate H.
Defined.

Lemma foreign_task_not_found_witness :
  TaskController.getTask Fixture.bob 13 Fixture.db0 = (Fixture.db0, Json NotFound)
  ∧ TaskController.deleteTask Fixture.bob 13 Fixture.db0
    = (Fixture.db0, Json NotFound).
Proof.
  destruct (foreign_task_not_found Fixture.bob 13 Fixture.t13 Fixture.db0)
    as (Hget & Hdelete & _).
  - vm_compute. reflexivity.
  - intros H. discriminate H.
  - exact (conj Hget Hdelete).
Defined.

Lemma login_failures_indistinguishable_witness :
  respond (AuthController.login (H := Fixture.bcrypt) (H0 := Fixture.jwt)
             Fixture.env (Fixture.loginBody "nobody@example.com" "secret1") 5
             Fixture.db0).2
  = respond (AuthController.login (H := Fixture.bcrypt) (H0 := Fixture.jwt)
               Fixture.env (Fixture.loginBody "bob@example.com" "wrong") 6
               Fixture.db0).2.
Proof.
  refine (proj2 (proj2 (@login_failures_indistinguishable
    Fixture.bcrypt Fixture.jwt Fixture.env
    (Fixture.loginBody "nobody@example.com" "secret1")
    (Fixture.loginBody "bob@example.com" "wrong") 5 6 Fixture.db0
    Fixture.bob "wrong" _ _ _ _))).
  - vm_compute. reflexivity.
  - vm_compute. reflexivity.
  - reflexivity.
  - vm_compute. reflexivity.
Defined.

Lemma self_protection_bypassed_witness :
  UserController.deleteUser (H0 := Fixture.objectIds) Fixture.eve
    "0000000000000000000000AB" Fixture.db2
  = ({| users := delete 171 (users Fixture.db2);
        tasks := Task.deleteMany (tasks Fixture.db2)
                   (λ t, bool_decide (Task.user t = 171)) |},
     Json (ok 200 (Some "User and associated tasks deleted successfully") NoData))
  ∧ ∃ u', UserController.updateUser (H := Fixture.emailPattern)
            (H0 := Fixture.objectIds) Fixture.eve "0000000000000000000000AB"
            (Fixture.roleBody "user") 5 Fixture.db2
          = ({| users := <[171 := u']> (users Fixture.db2);
                tasks := tasks Fixture.db2 |},
             Json (ok 200 (Some "User updated successfully")
                     (UserData (Some (view u')))))
          ∧ User.role u' = "user".
Proof.
  refine (@self_protection_bypassed Fixture.emailPattern Fixture.objectIds
            Fixture.eve "0000000000000000000000AB" (Fixture.roleBody "user")
            "user" 5 Fixture.db2 Fixture.eve _ _ _ _ _ _ _ _).
  - vm_compute. reflexivity.
  - vm_compute. intros H. discriminate H.
  - vm_compute. reflexivity.
  - vm_compute. reflexivity.
  - reflexivity.
  - reflexivity.
  - reflexivity.
  - refine (bool_decide_unpack _ _). vm_compute. exact I.
Defined.

Lemma register_role_witness :
  ∃ db' account access refresh,
    AuthController.register (H := Fixture.bcrypt) (H0 := Fixture.jwt)
      (H1 := Fixture.emailPattern) Fixture.env
      (Fixture.registerBody "Carol" "Carol@Example.com" "secret1" (Some "root"))
      3 "s2" 5 Fixture.db0
      = (db', Json (ok 201 (Some "Registration successful")
                      (AuthData account access refresh)))
    ∧ view_role account = "user".
Proof.
  destruct (@register_role Fixture.bcrypt Fixture.jwt Fixture.emailPattern
              Fixture.env
              (Fixture.registerBody "Carol" "Carol@Example.com" "secret1" (Some "root"))
              "Carol@Example.com" 3 "s2" 5 Fixture.db0)
    as (db' & account & access & refresh & Hrun & _ & _ & Hother).
  - reflexivity.
  - vm_compute. reflexivity.
  - vm_compute. reflexivity.
  - vm_compute. reflexivity.
  - vm_compute. reflexivity.
  - vm_compute. reflexivity.
  - exists db', account, access, refresh. split; [exact Hrun|].
    apply Hother; intros H; discriminate H.
Defined.

Lemma delete_user_cascades_witness :
  Task.countDocuments
    (tasks (UserController.deleteUser (H0 := Fixture.objectIds) Fixture.admin
              "000000000000000000000002" Fixture.db0).1)
    (λ t, bool_decide (Task.user t = 2)) = 0%Z.
Proof.
  refine (proj1 (proj2 (@delete_user_cascades Fixture.objectIds Fixture.admin
    "000000000000000000000002" 2 Fixture.db0
    (UserController.deleteUser (H0 := Fixture.objectIds) Fixture.admin
       "000000000000000000000002" Fixture.db0).1
    (ok 200 (Some "User and associated tasks deleted successfully") NoData) _ _ _))).
  - vm_compute. reflexivity.
  - vm_compute. reflexivity.
  - reflexivity.
Defined.

Lemma concurrent_refresh_witness : reads_first [true; false; true; false].
Proof.
  refine (@concurrent_refresh_both_succeed_only_if_reads_first Fixture.jwt
    Fixture.env "r.1.0" 3 4 Fixture.db0 [true; false; true; false]
    (AuthController.interleave (H0 := Fixture.jwt) Fixture.env
       [true; false; true; false] 3 4 Fixture.db0
       (AuthController.Start (Some "r.1.0"))
       (AuthController.Start (Some "r.1.0"))).1.1
    (ok 200 (Some "Token refreshed successfully") (TokenData "a.1.3" "r.1.3"))
    (ok 200 (Some "Token refreshed successfully") (TokenData "a.1.4" "r.1.4"))
    "a.1.3" "r.1.3" "a.1.4" "r.1.4" _ _ _ _ _ _ _ _ _).
  - unfold User.keyed. refine (bool_decide_unpack _ _). vm_compute. exact I.
  - split; reflexivity.
  - vm_compute. reflexivity.
  - reflexivity.
  - reflexivity.
  - reflexivity.
  - reflexivity.
  - intros H. discriminate H.
  - intros H. discriminate H.
Defined.

Lemma admin_update_any_task_witness :
  ∃ t', TaskController.updateTask Fixture.admin 10 (Fixture.statusBody "completed")
          7 0 Fixture.db0
        = ({| users := users Fixture.db0;
              tasks := <[10 := t']> (tasks Fixture.db0) |},
           Json (ok 200 (Some "Task updated successfully") (TaskData t')))
        ∧ Task.user t' = 2.
Proof.
  refine (proj1 (admin_update_any_task Fixture.admin 10
    (Fixture.statusBody "completed") 7 0 Fixture.db0 Fixture.t10 _ _ _)).
  - reflexivity.
  - vm_compute. reflexivity.
  - vm_compute. reflexivity.
Defined.

Lemma completedAt_tracks_status_witness :
  (∃ t t', tasks Fixture.db0 !! 10 = Some t
           ∧ data (respond (TaskController.updateTask Fixture.bob 10
                              (Fixture.statusBody "completed") 7 0 Fixture.db0).2)
             = TaskData t'
           ∧ tasks (TaskController.updateTask Fixture.bob 10
                      (Fixture.statusBody "completed") 7 0 Fixture.db0).1
               !! Task._id t = Some t'
           ∧ (Task.status t' ≠ Task.status t → completed_iff t')
           ∧ (completed_iff t → completed_iff t'))
  ∧ (∃ raw ids s,
       TaskController.taskIds (Fixture.bulkBody [10; 11; 13] "pending") = Some raw
       ∧ TaskController.cast_ids (H0 := Fixture.objectIds) raw = inr ids
       ∧ TaskController.bulk_status (Fixture.bulkBody [10; 11; 13] "pending") = Some s
       ∧ ∀ k t, tasks Fixture.db0 !! k = Some t →
           Task._id t ∈ ids → Task.user t = User._id Fixture.bob →
           ∃ t', tasks (TaskController.bulkUpdateStatus (H0 := Fixture.objectIds)
                          Fixture.bob
                          (Fixture.bulkBody [10; 11; 13] "pending") 9 Fixture.db0).1
                   !! k = Some t'
                 ∧ Task.status t' = s ∧ completed_iff t').
Proof.
  destruct (@completedAt_tracks_status Fixture.objectIds Fixture.bob Fixture.db0)
    as (_ & Hupdate & Hbulk).
  split.
  - refine (Hupdate 10 (Fixture.statusBody "completed") 7%Z 0%Z _ _ _ _).
    + vm_compute. reflexivity.
    + reflexivity.
  - refine (Hbulk (Fixture.bulkBody [10; 11; 13] "pending") 9%Z _
              (ok 200 (Some "2 tasks updated successfully") NoData) _ _).
    + vm_compute. reflexivity.
    + reflexivity.
Defined.


(** * The claims that fail as stated *)

(** C1, as stated, fails: a refresh presented with the stored token in the
    second in which that token was issued gets the same token again, and
    the next call that presents it succeeds as well. *)
Lemma refresh_replay_counterexample :
  AuthController.refreshToken (H0 := Fixture.jwt) Fixture.env
    (Some "r.1.0") 0 Fixture.db0
  = (Fixture.db0,
     Json (ok 200 (Some "Token refreshed successfully") (TokenData "a.1.0" "r.1.0")))
  ∧ (AuthController.refreshToken (H0 := Fixture.jwt) Fixture.env
       (Some "r.1.0") 1 Fixture.db0).2
    = Json (ok 200 (Some "Token refreshed successfully") (TokenData "a.1.1" "r.1.1")).
Proof. split; vm_compute; reflexivity. Qed.

(** C2, as stated, fails: an administrator asking for a task of another
    account, or for its deletion, is answered [NotFound] and the task
    stays. *)
Lemma admin_get_delete_counterexample :
  User.role Fixture.admin = "admin"
  ∧ tasks Fixture.db0 !! 10 = Some Fixture.t10
  ∧ TaskController.getTask Fixture.admin 10 Fixture.db0
    = (Fixture.db0, Json (fail 404 "Task not found"))
  ∧ TaskController.deleteTask Fixture.admin 10 Fixture.db0
    = (Fixture.db0, Json (fail 404 "Task not found")).
Proof. split_and!; vm_compute; reflexivity. Qed.

(** C9, as stated, fails: two calls presenting the token stored on the
    account, the second reading before the first has written, both
    succeed. *)
Lemma concurrent_refresh_counterexample :
  User.refreshToken Fixture.admin = Some "r.1.0"
  ∧ ∃ db',
      AuthController.interleave (H0 := Fixture.jwt) Fixture.env
        [true; false; true; false] 3 4 Fixture.db0
        (AuthController.Start (Some "r.1.0"))
        (AuthController.Start (Some "r.1.0"))
      = (db',
         AuthController.Done
           (Json (ok 200 (Some "Token refreshed successfully")
                    (TokenData "a.1.3" "r.1.3"))),
         AuthController.Done
           (Json (ok 200 (Some "Token refreshed successfully")
                    (TokenData "a.1.4" "r.1.4")))).
Proof. split; [reflexivity|]. eexists. vm_compute. reflexivity. Qed.


(** * Further properties of the handlers *)

(** ** Lookups by e-mail *)

Section email_lookup.

Lemma find_email_elem users e u :
  User.find_email users e = Some u →
  ∃ k, users !! k = Some u ∧ User.email u = e.
Proof.
  unfold User.find_email. intros Hhead.
  apply head_Some_elem_of in Hhead.
  apply list_elem_of_filter in Hhead as [He Hin].
  apply list_elem_of_fmap in Hin as ([k u'] & -> & Hin).
  apply elem_of_map_to_list in Hin. by exists k.
Qed.

Lemma find_email_None users e :
  User.find_email users e = None ↔
  ∀ k u, users !! k = Some u → User.email u ≠ e.
Proof.
  unfold User.find_email. split.
  - intros Hhead k u Hk He. apply head_None in Hhead.
    assert (u ∈ filter (λ u, User.email u = e) (map_to_list users).*2) as Hin.
    { apply list_elem_of_filter. split; [done|].
      apply list_elem_of_fmap. exists (k, u). split; [done|].
      by apply elem_of_map_to_list. }
    rewrite Hhead in Hin. by apply elem_of_nil in Hin.
  - intros Hnone.
    destruct (head _) as [u|] eqn:Hhead; [|done].
    apply find_email_elem in Hhead as (k & Hk & He). by destruct (Hnone k u).
Qed.

(** The account found is the one stored when no other holds its e-mail. *)
Lemma find_email_only users k u :
  users !! k = Some u →
  (∀ j v, users !! j = Some v → User.email v = User.email u → v = u) →
  User.find_email users (User.email u) = Some u.
Proof.
  intros Hk Honly.
  destruct (User.find_email users (User.email u)) as [v|] eqn:Hfind.
  - apply find_email_elem in Hfind as (j & Hj & He). f_equal. by eapply Honly.
  - pose proof (proj1 (find_email_None _ _) Hfind k u Hk). done.
Qed.

End email_lookup.

(** ** Sessions: login, logout and refresh *)

Section sessions.
Context `{!Bcrypt} `{!Jwt} `{!EmailPattern} (env : Env).

(** What a successful login found, issued and stored. *)
Lemma login_success_inv body now db db' r :
  AuthController.login env body now db = (db', Json r) →
  statusCode r = 200 →
  ∃ e p user,
    AuthController.login_email body = Some e
    ∧ AuthController.login_password body = Some p
    ∧ User.findOne_email (users db) e = Some user
    ∧ User.comparePassword user p = true
    ∧ r = ok 200 (Some "Login successful")
            (AuthData (view user) (User.generateAccessToken env user now)
               (User.generateRefreshToken env user now))
    ∧ db' = {| users := alter (User.set_refreshToken
                                 (Some (User.generateRefreshToken env user now))
                                 now) (User._id user) (users db);
               tasks := tasks db |}.
Proof.
  unfold AuthController.login, AuthController.sendTokenResponse.
  intros Hrun Hok.
  destruct (AuthController.login_email body) as [e|]; simpl in Hrun;
    [|by simplify_eq].
  destruct (User.findOne_email (users db) e) as [user|] eqn:Hfind;
    [|by simplify_eq].
  destruct (AuthController.login_password body) as [p|]; [|done].
  destruct (User.comparePassword user p) eqn:Hcmp; simpl in Hrun;
    [|by simplify_eq].
  simplify_eq. by exists e, p, user.
Qed.

(** X1. After a logout no refresh token is honoured for the account: a
    refresh with any token that names no other account fails and
    changes nothing.  The logout itself clears the refresh token of the
    caller's account and sets its [updatedAt] to the clock reading; the
    other fields of the account, the other accounts and the tasks stay
    as they were. *)
Theorem logout_revokes_refresh caller now presented now2 db :
  (∀ tok c, presented = Some tok →
     jwt_payload tok (JWT_REFRESH_SECRET env) = Some c →
     claim_id c = User._id caller) →
  let db1 := (AuthController.logout caller now db).1 in
  (∃ r, AuthController.refreshToken env presented now2 db1 = (db1, Json r)
        ∧ success r = false
        ∧ (Js.truthy presented = true → InvalidOrExpiredToken r))
  ∧ tasks db1 = tasks db
  ∧ (∀ k, k ≠ User._id caller → users db1 !! k = users db !! k)
  ∧ (∀ u, users db !! User._id caller = Some u →
       users db1 !! User._id caller
       = Some (User.set_refreshToken None now u)).
Proof.
  intros Hnames db1. subst db1. simpl. split_and!.
  - apply refreshToken_mismatch. intros tok c u Htok Hc Hu.
    rewrite (Hnames _ _ Htok Hc) in Hu. simpl in Hu.
    rewrite lookup_alter_eq in Hu.
    destruct (users db !! User._id caller) as [u0|]; simpl in Hu; [|done].
    injection Hu as <-. simpl. done.
  - done.
  - intros k Hk. by rewrite lookup_alter_ne.
  - intros u Hu. by rewrite lookup_alter_eq, Hu.
Qed.

(** X2. The refresh token handed out by a successful login is accepted
    by the next refresh, which answers 200 with a new pair, as long as
    the token verifies for the account and has not expired. *)
Theorem login_then_refresh body now now2 db db' r account access refresh c :
  User.keyed (users db) →
  AuthController.login env body now db = (db', Json r) →
  statusCode r = 200 →
  data r = AuthData account access refresh →
  refresh ≠ "" →
  jwt_payload refresh (JWT_REFRESH_SECRET env) = Some c →
  claim_id c = view_id account →
  jwt_expired refresh now2 = false →
  ∃ db'' access' refresh',
    AuthController.refreshToken env (Some refresh) now2 db'
    = (db'', Json (ok 200 (Some "Token refreshed successfully")
                     (TokenData access' refresh')))
    ∧ ∃ stored, users db'' !! view_id account = Some stored
                ∧ User.refreshToken stored = Some refresh'.
Proof.
  intros Hkeyed Hrun Hok Hdata Hne Hc Hid Hfresh.
  destruct (login_success_inv _ _ _ _ _ Hrun Hok)
    as (e & p & user & _ & _ & Hfind & _ & -> & ->).
  simpl in Hdata. injection Hdata as <- <- <-. simpl in Hid.
  apply find_email_elem in Hfind as (k & Hk & _).
  pose proof (Hkeyed _ _ Hk) as Hkey. simpl in Hkey. subst k.
  unfold AuthController.refreshToken, jwt_verify, User.findById. simpl.
  assert (String.eqb (User.generateRefreshToken env user now) "" = false)
    as -> by by apply String.eqb_neq.
  simpl. rewrite Hc, Hfresh, Hid, lookup_alter_eq, Hk. simpl.
  rewrite bool_decide_eq_false_2 by (intros Hbad; by apply Hbad).
  eexists _, _, _. split; [done|]. simpl.
  unfold User.save_refreshToken. case_bool_decide as Hsame.
  - rewrite lookup_alter_eq, Hk. simpl. eexists. split; [done|]. simpl.
    by injection Hsame as ->.
  - rewrite lookup_alter_eq, lookup_alter_eq, Hk. simpl. by eexists.
Qed.

(** X3. A successful login takes over the session: a refresh token [R]
    issued earlier for the account is turned down afterwards, once the
    login has stored another token. *)
Theorem login_supersedes_refresh_token body now now2 db db' r account access
    refresh R c :
  User.keyed (users db) →
  AuthController.login env body now db = (db', Json r) →
  statusCode r = 200 →
  data r = AuthData account access refresh →
  jwt_payload R (JWT_REFRESH_SECRET env) = Some c →
  claim_id c = view_id account →
  R ≠ "" →
  refresh ≠ R →
  ∃ r2, AuthController.refreshToken env (Some R) now2 db' = (db', Json r2)
        ∧ InvalidOrExpiredToken r2.
Proof.
  intros Hkeyed Hrun Hok Hdata Hc Hid Hne Hnew.
  destruct (login_success_inv _ _ _ _ _ Hrun Hok)
    as (e & p & user & _ & _ & Hfind & _ & -> & ->).
  simpl in Hdata. injection Hdata as <- <- <-. simpl in Hid.
  apply find_email_elem in Hfind as (k & Hk & _).
  pose proof (Hkeyed _ _ Hk) as Hkey. simpl in Hkey. subst k.
  destruct (refreshToken_mismatch env (Some R) now2
    {| users := alter (User.set_refreshToken
                         (Some (User.generateRefreshToken env user now)) now)
                  (User._id user) (users db);
       tasks := tasks db |}) as (r2 & Hrun2 & _ & Hclass).
  - intros tok c' u' [= <-] Hc' Hu'. rewrite Hc in Hc'. injection Hc' as <-.
    simpl in Hu'.
    rewrite Hid, lookup_alter_eq, Hk in Hu'. simpl in Hu'.
    injection Hu' as <-. simpl. congruence.
  - exists r2. split; [done|]. apply Hclass. simpl.
    by apply negb_true_iff, String.eqb_neq.
Qed.

End sessions.

(** ** Accounts: registration, password and profile *)

Section accounts_flow.
Context `{!Bcrypt} `{!Jwt} `{!EmailPattern} (env : Env).

(** What a successful registration stored. *)
Lemma register_success_inv body newId salt now db db' r :
  AuthController.register env body newId salt now db = (db', Json r) →
  statusCode r = 201 →
  ∃ e stored,
    AuthController.reg_email body = Some e
    ∧ User.find_email (users db) (User.set_email e) = None
    ∧ users db !! newId = None
    ∧ users db' = <[newId := stored]> (users db)
    ∧ User._id stored = newId
    ∧ User.email stored = User.set_email e
    ∧ User.password stored
      = bcrypt_hash (default "" (AuthController.reg_password body)) salt
    ∧ User.role stored ∈ User.roles
    ∧ tasks db' = tasks db.
Proof.
  unfold AuthController.register, User.create, User.findOne_email,
    AuthController.sendTokenResponse, User.save_refreshToken.
  intros Hrun Hok.
  destruct (AuthController.reg_email body) as [e|] eqn:He; simpl in Hrun.
  - destruct (User.find_email (users db) (User.set_email e)) eqn:Hfind;
      [by simplify_eq|].
    destruct (_ ++ _) as [|err errs] eqn:Herrors; [|done].
    apply app_eq_nil in Herrors as [_ Herrors].
    apply app_eq_nil in Herrors as [_ Herrors].
    apply app_eq_nil in Herrors as [_ Hrole].
    case_bool_decide as Hfresh; [done|].
    case_bool_decide as Hdup; [done|].
    simplify_eq. simpl. rewrite alter_insert_eq.
    eexists e, _. split_and!.
    + done.
    + done.
    + by apply eq_None_not_Some.
    + done.
    + done.
    + done.
    + done.
    + simpl. unfold User.validate_role in Hrole. by case_bool_decide.
    + done.
  - destruct (_ ++ _) as [|err errs] eqn:Herrors; [|done]. exfalso.
    by apply app_eq_nil in Herrors as [_ Herrors].
Qed.

(** X4. After a registration has succeeded, a second registration with
    the same e-mail, in any letter case and with any surrounding blanks,
    is answered 400 and creates nothing. *)
Theorem register_twice_rejected body newId salt now db db' r e
    body2 newId2 salt2 now2 e2 :
  AuthController.register env body newId salt now db = (db', Json r) →
  statusCode r = 201 →
  AuthController.reg_email body = Some e →
  AuthController.reg_email body2 = Some e2 →
  User.set_email e2 = User.set_email e →
  AuthController.register env body2 newId2 salt2 now2 db'
  = (db', Json (fail 400 "User with this email already exists")).
Proof.
  intros Hrun Hok He He2 Hsame.
  destruct (register_success_inv _ _ _ _ _ _ _ Hrun Hok)
    as (e' & stored & He' & _ & _ & Husers & _ & Hemail & _).
  rewrite He in He'. injection He' as <-.
  unfold AuthController.register. rewrite He2. simpl.
  unfold User.findOne_email. rewrite Hsame, <- Hemail.
  destruct (User.find_email (users db') (User.email stored)) eqn:Hfind; [done|].
  exfalso. eapply (proj1 (find_email_None _ _) Hfind newId stored); [|done].
  rewrite Husers. apply lookup_insert_eq.
Qed.

(** X5. An account that has just been registered can log in with the
    password it was registered with, when bcrypt accepts a password
    against its own hash: the login answers 200 for that account. *)
Theorem register_then_login body newId salt now db db' r e p now2 :
  AuthController.register env body newId salt now db = (db', Json r) →
  statusCode r = 201 →
  AuthController.reg_email body = Some e →
  AuthController.reg_password body = Some p →
  bcrypt_compare p (bcrypt_hash p salt) = true →
  ∃ db'' account access refresh,
    AuthController.login env
      {| AuthController.login_email := Some e;
         AuthController.login_password := Some p |} now2 db'
    = (db'', Json (ok 200 (Some "Login successful")
                     (AuthData account access refresh)))
    ∧ view_id account = newId
    ∧ view_email account = User.set_email e.
Proof.
  intros Hrun Hok He Hp Hbcrypt.
  destruct (register_success_inv _ _ _ _ _ _ _ Hrun Hok)
    as (e' & stored & He' & Hunused & _ & Husers & Hid & Hemail & Hpw & _).
  rewrite He in He'. injection He' as <-. rewrite Hp in Hpw. simpl in Hpw.
  assert (User.find_email (users db') (User.set_email e) = Some stored) as Hfind.
  { rewrite <- Hemail. apply (find_email_only _ newId).
    - rewrite Husers. apply lookup_insert_eq.
    - intros j v Hj Hv. rewrite Husers in Hj.
      destruct (decide (j = newId)) as [->|Hne].
      + rewrite lookup_insert_eq in Hj. by injection Hj.
      + rewrite lookup_insert_ne in Hj by done.
        destruct (proj1 (find_email_None _ _) Hunused j v Hj). congruence. }
  unfold AuthController.login, AuthController.sendTokenResponse,
    User.findOne_email, User.comparePassword. simpl.
  rewrite Hfind, Hpw, Hbcrypt. simpl.
  eexists _, _, _, _. split; [done|]. by simpl.
Qed.

(** What a successful change of password stored. *)
Lemma updatePassword_success_inv caller body salt now db db' r :
  User.keyed (users db) →
  AuthController.updatePassword env caller body salt now db = (db', Json r) →
  statusCode r = 200 →
  ∃ user current stored,
    users db !! User._id caller = Some user
    ∧ AuthController.pw_current body = Some current
    ∧ User.comparePassword user current = true
    ∧ User.validate_password (default "" (AuthController.pw_new body)) = []
    ∧ users db' = <[User._id caller := stored]> (users db)
    ∧ tasks db' = tasks db
    ∧ User._id stored = User._id user
    ∧ User.name stored = User.name user
    ∧ User.email stored = User.email user
    ∧ User.role stored = User.role user
    ∧ (default "" (AuthController.pw_new body) ≠ User.password user →
       User.password stored
       = bcrypt_hash (default "" (AuthController.pw_new body)) salt
       ∧ User.passwordChangedAt stored = Some (now - 1000)%Z).
Proof.
  unfold AuthController.updatePassword, User.findById, User.save_password,
    AuthController.sendTokenResponse, User.save_refreshToken.
  intros Hkeyed Hrun Hok.
  destruct (users db !! User._id caller) as [user|] eqn:Huser; [|done].
  pose proof (Hkeyed _ _ Huser) as Hid. simpl in Hid.
  destruct (AuthController.pw_current body) as [current|]; [|done].
  destruct (User.comparePassword user current) eqn:Hcmp; simpl in Hrun;
    [|by simplify_eq].
  destruct (_ ++ _) as [|err errs] eqn:Herrors; [|done].
  apply app_eq_nil in Herrors as [_ Herrors].
  apply app_eq_nil in Herrors as [_ Herrors].
  apply app_eq_nil in Herrors as [Hpw _]. simpl in Hpw.
  case_bool_decide as Hmod; simpl in Hrun; simplify_eq; simpl.
  - rewrite Hid.
    eexists user, current, _. do 4 (split; [done|]). split.
    { apply map_eq. intros k.
      destruct (decide (k = User._id caller)) as [->|Hk].
      - rewrite !lookup_alter_eq, Huser, lookup_insert_eq. simpl. reflexivity.
      - by rewrite !lookup_alter_ne, lookup_insert_ne. }
    split_and!; done.
  - rewrite Hid.
    eexists user, current, _. do 4 (split; [done|]). split.
    { apply map_eq. intros k.
      destruct (decide (k = User._id caller)) as [->|Hk].
      - rewrite lookup_alter_eq, Huser, lookup_insert_eq. simpl. reflexivity.
      - by rewrite lookup_alter_ne, lookup_insert_ne. }
    split_and!; done.
Qed.

(** X6. A change of password writes nothing unless it answers 200: not
    with an unknown account, a missing or wrong current password (the
    latter answered 401) or a new password the schema rejects. *)
Theorem updatePassword_failure_writes_nothing caller body salt now db :
  statusCode (respond (AuthController.updatePassword env caller body salt now db).2)
    ≠ 200 →
  (AuthController.updatePassword env caller body salt now db).1 = db
  ∧ (∀ user wrong,
       users db !! User._id caller = Some user →
       AuthController.pw_current body = Some wrong →
       User.comparePassword user wrong = false →
       (AuthController.updatePassword env caller body salt now db).2
       = Json (fail 401 "Current password is incorrect")).
Proof.
  unfold AuthController.updatePassword, User.findById,
    AuthController.sendTokenResponse.
  intros Hfail. split.
  - destruct (users db !! User._id caller) as [user|]; [|done].
    destruct (AuthController.pw_current body) as [current|]; [|done].
    destruct (User.comparePassword user current); simpl in *; [|done].
    destruct (User.save_password _ _ _ _ _) as [e|[users' user']]; [done|].
    by destruct Hfail.
  - intros user wrong Huser Hcurrent Hcmp. by rewrite Huser, Hcurrent, Hcmp.
Qed.

(** X7. After a change of password the account logs in with the new
    password and no longer with the old one, when bcrypt accepts the new
    password against its hash and rejects the old one. *)
Theorem updatePassword_then_login caller body salt now db db' r new old
    e now2 :
  User.keyed (users db) →
  User.unique_emails (users db) →
  AuthController.updatePassword env caller body salt now db = (db', Json r) →
  statusCode r = 200 →
  AuthController.pw_new body = Some new →
  (∀ user, users db !! User._id caller = Some user →
     new ≠ User.password user ∧ User.set_email e = User.email user) →
  bcrypt_compare new (bcrypt_hash new salt) = true →
  bcrypt_compare old (bcrypt_hash new salt) = false →
  statusCode (respond (AuthController.login env
     {| AuthController.login_email := Some e;
        AuthController.login_password := Some new |} now2 db').2) = 200
  ∧ (AuthController.login env
       {| AuthController.login_email := Some e;
          AuthController.login_password := Some old |} now2 db')
    = (db', Json InvalidCredentials).
Proof.
  intros Hkeyed Hunique Hrun Hok Hnew Huser Hlaw_new Hlaw_old.
  destruct (updatePassword_success_inv _ _ _ _ _ _ _ Hkeyed Hrun Hok)
    as (user & current & stored & Hu & _ & _ & _ & Husers & _ & _ & _
        & Hemail & _ & Hpw).
  destruct (Huser _ Hu) as [Hmod He]. rewrite Hnew in Hpw. simpl in Hpw.
  destruct (Hpw Hmod) as [Hhash _].
  assert (User.find_email (users db') (User.set_email e) = Some stored) as Hfind.
  { rewrite He, <- Hemail. apply (find_email_only _ (User._id caller)).
    - rewrite Husers. apply lookup_insert_eq.
    - intros j v Hj Hv. rewrite Husers in Hj.
      destruct (decide (j = User._id caller)) as [->|Hne].
      + rewrite lookup_insert_eq in Hj. by injection Hj.
      + rewrite lookup_insert_ne in Hj by done. exfalso. apply Hne.
        symmetry. eapply (Hunique _ _ Hu _ _ Hj). congruence. }
  unfold AuthController.login, AuthController.sendTokenResponse,
    User.findOne_email, User.comparePassword. simpl.
  by rewrite Hfind, Hhash, Hlaw_new, Hlaw_old.
Qed.

(** X8. The timestamp a change of password leaves on the account is one
    second back: a token issued in the second of the change or later is
    not reported as older than the password, while a token issued two
    seconds or more before is. *)
Theorem password_change_keeps_new_tokens caller body salt now db db' r iat :
  User.keyed (users db) →
  AuthController.updatePassword env caller body salt now db = (db', Json r) →
  statusCode r = 200 →
  (∀ user, users db !! User._id caller = Some user →
     default "" (AuthController.pw_new body) ≠ User.password user) →
  (1000 ≤ now)%Z →
  ∃ stored, users db' !! User._id caller = Some stored
    ∧ ((now / 1000 ≤ iat)%Z → User.changedPasswordAfter stored iat = false)
    ∧ ((iat < now / 1000 - 1)%Z → User.changedPasswordAfter stored iat = true).
Proof.
  intros Hkeyed Hrun Hok Hmod Hnow.
  destruct (updatePassword_success_inv _ _ _ _ _ _ _ Hkeyed Hrun Hok)
    as (user & current & stored & Hu & _ & _ & _ & Husers & _ & _ & _
        & _ & _ & Hpw).
  destruct (Hpw (Hmod _ Hu)) as [_ Hchanged].
  exists stored. rewrite Husers, lookup_insert_eq.
  unfold User.changedPasswordAfter. rewrite Hchanged.
  rewrite Z.quot_div_nonneg by lia.
  replace (now - 1000)%Z with (now + (-1) * 1000)%Z by lia.
  rewrite Z.div_add by lia.
  split_and!; [done| |]; intros Hiat; lia.
Qed.

End accounts_flow.

Section profile.
Context `{!Bcrypt} `{!Jwt} `{!EmailPattern} (env : Env).

(** What [findByIdAndUpdate] may change. *)
Lemma findByIdAndUpdate_inv users id name' email' role' now users' updated :
  User.findByIdAndUpdate users id name' email' role' now = inr (users', updated) →
  (∀ k, k ≠ id → users' !! k = users !! k)
  ∧ match users !! id with
    | None => users' = users ∧ updated = None
    | Some u =>
        ∃ u', updated = Some u' ∧ users' = <[id := u']> users
              ∧ User._id u' = User._id u
              ∧ User.password u' = User.password u
              ∧ User.refreshToken u' = User.refreshToken u
              ∧ User.role u' = default (User.role u) role'
              ∧ User.email u' = default (User.email u) (User.set_email <$> email')
              ∧ from_option User.validate_role [] role' = []
              ∧ User.find_email (delete id users) (User.email u') = None
    end.
Proof.
  unfold User.findByIdAndUpdate. intros Hrun.
  destruct (_ ++ _) as [|err errs] eqn:Herrors; [|done].
  apply app_eq_nil in Herrors as [_ Herrors].
  apply app_eq_nil in Herrors as [_ Hrole].
  destruct (users !! id) as [u|] eqn:Hu.
  - destruct (User.find_email _ _) eqn:Hfind; [done|].
    injection Hrun as <- <-. split.
    + intros k Hk. by rewrite lookup_insert_ne.
    + eexists. split_and!; done.
  - injection Hrun as <- <-. done.
Qed.

(** X9. A profile update reaches the name and the e-mail of the caller's
    own account and nothing else: its role, password hash and refresh
    token stay, as do all other accounts and all tasks.  An e-mail held
    by an account is answered 400 and nothing is written. *)
Theorem updateProfile_scope caller body now db :
  let db' := (AuthController.updateProfile caller body now db).1 in
  tasks db' = tasks db
  ∧ (∀ k, k ≠ User._id caller → users db' !! k = users db !! k)
  ∧ (∀ u', users db' !! User._id caller = Some u' →
       ∃ u, users db !! User._id caller = Some u
            ∧ User.role u' = User.role u
            ∧ User.password u' = User.password u
            ∧ User.refreshToken u' = User.refreshToken u)
  ∧ (∀ e other,
       AuthController.prof_email body = Some e → e ≠ "" →
       e ≠ User.email caller →
       User.findOne_email (users db) e = Some other →
       AuthController.updateProfile caller body now db
       = (db, Json (fail 400 "Email is already in use"))).
Proof.
  unfold AuthController.updateProfile. simpl.
  split_and!.
  - destruct (if _ && _ then _ else _); [done|].
    destruct (User.findByIdAndUpdate _ _ _ _ _ _) as [e|[users' [u'|]]]; done.
  - intros k Hk.
    destruct (if _ && _ then _ else _); [done|].
    destruct (User.findByIdAndUpdate _ _ _ _ _ _) as [e|[users' [u'|]]] eqn:Hup;
      [done| |done].
    apply findByIdAndUpdate_inv in Hup as [Hframe _]. by apply Hframe.
  - intros u' Hu'.
    destruct (if _ && _ then _ else _); [by exists u'|].
    destruct (User.findByIdAndUpdate _ _ _ _ _ _) as [e|[users' [u1|]]] eqn:Hup;
      [by exists u'| |by exists u'].
    apply findByIdAndUpdate_inv in Hup as [_ Hup]. simpl in Hu'.
    destruct (users db !! User._id caller) as [u|]; [|by destruct Hup].
    destruct Hup as (u2 & _ & -> & _ & Hpw & Htok & Hrole & _).
    rewrite lookup_insert_eq in Hu'. injection Hu' as <-.
    exists u. by split_and!.
  - intros e other He Hne Hdiff Hfind. rewrite He. simpl.
    assert (String.eqb e "" = false) as -> by by apply String.eqb_neq.
    rewrite bool_decide_eq_true_2 by congruence. simpl. by rewrite Hfind.
Qed.

(** X10. [findByCredentials] and [login] decide alike: the static
    returns an account exactly when the login with the same e-mail and
    password is answered 200, and raises "Invalid credentials" exactly
    when the login is answered 401. *)
Theorem findByCredentials_agrees_with_login e p now db :
  let body := {| AuthController.login_email := Some e;
                 AuthController.login_password := Some p |} in
  ((∃ u, User.findByCredentials (users db) e p = inr u)
   ↔ statusCode (respond (AuthController.login env body now db).2) = 200)
  ∧ (User.findByCredentials (users db) e p = inl User.InvalidCredentialsError
     ↔ (AuthController.login env body now db).2 = Json InvalidCredentials).
Proof.
  unfold User.findByCredentials, AuthController.login,
    AuthController.sendTokenResponse. simpl.
  destruct (User.findOne_email (users db) e) as [u|]; simpl;
    [destruct (User.comparePassword u p); simpl|];
    repeat split; try done; try (intros _; by eexists); by intros [? ?].
Qed.

End profile.

(** ** Tasks: what a request can reach *)

Section task_scope.
Context `{!ObjectIds}.

Lemma find_elem tasks query t :
  t ∈ Task.find tasks query ↔ query t = true ∧ ∃ k, tasks !! k = Some t.
Proof.
  unfold Task.find. rewrite list_elem_of_filter, list_elem_of_fmap. split.
  - intros [Hq ([k t'] & -> & Hin)]. apply elem_of_map_to_list in Hin. eauto.
  - intros [Hq [k Hk]]. split; [done|]. exists (k, t). split; [done|].
    by apply elem_of_map_to_list.
Qed.

Lemma deleteMany_lookup tasks query k :
  Task.deleteMany tasks query !! k
  = match tasks !! k with
    | Some t => if query t then None else Some t
    | None => None
    end.
Proof.
  unfold Task.deleteMany. rewrite map_lookup_filter.
  destruct (tasks !! k) as [t|]; simpl; [|done].
  case_guard as Hg; simpl in *; destruct (query t); done.
Qed.

(** X11. A request of a caller who is not an administrator never changes
    or removes a task of another account, whichever of the handlers that
    write tasks it goes to. *)
Theorem tasks_of_others_untouched caller db k t :
  Task.keyed (tasks db) →
  tasks db !! k = Some t →
  Task.user t ≠ User._id caller →
  (∀ body newId now today,
     tasks (TaskController.createTask caller body newId now today db).1 !! k
     = Some t)
  ∧ (∀ id body now today,
       User.role caller ≠ "admin" →
       tasks (TaskController.updateTask caller id body now today db).1 !! k
       = Some t)
  ∧ (∀ id, tasks (TaskController.deleteTask caller id db).1 !! k = Some t)
  ∧ (∀ body now,
       tasks (TaskController.bulkUpdateStatus caller body now db).1 !! k = Some t)
  ∧ (∀ body, tasks (TaskController.bulkDelete caller body db).1 !! k = Some t).
Proof.
  intros Hkeyed Hk Hother. split_and!.
  - intros body newId now today.
    unfold TaskController.createTask, Task.create.
    destruct (Task.validate true today _); [|done].
    case_bool_decide as Hfresh; [done|]. simpl.
    rewrite lookup_insert_ne; [done|]. intros ->. apply Hfresh. by eexists.
  - intros id body now today Hrole.
    unfold TaskController.updateTask.
    rewrite bool_decide_eq_true_2 by done.
    destruct (Task.findOne_owned (tasks db) id (User._id caller)) as [t0|] eqn:Hfound;
      [|done].
    apply findOne_owned_Some in Hfound as [Ht0 Howner].
    pose proof (Hkeyed _ _ Ht0) as Hid. simpl in Hid.
    destruct (Task.save _ _ _ _ _) as [e|[tasks' t']] eqn:Hsave; [done|].
    apply save_inv in Hsave as (_ & -> & _). simpl.
    rewrite Hid, lookup_insert_ne; [done|]. intros ->.
    rewrite Ht0 in Hk. injection Hk as ->. done.
  - intros id. unfold TaskController.deleteTask.
    destruct (Task.findOne_owned (tasks db) id (User._id caller)) as [t0|] eqn:Hfound;
      [|done].
    apply findOne_owned_Some in Hfound as [Ht0 Howner]. simpl.
    rewrite lookup_delete_ne; [done|]. intros ->.
    rewrite Ht0 in Hk. injection Hk as ->. done.
  - intros body now. unfold TaskController.bulkUpdateStatus, Task.updateMany.
    destruct (TaskController.taskIds body) as [[|i raw]|]; [done..| |done].
    destruct (negb _); [done|].
    destruct (TaskController.cast_ids (i :: raw)) as [e|ids]; [done|]. simpl.
    rewrite lookup_fmap, Hk. simpl.
    by rewrite (bool_decide_eq_false_2 (Task.user t = _)), andb_false_r.
  - intros body. unfold TaskController.bulkDelete.
    destruct (TaskController.taskIds body) as [[|i raw]|]; [done..| |done].
    destruct (TaskController.cast_ids (i :: raw)) as [e|ids]; [done|].
    simpl. rewrite deleteMany_lookup, Hk.
    by rewrite (bool_decide_eq_false_2 (Task.user t = _)), andb_false_r.
Qed.

(** X12. The two delete handlers remove the tasks of the caller that the
    request names, and only those: after [deleteTask] on an own task that
    task is gone and every other task is as before; after [bulkDelete]
    with ids that all cast to ObjectIds a task is gone exactly when it is
    listed and owned by the caller.  A missing or empty list of ids is
    answered 400. *)
Theorem delete_removes_exactly caller db :
  (∀ id t,
     tasks db !! id = Some t → Task.user t = User._id caller →
     ∃ db', TaskController.deleteTask caller id db
            = (db', Json (ok 200 (Some "Task deleted successfully") NoData))
            ∧ tasks db' !! id = None
            ∧ (∀ k, k ≠ id → tasks db' !! k = tasks db !! k)
            ∧ users db' = users db)
  ∧ (∀ body raw ids,
       TaskController.taskIds body = Some raw → raw ≠ [] →
       TaskController.cast_ids raw = inr ids →
       let db' := (TaskController.bulkDelete caller body db).1 in
       users db' = users db
       ∧ ∀ k t, tasks db !! k = Some t →
           tasks db' !! k
           = if bool_decide (Task._id t ∈ ids ∧ Task.user t = User._id caller)
             then None else Some t)
  ∧ (∀ body,
       TaskController.taskIds body = None ∨ TaskController.taskIds body = Some [] →
       TaskController.bulkDelete caller body db
       = (db, Json (fail 400 "Task IDs array is required"))).
Proof.
  split_and!.
  - intros id t Ht Howner. unfold TaskController.deleteTask.
    rewrite (proj2 (findOne_owned_Some _ _ _ _) (conj Ht Howner)).
    eexists. split; [done|]. simpl. split_and!; [|..|done].
    + apply lookup_delete_eq.
    + intros k Hk. by apply lookup_delete_ne.
  - intros body raw ids Hraw Hne Hids. unfold TaskController.bulkDelete.
    rewrite Hraw. destruct raw as [|i raw]; [done|]. rewrite Hids.
    simpl. split; [done|].
    intros k t Hk. rewrite deleteMany_lookup, Hk.
    destruct (bool_decide (Task._id t ∈ ids)) eqn:Hin;
      destruct (bool_decide (Task.user t = User._id caller)) eqn:Ho; simpl;
      apply bool_decide_eq_true in Hin || apply bool_decide_eq_false in Hin;
      apply bool_decide_eq_true in Ho || apply bool_decide_eq_false in Ho.
    + by rewrite bool_decide_eq_true_2.
    + rewrite bool_decide_eq_false_2; [done|]. by intros [_ ?].
    + rewrite bool_decide_eq_false_2; [done|]. by intros [? _].
    + rewrite bool_decide_eq_false_2; [done|]. by intros [? _].
  - intros body [Hids|Hids]; unfold TaskController.bulkDelete; by rewrite Hids.
Qed.

End task_scope.

Section task_update.

Lemma pre_save_kept m now t :
  let t' := Task.pre_save m now t in
  Task._id t' = Task._id t ∧ Task.user t' = Task.user t
  ∧ Task.createdAt t' = Task.createdAt t ∧ Task.title t' = Task.title t
  ∧ Task.description t' = Task.description t
  ∧ Task.priority t' = Task.priority t ∧ Task.dueDate t' = Task.dueDate t
  ∧ Task.tags t' = Task.tags t ∧ Task.status t' = Task.status t.
Proof.
  unfold Task.pre_save.
  destruct m, (String.eqb (Task.status t) "completed") eqn:Hs; simpl;
    rewrite ?Hs; done.
Qed.

(** A successful [save] stores the document it was given, up to the
    completion and update timestamps. *)
Lemma save_kept tasks old t now today tasks' t' :
  Task.save tasks old t now today = inr (tasks', t') →
  tasks' = <[Task._id old := t']> tasks
  ∧ Task._id t' = Task._id t ∧ Task.user t' = Task.user t
  ∧ Task.createdAt t' = Task.createdAt t ∧ Task.title t' = Task.title t
  ∧ Task.description t' = Task.description t
  ∧ Task.priority t' = Task.priority t ∧ Task.dueDate t' = Task.dueDate t
  ∧ Task.tags t' = Task.tags t ∧ Task.status t' = Task.status t
  ∧ (Task.status t = Task.status old → Task.completedAt t' = Task.completedAt t).
Proof.
  unfold Task.save. intros Hsave.
  destruct (Task.validate false today t); [|done].
  injection Hsave as <- <-.
  set (m := bool_decide (Task.status t ≠ Task.status old)).
  destruct (pre_save_kept m now t)
    as (Hid & Huser & Hcreated & Htitle & Hdesc & Hprio & Hdue & Htags & Hstatus).
  split; [done|].
  destruct (bool_decide (Task.pre_save m now t = old)); simpl;
    (split_and!; [done..|]); intros Hsame; subst m;
    by rewrite bool_decide_eq_false_2 by (intros Hne; by apply Hne).
Qed.

(** X13. An update of a task, by its owner or by an administrator,
    never changes the id, the owner or the creation time of the task,
    keeps each field the body leaves out, and leaves all other tasks and
    all accounts as they were. *)
Theorem updateTask_keeps_identity caller id body now today db db' r :
  TaskController.updateTask caller id body now today db = (db', Json r) →
  statusCode r = 200 →
  ∃ t t',
    tasks db !! id = Some t
    ∧ data r = TaskData t'
    ∧ tasks db' = <[Task._id t := t']> (tasks db)
    ∧ users db' = users db
    ∧ Task._id t' = Task._id t
    ∧ Task.user t' = Task.user t
    ∧ Task.createdAt t' = Task.createdAt t
    ∧ (Js.truthy (TaskController.b_title body) = false →
       Task.title t' = Task.title t)
    ∧ (Js.truthy (TaskController.b_status body) = false →
       Task.status t' = Task.status t ∧ Task.completedAt t' = Task.completedAt t)
    ∧ (Js.truthy (TaskController.b_priority body) = false →
       Task.priority t' = Task.priority t)
    ∧ (TaskController.b_description body = None →
       Task.description t' = Task.description t)
    ∧ (TaskController.b_dueDate body = None → Task.dueDate t' = Task.dueDate t)
    ∧ (TaskController.b_tags body = None → Task.tags t' = Task.tags t).
Proof.
  intros Hrun Hok.
  destruct (updateTask_inv _ _ _ _ _ _ _ _ Hrun Hok)
    as (t & t' & Ht & Hsave & Hdata).
  assert (users db' = users db) as Husers.
  { unfold TaskController.updateTask in Hrun.
    destruct (if bool_decide _ then _ else _); [|by simplify_eq].
    destruct (Task.save _ _ _ _ _) as [e|[tasks' t1]]; by simplify_eq. }
  apply save_kept in Hsave
    as (Htasks & Hid & Huser & Hcreated & Htitle & Hdesc & Hprio & Hdue
        & Htags & Hstatus & Hdone).
  exists t, t'. split_and!; [done..| | | | | |].
  - intros Hb. rewrite Htitle. simpl. by rewrite Hb.
  - intros Hb. rewrite Hstatus. simpl. rewrite Hb. split; [done|].
    rewrite Hdone; [done|]. simpl. by rewrite Hb.
  - intros Hb. rewrite Hprio. simpl. by rewrite Hb.
  - intros Hb. rewrite Hdesc. simpl. by rewrite Hb.
  - intros Hb. rewrite Hdue. simpl. by rewrite Hb.
  - intros Hb. rewrite Htags. simpl. by rewrite Hb.
Qed.

End task_update.

(** ** Listing tasks *)

Section listing.
Context `{!Mongo}.

Lemma cursor_sublist {A} (docs found : list A) skip limit :
  cursor docs skip limit = inr found → found `sublist_of` docs.
Proof.
  unfold cursor. destruct (skip <? 0)%Z; [done|]. intros [= <-].
  destruct (limit =? 0)%Z.
  - apply sublist_drop.
  - etrans; [apply sublist_take|apply sublist_drop].
Qed.

(** X14. The list of tasks a caller gets holds stored tasks of the caller
    that match the filters of the request, no more of them than [total]
    reports, and the request writes nothing, for any page and limit,
    when the sort of the store only reorders. *)
Theorem getTasks_only_own caller q db r found page limit total pages :
  (∀ l, mongo_sort (TaskController.sort_of q).1 (TaskController.sort_of q).2 l
        ≡ₚ l) →
  (TaskController.getTasks caller q db).2 = Json r →
  data r = TaskPage found page limit total pages →
  (TaskController.getTasks caller q db).1 = db
  ∧ Forall (λ t, Task.user t = User._id caller
                 ∧ TaskController.list_query caller q t = true
                 ∧ ∃ k, tasks db !! k = Some t) found
  ∧ (Z.of_nat (length found) ≤ total)%Z
  ∧ total = Z.of_nat (length (Task.find (tasks db)
                                (TaskController.list_query caller q))).
Proof.
  intros Hperm. unfold TaskController.getTasks.
  destruct (TaskController.sort_of q) as [field dir]. simpl in Hperm.
  destruct (cursor _ _ _) as [e|found'] eqn:Hcursor; [done|]. simpl.
  intros [= <-]. simpl. intros [= <- _ _ <- _].
  apply cursor_sublist in Hcursor. split_and!; [done| | |done].
  - apply Forall_forall. intros t Ht.
    assert (t ∈ Task.find (tasks db) (TaskController.list_query caller q)) as Hin.
    { rewrite <- (Hperm _). by eapply elem_of_sublist. }
    apply find_elem in Hin as [Hq Hk]. split_and!; [|done..].
    unfold TaskController.list_query in Hq.
    repeat (apply andb_true_iff in Hq as [Hq _]).
    by apply bool_decide_eq_true in Hq.
  - unfold Task.countDocuments. apply sublist_length in Hcursor.
    rewrite (Permutation_length (Hperm _)) in Hcursor. lia.
Qed.




End listing.

(** ** Statistics *)

Section statistics.

(** Grouping counts each value of the key as often as it occurs, and
    has no entry for a value that does not occur. *)
Lemma count_by_lookup (key : Task.doc → string) l s :
  Task.count_by key l !! s
  = match length (filter (λ t, key t = s) l) with
    | 0 => None
    | n => Some n
    end.
Proof.
  induction l as [|t l IH]; [done|]. simpl.
  destruct (decide (key t = s)) as [Hs|Hs].
  - rewrite filter_cons_True by done. simpl.
    rewrite Hs, lookup_insert_eq, IH.
    by destruct (length _).
  - rewrite filter_cons_False by done.
    by rewrite lookup_insert_ne.
Qed.

Lemma find_find tasks (p q : Task.doc → bool) :
  filter (λ t, q t = true) (Task.find tasks p)
  = Task.find tasks (λ t, p t && q t).
Proof.
  unfold Task.find. rewrite list_filter_filter.
  apply list_filter_iff. intros t. rewrite andb_true_iff. tauto.
Qed.

(** X16. The statistics of a caller count that caller's stored tasks:
    each status and each priority has as its entry the number of the
    caller's tasks with it, and no entry when there is none; [overdue]
    is the number of the caller's tasks whose [isOverdue] holds at the
    clock reading, completed tasks never among them. *)
Theorem getTaskStats_counts caller now today tomorrow db :
  let stats := TaskController.getTaskStats caller now today tomorrow db in
  let owned := Task.find (tasks db)
                 (λ t, bool_decide (Task.user t = User._id caller)) in
  (∀ s, default 0 (TaskController.byStatus stats !! s)
        = length (filter (λ t, Task.status t = s) owned)
        ∧ TaskController.byStatus stats !! s ≠ Some 0)
  ∧ (∀ p, default 0 (TaskController.byPriority stats !! p)
          = length (filter (λ t, Task.priority t = p) owned)
          ∧ TaskController.byPriority stats !! p ≠ Some 0)
  ∧ TaskController.overdue stats
    = Z.of_nat (length (filter (λ t, Task.isOverdue now t = true) owned)).
Proof.
  simpl. split_and!.
  - intros s. rewrite count_by_lookup. by destruct (length _).
  - intros p. rewrite count_by_lookup. by destruct (length _).
  - unfold Task.countDocuments. f_equal. rewrite find_find. f_equal.
    unfold Task.find. apply list_filter_iff. intros t.
    unfold Task.isOverdue.
    destruct (bool_decide (Task.user t = User._id caller)); simpl; [|done].
    destruct (String.eqb (Task.status t) "completed"); simpl; [done|].
    by destruct (Task.dueDate t).
Qed.

End statistics.

(** ** Invariants of the stored tasks *)

Section task_invariants.
Context `{!EmailPattern} `{!ObjectIds}.

(** X17. Once every stored task has its completion timestamp in step
    with its status, it stays so under every handler that writes tasks:
    creation, update, the two deletes, the bulk status update and the
    deletion of an account. *)
Theorem completion_invariant_kept caller db :
  completion_invariant (tasks db) →
  (∀ body newId now today,
     completion_invariant
       (tasks (TaskController.createTask caller body newId now today db).1))
  ∧ (∀ id body now today,
       completion_invariant
         (tasks (TaskController.updateTask caller id body now today db).1))
  ∧ (∀ id, completion_invariant (tasks (TaskController.deleteTask caller id db).1))
  ∧ (∀ body now,
       completion_invariant
         (tasks (TaskController.bulkUpdateStatus caller body now db).1))
  ∧ (∀ body, completion_invariant (tasks (TaskController.bulkDelete caller body db).1))
  ∧ (∀ id, completion_invariant (tasks (UserController.deleteUser caller id db).1)).
Proof.
  intros Hinv. split_and!.
  - intros body newId now today.
    destruct (TaskController.createTask caller body newId now today db)
      as [db' [r|e]] eqn:Hrun; simpl.
    + destruct (createTask_inv _ _ _ _ _ _ _ _ Hrun)
        as (t & _ & _ & -> & _ & _ & Hiff).
      by apply map_Forall_insert_2.
    + unfold TaskController.createTask in Hrun.
      destruct (Task.create _ _ _ _ _ _ _ _ _ _ _) as [e'|[tasks' t]];
        by simplify_eq.
  - intros id body now today.
    unfold TaskController.updateTask.
    destruct (if bool_decide _ then _ else _) as [t|] eqn:Hfound; [|done].
    assert (tasks db !! id = Some t) as Ht.
    { destruct (bool_decide (User.role caller ≠ "admin"));
        [by apply findOne_owned_Some in Hfound as [? _]|done]. }
    destruct (Task.save _ _ _ _ _) as [e|[tasks' t']] eqn:Hsave; [done|].
    apply save_inv in Hsave as (_ & -> & _ & _ & Hmod & Hsame). simpl.
    apply map_Forall_insert_2; [|done].
    destruct (decide (Task.status (TaskController.assign t body) = Task.status t))
      as [Heq|Hne]; [|by apply Hmod].
    apply Hsame; [done..|]. by apply (Hinv id).
  - intros id. unfold TaskController.deleteTask.
    destruct (Task.findOne_owned _ _ _); [|done].
    by apply map_Forall_delete.
  - intros body now. unfold TaskController.bulkUpdateStatus, Task.updateMany.
    destruct (TaskController.taskIds body) as [[|i raw]|]; [done..| |done].
    destruct (negb _); [done|].
    destruct (TaskController.cast_ids (i :: raw)) as [e|ids]; [done|]. simpl.
    apply map_Forall_fmap. intros k t Hk. simpl.
    destruct (_ && _); [apply bulk_update_completed|by apply (Hinv k)].
  - intros body. unfold TaskController.bulkDelete.
    destruct (TaskController.taskIds body) as [[|i raw]|]; [done..| |done].
    destruct (TaskController.cast_ids (i :: raw)) as [e|ids]; [done|].
    simpl. intros k t Hk. unfold Task.deleteMany in Hk.
    apply map_lookup_filter_Some in Hk as [Hk _]. by apply (Hinv k).
  - intros id. unfold UserController.deleteUser.
    destruct (castObjectId id) as [oid|]; [|done].
    destruct (User.findById _ _); [|done].
    destruct (bool_decide _); [done|]. simpl.
    intros k t Hk. unfold Task.deleteMany in Hk.
    apply map_lookup_filter_Some in Hk as [Hk _]. by apply (Hinv k).
Qed.

(** X18. The deletion of the account an id casts to takes that account
    and its tasks and nothing else: every other account and every task
    of another account is as before.  An unknown id is answered 404 and
    nothing is written. *)
Theorem deleteUser_frame caller id oid db :
  castObjectId id = Some oid →
  (∀ db' r,
     UserController.deleteUser caller id db = (db', Json r) →
     statusCode r = 200 →
     (∀ k, k ≠ oid → users db' !! k = users db !! k)
     ∧ (∀ k t, tasks db !! k = Some t → Task.user t ≠ oid →
          tasks db' !! k = Some t))
  ∧ (users db !! oid = None →
     UserController.deleteUser caller id db
     = (db, Json (fail 404 "User not found"))).
Proof.
  unfold UserController.deleteUser, User.findById, User.findByIdAndDelete.
  intros ->. split.
  - intros db' r Hrun Hok.
    destruct (users db !! oid); [|by simplify_eq].
    destruct (bool_decide _); [by simplify_eq|]. simplify_eq. simpl. split.
    + intros k Hk. by apply lookup_delete_ne.
    + intros k t Hk Howner. rewrite deleteMany_lookup, Hk.
      by rewrite bool_decide_eq_false_2.
  - by intros ->.
Qed.

End task_invariants.

(** ** Invariants of the stored accounts *)

Section account_invariants.
Context `{!Bcrypt} `{!Jwt} `{!EmailPattern} (env : Env).

Lemma valid_roles_alter f k users :
  (∀ u, User.role (f u) = User.role u) →
  User.valid_roles users → User.valid_roles (alter f k users).
Proof.
  intros Hf Hvalid i u Hi.
  apply lookup_alter_Some in Hi as [(_ & u0 & Hu0 & ->)|[_ Hi]].
  - rewrite Hf. by apply (Hvalid i).
  - by apply (Hvalid i).
Qed.

Lemma unique_emails_spec users :
  User.unique_emails users ↔
  ∀ i j u v, users !! i = Some u → users !! j = Some v →
             User.email u = User.email v → i = j.
Proof.
  unfold User.unique_emails, map_Forall. split.
  - intros Hu i j u v Hi Hj. by apply (Hu i u Hi j v Hj).
  - intros Hu i u Hi j v Hj. by apply (Hu i j u v).
Qed.

Lemma unique_emails_alter f k users :
  (∀ u, User.email (f u) = User.email u) →
  User.unique_emails users → User.unique_emails (alter f k users).
Proof.
  rewrite !unique_emails_spec. intros Hf Hunique i j u v Hi Hj Hemail.
  apply lookup_alter_Some in Hi as [(_ & u0 & Hu0 & ->)|[_ Hi]];
    apply lookup_alter_Some in Hj as [(_ & v0 & Hv0 & ->)|[_ Hj]];
    rewrite ?Hf in Hemail; by eapply Hunique.
Qed.

Lemma unique_emails_insert k u users :
  User.unique_emails users →
  User.find_email (delete k users) (User.email u) = None →
  User.unique_emails (<[k := u]> users).
Proof.
  rewrite !unique_emails_spec. intros Hunique Hnone i j a b Hi Hj Hemail.
  pose proof (proj1 (find_email_None _ _) Hnone) as Hfree.
  destruct (decide (i = k)) as [->|Hik], (decide (j = k)) as [->|Hjk]; [done|..].
  - rewrite lookup_insert_eq in Hi. injection Hi as <-.
    rewrite lookup_insert_ne in Hj by done.
    destruct (Hfree j b); [by rewrite lookup_delete_ne|done].
  - rewrite lookup_insert_eq in Hj. injection Hj as <-.
    rewrite lookup_insert_ne in Hi by done.
    destruct (Hfree i a); [by rewrite lookup_delete_ne|done].
  - rewrite lookup_insert_ne in Hi, Hj by done. by eapply Hunique.
Qed.

Lemma unique_emails_delete k users :
  User.unique_emails users → User.unique_emails (delete k users).
Proof.
  rewrite !unique_emails_spec. intros Hunique i j a b Hi Hj.
  apply lookup_delete_Some in Hi as [_ Hi].
  apply lookup_delete_Some in Hj as [_ Hj]. by eapply Hunique.
Qed.

(** What a successful [create] inserted. *)
Lemma create_inv users n e p role newId salt now users' u :
  User.create users n e p role newId salt now = inr (users', u) →
  users !! newId = None
  ∧ users' = <[newId := u]> users
  ∧ User.role u = role ∧ role ∈ User.roles
  ∧ User.find_email users (User.email u) = None
  ∧ User.refreshToken u = None.
Proof.
  unfold User.create. intros Hrun.
  destruct (_ ++ _) as [|err errs] eqn:Herrors; [|done].
  apply app_eq_nil in Herrors as [_ Herrors].
  apply app_eq_nil in Herrors as [_ Herrors].
  apply app_eq_nil in Herrors as [_ Hrole]. simpl in Hrole.
  case_bool_decide as Hfresh; [done|].
  case_bool_decide as Hdup; [done|].
  injection Hrun as <- <-. simpl. split_and!; try done.
  - by apply eq_None_not_Some.
  - unfold User.validate_role in Hrole. by case_bool_decide.
  - by apply eq_None_not_Some.
Qed.

End account_invariants.

(** The writes of the account handlers are of four kinds: a change of one
    stored document that keeps its role and e-mail, the insert of a new
    document, the replacement of a document by an update, and a delete.  A
    property of the collection that each kind keeps is kept by every
    handler. *)
Section account_writes.
Context `{!Bcrypt} `{!Jwt} `{!EmailPattern} `{!ObjectIds} (env : Env).
Variable Inv : gmap nat User.doc → Prop.
Hypothesis Inv_alter : ∀ f k users,
  (∀ u, User.role (f u) = User.role u ∧ User.email (f u) = User.email u) →
  Inv users → Inv (alter f k users).
Hypothesis Inv_insert : ∀ k u users,
  users !! k = None → User.role u ∈ User.roles →
  User.find_email users (User.email u) = None →
  Inv users → Inv (<[k := u]> users).
Hypothesis Inv_update : ∀ k u u' users,
  users !! k = Some u →
  User.role u' = User.role u ∨ User.role u' ∈ User.roles →
  User.find_email (delete k users) (User.email u') = None →
  Inv users → Inv (<[k := u']> users).
Hypothesis Inv_delete : ∀ k users, Inv users → Inv (delete k users).

Lemma sendTokenResponse_keeps user code msg now db :
  Inv (users db) →
  Inv (users (AuthController.sendTokenResponse env user code msg now db).1).
Proof. intros Hinv. simpl. unfold User.save_refreshToken. by apply Inv_alter. Qed.

Lemma register_keeps body newId salt now db :
  Inv (users db) →
  Inv (users (AuthController.register env body newId salt now db).1).
Proof.
  intros Hinv. unfold AuthController.register.
  destruct (_ ≫= _); [done|].
  destruct (User.create _ _ _ _ _ _ _ _) as [e|[users' user]] eqn:Hcreate; [done|].
  apply create_inv in Hcreate as (Hfresh & -> & <- & Hrole & Hfree & _).
  apply sendTokenResponse_keeps. simpl. by apply Inv_insert.
Qed.

Lemma login_keeps body now db :
  Inv (users db) → Inv (users (AuthController.login env body now db).1).
Proof.
  intros Hinv. unfold AuthController.login.
  destruct (_ ≫= _); [|done].
  destruct (AuthController.login_password body); [|done].
  destruct (negb _); [done|]. by apply sendTokenResponse_keeps.
Qed.

Lemma refreshToken_keeps presented now db :
  Inv (users db) →
  Inv (users (AuthController.refreshToken env presented now db).1).
Proof.
  intros Hinv. unfold AuthController.refreshToken.
  destruct (negb _); [done|].
  destruct (jwt_verify _ _ _); [|done..].
  destruct (User.findById _ _); [|done].
  destruct (bool_decide _); [done|].
  simpl. unfold User.save_refreshToken.
  case_bool_decide; [done|]. by apply Inv_alter.
Qed.

Lemma logout_keeps caller now db :
  Inv (users db) → Inv (users (AuthController.logout caller now db).1).
Proof. intros Hinv. simpl. by apply Inv_alter. Qed.

Lemma updatePassword_keeps caller body salt now db :
  Inv (users db) →
  Inv (users (AuthController.updatePassword env caller body salt now db).1).
Proof.
  intros Hinv. unfold AuthController.updatePassword.
  destruct (User.findById _ _) as [user|]; [|done].
  destruct (AuthController.pw_current body); [|done].
  destruct (negb _); [done|].
  destruct (User.save_password _ _ _ _ _) as [e|[users' user']] eqn:Hsave; [done|].
  apply sendTokenResponse_keeps. simpl.
  unfold User.save_password in Hsave.
  destruct (_ ++ _); [|done].
  destruct (bool_decide _); injection Hsave as <- <-; [|done].
  by apply Inv_alter.
Qed.

Lemma findByIdAndUpdate_keeps users id name' email' role' now users' updated :
  User.findByIdAndUpdate users id name' email' role' now = inr (users', updated) →
  Inv users → Inv users'.
Proof.
  intros Hrun Hinv.
  apply findByIdAndUpdate_inv in Hrun as [_ Hrun].
  destruct (users !! id) as [u|] eqn:Hu; [|by destruct Hrun as [-> _]].
  destruct Hrun as (u' & _ & -> & _ & _ & _ & Hrole & _ & Hvalid & Hfree).
  apply (Inv_update id u); [done| |done..].
  destruct role' as [r|]; [right|by left].
  simpl in *. rewrite Hrole. unfold User.validate_role in Hvalid.
  by case_bool_decide.
Qed.

Lemma updateProfile_keeps caller body now db :
  Inv (users db) →
  Inv (users (AuthController.updateProfile caller body now db).1).
Proof.
  intros Hinv. unfold AuthController.updateProfile.
  destruct (if _ && _ then _ ≫= _ else None) as [?|]; [done|].
  destruct (User.findByIdAndUpdate _ _ _ _ _ _) as [e|[users' [user|]]] eqn:Hrun;
    [done| |done].
  simpl. by eapply findByIdAndUpdate_keeps.
Qed.

Lemma createUser_keeps body newId salt now db :
  Inv (users db) →
  Inv (users (UserController.createUser body newId salt now db).1).
Proof.
  intros Hinv. unfold UserController.createUser.
  destruct (_ ≫= _); [done|].
  destruct (User.create _ _ _ _ _ _ _ _) as [e|[users' user]] eqn:Hcreate; [done|].
  apply create_inv in Hcreate as (Hfresh & -> & Hr & Hrole & Hfree & _).
  simpl. apply Inv_insert; [done| |done..]. by rewrite Hr.
Qed.

Lemma updateUser_keeps caller id body now db :
  Inv (users db) →
  Inv (users (UserController.updateUser caller id body now db).1).
Proof.
  intros Hinv. unfold UserController.updateUser.
  destruct (castObjectId id) as [oid|]; [|done].
  destruct (User.findById _ _); [|done].
  destruct (_ && _); [done|].
  destruct (if _ && _ then _ ≫= _ else None) as [?|]; [done|].
  destruct (User.findByIdAndUpdate _ _ _ _ _ _) as [e|[users' updated]] eqn:Hrun;
    [done|].
  simpl. by eapply findByIdAndUpdate_keeps.
Qed.

Lemma deleteUser_keeps caller id db :
  Inv (users db) → Inv (users (UserController.deleteUser caller id db).1).
Proof.
  intros Hinv. unfold UserController.deleteUser.
  destruct (castObjectId id) as [oid|]; [|done].
  destruct (User.findById _ _); [|done].
  destruct (bool_decide _); [done|]. simpl. by apply Inv_delete.
Qed.

End account_writes.

Section account_invariants_kept.
Context `{!Bcrypt} `{!Jwt} `{!EmailPattern} `{!ObjectIds} (env : Env).

(** X19. Every account handler keeps the roles of the stored accounts
    within the two roles of the schema: whatever the request and whether
    it succeeds or fails, after register, login, refreshToken, logout,
    updatePassword, updateProfile, createUser, updateUser and deleteUser
    every stored account has the role user or admin, when this held
    before. *)
Theorem valid_roles_kept db :
  User.valid_roles (users db) →
  (∀ body newId salt now,
     User.valid_roles (users (AuthController.register env body newId salt now db).1))
  ∧ (∀ body now, User.valid_roles (users (AuthController.login env body now db).1))
  ∧ (∀ presented now,
       User.valid_roles (users (AuthController.refreshToken env presented now db).1))
  ∧ (∀ caller now, User.valid_roles (users (AuthController.logout caller now db).1))
  ∧ (∀ caller body salt now,
       User.valid_roles
         (users (AuthController.updatePassword env caller body salt now db).1))
  ∧ (∀ caller body now,
       User.valid_roles (users (AuthController.updateProfile caller body now db).1))
  ∧ (∀ body newId salt now,
       User.valid_roles (users (UserController.createUser body newId salt now db).1))
  ∧ (∀ caller id body now,
       User.valid_roles (users (UserController.updateUser caller id body now db).1))
  ∧ (∀ caller id, User.valid_roles (users (UserController.deleteUser caller id db).1)).
Proof.
  intros Hvalid.
  assert (∀ f k users,
    (∀ u, User.role (f u) = User.role u ∧ User.email (f u) = User.email u) →
    User.valid_roles users → User.valid_roles (alter f k users)) as Halter.
  { intros f k users Hf. apply valid_roles_alter. intros u. apply Hf. }
  assert (∀ k u users,
    users !! k = None → User.role u ∈ User.roles →
    User.find_email users (User.email u) = None →
    User.valid_roles users → User.valid_roles (<[k := u]> users)) as Hinsert.
  { intros k u users _ Hrole _ Hall. by apply map_Forall_insert_2. }
  assert (∀ k u u' users,
    users !! k = Some u →
    User.role u' = User.role u ∨ User.role u' ∈ User.roles →
    User.find_email (delete k users) (User.email u') = None →
    User.valid_roles users → User.valid_roles (<[k := u']> users)) as Hupdate.
  { intros k u u' users Hk Hrole _ Hall. apply map_Forall_insert_2; [|done].
    destruct Hrole as [->|Hrole]; [|done]. by apply (Hall k). }
  assert (∀ k users, User.valid_roles users → User.valid_roles (delete k users))
    as Hdelete.
  { intros k users Hall. by apply map_Forall_delete. }
  split_and!; intros.
  - by apply register_keeps.
  - by apply login_keeps.
  - by apply refreshToken_keeps.
  - by apply logout_keeps.
  - by apply updatePassword_keeps.
  - by apply updateProfile_keeps.
  - by apply createUser_keeps.
  - by apply updateUser_keeps.
  - by apply deleteUser_keeps.
Qed.

(** X20. Every account handler keeps the stored e-mails unique: whatever
    the request and whether it succeeds or fails, after register, login,
    refreshToken, logout, updatePassword, updateProfile, createUser,
    updateUser and deleteUser no two stored accounts hold the same e-mail,
    when this held before. *)
Theorem unique_emails_kept db :
  User.unique_emails (users db) →
  (∀ body newId salt now,
     User.unique_emails (users (AuthController.register env body newId salt now db).1))
  ∧ (∀ body now, User.unique_emails (users (AuthController.login env body now db).1))
  ∧ (∀ presented now,
       User.unique_emails (users (AuthController.refreshToken env presented now db).1))
  ∧ (∀ caller now, User.unique_emails (users (AuthController.logout caller now db).1))
  ∧ (∀ caller body salt now,
       User.unique_emails
         (users (AuthController.updatePassword env caller body salt now db).1))
  ∧ (∀ caller body now,
       User.unique_emails (users (AuthController.updateProfile caller body now db).1))
  ∧ (∀ body newId salt now,
       User.unique_emails (users (UserController.createUser body newId salt now db).1))
  ∧ (∀ caller id body now,
       User.unique_emails (users (UserController.updateUser caller id body now db).1))
  ∧ (∀ caller id,
       User.unique_emails (users (UserController.deleteUser caller id db).1)).
Proof.
  intros Hunique.
  assert (∀ f k users,
    (∀ u, User.role (f u) = User.role u ∧ User.email (f u) = User.email u) →
    User.unique_emails users → User.unique_emails (alter f k users)) as Halter.
  { intros f k users Hf. apply unique_emails_alter. intros u. apply Hf. }
  assert (∀ k u users,
    users !! k = None → User.role u ∈ User.roles →
    User.find_email users (User.email u) = None →
    User.unique_emails users → User.unique_emails (<[k := u]> users)) as Hinsert.
  { intros k u users Hk _ Hfree Hall. apply unique_emails_insert; [done|].
    by rewrite delete_id. }
  assert (∀ k u u' users,
    users !! k = Some u →
    User.role u' = User.role u ∨ User.role u' ∈ User.roles →
    User.find_email (delete k users) (User.email u') = None →
    User.unique_emails users → User.unique_emails (<[k := u']> users)) as Hupdate.
  { intros k u u' users _ _ Hfree Hall. by apply unique_emails_insert. }
  assert (∀ k users, User.unique_emails users → User.unique_emails (delete k users))
    as Hdelete.
  { intros k users. apply unique_emails_delete. }
  split_and!; intros.
  - by apply register_keeps.
  - by apply login_keeps.
  - by apply refreshToken_keeps.
  - by apply logout_keeps.
  - by apply updatePassword_keeps.
  - by apply updateProfile_keeps.
  - by apply createUser_keeps.
  - by apply updateUser_keeps.
  - by apply deleteUser_keeps.
Qed.

End account_invariants_kept.

(** ** Failed requests *)

Section failures.
Context `{!Bcrypt} `{!Jwt} `{!EmailPattern} `{!Mongo} `{!ObjectIds} (env : Env).

(** X21. A request that is answered with success: false has written
    nothing: for every handler that writes to the store, when the response
    the client receives (from the handler or from the error handler)
    reports failure, the database after the call is the database before
    it. *)
Theorem failed_request_writes_nothing db :
  (∀ body newId salt now,
     let out := AuthController.register env body newId salt now db in
     success (respond out.2) = false → out.1 = db)
  ∧ (∀ body now,
       let out := AuthController.login env body now db in
       success (respond out.2) = false → out.1 = db)
  ∧ (∀ presented now,
       let out := AuthController.refreshToken env presented now db in
       success (respond out.2) = false → out.1 = db)
  ∧ (∀ caller body salt now,
       let out := AuthController.updatePassword env caller body salt now db in
       success (respond out.2) = false → out.1 = db)
  ∧ (∀ caller body now,
       let out := AuthController.updateProfile caller body now db in
       success (respond out.2) = false → out.1 = db)
  ∧ (∀ body newId salt now,
       let out := UserController.createUser body newId salt now db in
       success (respond out.2) = false → out.1 = db)
  ∧ (∀ caller id body now,
       let out := UserController.updateUser caller id body now db in
       success (respond out.2) = false → out.1 = db)
  ∧ (∀ caller id,
       let out := UserController.deleteUser caller id db in
       success (respond out.2) = false → out.1 = db)
  ∧ (∀ caller body newId now today,
       let out := TaskController.createTask caller body newId now today db in
       success (respond out.2) = false → out.1 = db)
  ∧ (∀ caller id body now today,
       let out := TaskController.updateTask caller id body now today db in
       success (respond out.2) = false → out.1 = db)
  ∧ (∀ caller id,
       let out := TaskController.deleteTask caller id db in
       success (respond out.2) = false → out.1 = db)
  ∧ (∀ caller body now,
       let out := TaskController.bulkUpdateStatus caller body now db in
       success (respond out.2) = false → out.1 = db)
  ∧ (∀ caller body,
       let out := TaskController.bulkDelete caller body db in
       success (respond out.2) = false → out.1 = db).
Proof.
  split_and!; intros *; subst out.
  - unfold AuthController.register.
    destruct (_ ≫= _); [done|].
    by destruct (User.create _ _ _ _ _ _ _ _) as [e|[users' user]].
  - unfold AuthController.login.
    destruct (_ ≫= _); [|done].
    destruct (AuthController.login_password body); [|done].
    by destruct (negb _).
  - unfold AuthController.refreshToken.
    destruct (negb _); [done|].
    destruct (jwt_verify _ _ _); [|done..].
    destruct (User.findById _ _); [|done].
    by destruct (bool_decide _).
  - unfold AuthController.updatePassword.
    destruct (User.findById _ _); [|done].
    destruct (AuthController.pw_current body); [|done].
    destruct (negb _); [done|].
    by destruct (User.save_password _ _ _ _ _) as [e|[users' user']].
  - unfold AuthController.updateProfile.
    destruct (if _ && _ then _ ≫= _ else None) as [?|]; [done|].
    by destruct (User.findByIdAndUpdate _ _ _ _ _ _) as [e|[users' [user|]]].
  - unfold UserController.createUser.
    destruct (_ ≫= _); [done|].
    by destruct (User.create _ _ _ _ _ _ _ _) as [e|[users' user]].
  - unfold UserController.updateUser.
    destruct (castObjectId id) as [oid|]; [|done].
    destruct (User.findById _ _); [|done].
    destruct (_ && _); [done|].
    destruct (if _ && _ then _ ≫= _ else None) as [?|]; [done|].
    by destruct (User.findByIdAndUpdate _ _ _ _ _ _) as [e|[users' updated]].
  - unfold UserController.deleteUser.
    destruct (castObjectId id) as [oid|]; [|done].
    destruct (User.findById _ _); [|done].
    by destruct (bool_decide _).
  - unfold TaskController.createTask.
    by destruct (Task.create _ _ _ _ _ _ _ _ _ _ _) as [e|[tasks' task]].
  - unfold TaskController.updateTask.
    destruct (if bool_decide _ then _ else _) as [task|]; [|done].
    by destruct (Task.save _ _ _ _ _) as [e|[tasks' task']].
  - unfold TaskController.deleteTask.
    by destruct (Task.findOne_owned _ _ _).
  - unfold TaskController.bulkUpdateStatus.
    destruct (TaskController.taskIds body) as [[|id raw]|]; [done| |done].
    destruct (negb _); [done|].
    destruct (TaskController.cast_ids (id :: raw)) as [e|ids]; [done|].
    by destruct (Task.updateMany _ _ _).
  - unfold TaskController.bulkDelete.
    destruct (TaskController.taskIds body) as [[|id raw]|]; [done| |done].
    by destruct (TaskController.cast_ids (id :: raw)) as [e|ids].
Qed.

End failures.

(** ** The status codes of the responses *)

Section statuses.
Context `{!Bcrypt} `{!Jwt} `{!EmailPattern} `{!Mongo} `{!ObjectIds} (env : Env).












End statuses.

(** ** Accounts created by an administrator *)

Section created_accounts.
Context `{!Bcrypt} `{!EmailPattern}.

(** X23. createUser takes the role of the body when it is non-empty and
    user otherwise, and leaves the check of the role to the schema: a
    non-empty role that is neither user nor admin is answered 400 and
    nothing is written (register stores such a request with the role
    user).  After a 201 the new account is stored under the new id with
    that role, which is one of the two roles, with the hash of the
    password and without a refresh token; the other accounts and the
    tasks are as before. *)
Theorem createUser_role body newId salt now db :
  (Js.truthy (UserController.new_role body) = true →
   default "" (UserController.new_role body) ∉ User.roles →
   let out := UserController.createUser body newId salt now db in
   out.1 = db ∧ success (respond out.2) = false
   ∧ statusCode (respond out.2) = 400)
  ∧ (∀ db' r,
       UserController.createUser body newId salt now db = (db', Json r) →
       statusCode r = 201 →
       ∃ stored,
         users db !! newId = None
         ∧ users db' = <[newId := stored]> (users db)
         ∧ tasks db' = tasks db
         ∧ User.role stored
           = (if Js.truthy (UserController.new_role body)
              then default "" (UserController.new_role body) else "user")
         ∧ User.role stored ∈ User.roles
         ∧ User.password stored
           = bcrypt_hash (default "" (UserController.new_password body)) salt
         ∧ User.refreshToken stored = None
         ∧ data r = UserData (Some (view stored))).
Proof.
  split.
  - intros Htruthy Hrole out. subst out. unfold UserController.createUser.
    destruct (_ ≫= _); [done|]. rewrite Htruthy.
    unfold User.create. simpl.
    destruct (_ ++ _) as [|err errs] eqn:Herrors; [|done].
    apply app_eq_nil in Herrors as [_ Herrors].
    apply app_eq_nil in Herrors as [_ Herrors].
    apply app_eq_nil in Herrors as [_ Herrors].
    unfold User.validate_role in Herrors. simpl in Herrors.
    by rewrite bool_decide_eq_false_2 in Herrors.
  - intros db' r. unfold UserController.createUser.
    destruct (_ ≫= _); [by intros [= <- <-]|].
    destruct (User.create _ _ _ _ _ _ _ _) as [e|[users' user]] eqn:Hcreate;
      [done|].
    intros [= <- <-] _. exists user.
    pose proof Hcreate as Hinv.
    apply create_inv in Hinv as (Hfresh & -> & Hr & Hrole & _ & Htok).
    split_and!; try done; [by rewrite Hr|].
    unfold User.create in Hcreate.
    destruct (_ ++ _); [|done].
    repeat case_bool_decide; try done. by injection Hcreate as _ <-.
Qed.

End created_accounts.

(** ** Statistics of the accounts *)

Section account_statistics.
Context `{!Bcrypt} `{!EmailPattern} `{!MongoUsers}.

Lemma role_count (l : list User.doc) :
  Forall (λ u, User.role u ∈ User.roles) l →
  length l
  = length (filter (λ u, User.role u = "admin") l)
    + length (filter (λ u, User.role u = "user") l).
Proof.
  induction 1 as [|u l Hu _ IH]; [done|].
  unfold User.roles in Hu.
  apply elem_of_cons in Hu as [Hu|Hu].
  - rewrite filter_cons_False, filter_cons_True by (rewrite Hu; done).
    simpl. lia.
  - apply list_elem_of_singleton in Hu.
    rewrite filter_cons_True, filter_cons_False by (rewrite Hu; done).
    simpl. lia.
Qed.

(** X24. When every stored account has the role user or admin, the total
    of the user statistics is the sum of its two counts; the list of
    recent users has at most five entries, and when the sort of the store
    only reorders it has five or all of them, each the name, e-mail, role
    and date of a stored account. *)
Theorem getUserStats_counts db :
  let stats := UserController.getUserStats db in
  (User.valid_roles (users db) →
   UserController.total stats
   = (UserController.admins stats + UserController.regular stats)%Z)
  ∧ length (UserController.recentUsers stats) ≤ 5
  ∧ ((∀ l, users_sort "createdAt" (-1) l ≡ₚ l) →
     Z.of_nat (length (UserController.recentUsers stats))
     = Z.min 5 (UserController.total stats)
     ∧ ∀ ru, ru ∈ UserController.recentUsers stats →
         ∃ k u, users db !! k = Some u
                ∧ UserController.recent_id ru = User._id u
                ∧ UserController.recent_name ru = User.name u
                ∧ UserController.recent_email ru = User.email u
                ∧ UserController.recent_role ru = User.role u
                ∧ UserController.recent_createdAt ru = User.createdAt u).
Proof.
  intros stats. subst stats. unfold UserController.getUserStats. simpl.
  split_and!.
  - intros Hvalid.
    rewrite (role_count (map_to_list (users db)).*2); [lia|].
    apply Forall_forall. intros u Hu.
    apply list_elem_of_fmap in Hu as ([k u'] & -> & Hin).
    apply elem_of_map_to_list in Hin. by apply (Hvalid k).
  - rewrite length_fmap, length_take. lia.
  - intros Hperm. split.
    + rewrite length_fmap, length_take, (Permutation_length (Hperm _)). lia.
    + intros ru Hru.
      apply list_elem_of_fmap in Hru as (u & -> & Hu).
      apply elem_of_take in Hu as (i & Hu & _).
      apply list_elem_of_lookup_2 in Hu. rewrite (Hperm _) in Hu.
      apply list_elem_of_fmap in Hu as ([k u'] & -> & Hin).
      apply elem_of_map_to_list in Hin. by exists k, u'.
Qed.

End account_statistics.

(** ** The list of all tasks *)

Section admin_listing.
Context `{!Mongo}.

(** X25. The list of all tasks for administrators is not scoped to the
    caller: it holds stored tasks that match the owner and status filters
    of the request (every owner's tasks when no owner is given), each
    with the id, name and e-mail of its stored owner or with none when
    the owner is not stored, no more of them than [total] reports, when
    the sort of the store only reorders. *)
Theorem getAllTasksAdmin_populated q db found page limit total pages :
  (∀ l, mongo_sort "createdAt" (-1) l ≡ₚ l) →
  TaskController.getAllTasksAdmin q db = inr (found, (page, limit, total, pages)) →
  Forall (λ p,
    (∃ k, tasks db !! k = Some p.1)
    ∧ (∀ owner, TaskController.aq_userId q = Some owner → Task.user p.1 = owner)
    ∧ (Js.truthy (TaskController.aq_status q) = true →
       Some (Task.status p.1) = TaskController.aq_status q)
    ∧ match users db !! Task.user p.1 with
      | Some u =>
          ∃ o, p.2 = Some o ∧ TaskController.owner_id o = User._id u
               ∧ TaskController.owner_name o = User.name u
               ∧ TaskController.owner_email o = User.email u
      | None => p.2 = None
      end) found
  ∧ (Z.of_nat (length found) ≤ total)%Z
  ∧ total
    = Z.of_nat (length (Task.find (tasks db) (TaskController.admin_query q))).
Proof.
  intros Hperm. unfold TaskController.getAllTasksAdmin.
  destruct (cursor _ _ _) as [e|found'] eqn:Hcursor; [done|].
  intros [= <- _ _ <- _].
  apply cursor_sublist in Hcursor. split_and!; [| |done].
  - apply Forall_forall. intros [t o] Hp.
    apply list_elem_of_fmap in Hp as (t' & [= <- ->] & Ht).
    assert (t ∈ Task.find (tasks db) (TaskController.admin_query q)) as Hin.
    { rewrite <- (Hperm _). by eapply elem_of_sublist. }
    apply find_elem in Hin as [Hq Hk]. simpl.
    unfold TaskController.admin_query in Hq.
    apply andb_true_iff in Hq as [Howner Hstatus].
    split_and!; [done| | |].
    + intros owner Hq. rewrite Hq in Howner. simpl in Howner.
      by apply bool_decide_eq_true in Howner.
    + intros Htruthy. rewrite Htruthy in Hstatus.
      by apply bool_decide_eq_true in Hstatus.
    + destruct (users db !! Task.user t) as [u|]; [|done]. simpl. eauto.
  - rewrite length_fmap. unfold Task.countDocuments.
    apply sublist_length in Hcursor.
    rewrite (Permutation_length (Hperm _)) in Hcursor. lia.
Qed.

End admin_listing.

(** * Further worked instances *)

(** The sort of the fixture store is an insertion sort. *)
Lemma insert_by_perm le x l : Fixture.insert_by le x l ≡ₚ x :: l.
Proof.
  induction l as [|y l IH]; simpl; [done|].
  destruct (le x y); [done|]. rewrite IH. apply Permutation_swap.
Qed.

Lemma sort_by_perm le l : Fixture.sort_by le l ≡ₚ l.
Proof.
  induction l as [|x l IH]; simpl; [done|].
  rewrite insert_by_perm. by rewrite IH.
Qed.

Lemma fixture_sort_perm field dir l :
  mongo_sort (Mongo := Fixture.mongo) field dir l ≡ₚ l.
Proof. simpl. destruct (String.eqb _ _); [apply sort_by_perm|done]. Qed.

Lemma logout_revokes_refresh_witness :
  ∃ r, AuthController.refreshToken (H0 := Fixture.jwt) Fixture.env (Some "r.1.0") 6
         (AuthController.logout Fixture.admin 5 Fixture.db0).1
       = ((AuthController.logout Fixture.admin 5 Fixture.db0).1, Json r)
       ∧ InvalidOrExpiredToken r.
Proof.
  destruct (@logout_revokes_refresh Fixture.jwt Fixture.env Fixture.admin 5
              (Some "r.1.0") 6 Fixture.db0) as [(r & Hrun & _ & Hinv) _].
  - intros tok c Htok. injection Htok as <-. vm_compute.
    intros Hc. injection Hc as <-. reflexivity.
  - exists r. split; [exact Hrun|]. apply Hinv. reflexivity.
Defined.

Lemma login_then_refresh_witness :
  ∃ db'' access' refresh',
    AuthController.refreshToken (H0 := Fixture.jwt) Fixture.env (Some "r.2.3") 4
      (AuthController.login (H := Fixture.bcrypt) (H0 := Fixture.jwt) Fixture.env
         (Fixture.loginBody "bob@example.com" "secret1") 3 Fixture.db0).1
    = (db'', Json (ok 200 (Some "Token refreshed successfully")
                     (TokenData access' refresh'))).
Proof.
  destruct (@login_then_refresh Fixture.bcrypt Fixture.jwt Fixture.env
              (Fixture.loginBody "bob@example.com" "secret1") 3 4 Fixture.db0
              (AuthController.login (H := Fixture.bcrypt) (H0 := Fixture.jwt)
                 Fixture.env (Fixture.loginBody "bob@example.com" "secret1") 3
                 Fixture.db0).1
              (ok 200 (Some "Login successful")
                 (AuthData (view Fixture.bob) "a.2.3" "r.2.3"))
              (view Fixture.bob) "a.2.3" "r.2.3" (Fixture.id_claims 2))
    as (db'' & access' & refresh' & Hrun & _).
  - unfold User.keyed. refine (bool_decide_unpack _ _). vm_compute. exact I.
  - vm_compute. reflexivity.
  - reflexivity.
  - reflexivity.
  - intros H. discriminate H.
  - vm_compute. reflexivity.
  - reflexivity.
  - vm_compute. reflexivity.
  - exists db'', access', refresh'. exact Hrun.
Defined.

Lemma login_supersedes_refresh_token_witness :
  ∃ r2,
    AuthController.refreshToken (H0 := Fixture.jwt) Fixture.env (Some "r.1.0") 4
      (AuthController.login (H := Fixture.bcrypt) (H0 := Fixture.jwt) Fixture.env
         (Fixture.loginBody "ada@example.com" "secret1") 3 Fixture.db0).1
    = ((AuthController.login (H := Fixture.bcrypt) (H0 := Fixture.jwt) Fixture.env
          (Fixture.loginBody "ada@example.com" "secret1") 3 Fixture.db0).1, Json r2)
    ∧ InvalidOrExpiredToken r2.
Proof.
  refine (@login_supersedes_refresh_token Fixture.bcrypt Fixture.jwt Fixture.env
            (Fixture.loginBody "ada@example.com" "secret1") 3 4 Fixture.db0
            (AuthController.login (H := Fixture.bcrypt) (H0 := Fixture.jwt)
               Fixture.env (Fixture.loginBody "ada@example.com" "secret1") 3
               Fixture.db0).1
            (ok 200 (Some "Login successful")
               (AuthData (view Fixture.admin) "a.1.3" "r.1.3"))
            (view Fixture.admin) "a.1.3" "r.1.3" "r.1.0" (Fixture.id_claims 1)
            _ _ _ _ _ _ _ _).
  - unfold User.keyed. refine (bool_decide_unpack _ _). vm_compute. exact I.
  - vm_compute. reflexivity.
  - reflexivity.
  - reflexivity.
  - vm_compute. reflexivity.
  - reflexivity.
  - intros H. discriminate H.
  - intros H. discriminate H.
Defined.

Lemma register_twice_rejected_witness :
  AuthController.register (H := Fixture.bcrypt) (H0 := Fixture.jwt)
    (H1 := Fixture.emailPattern) Fixture.env
    (Fixture.registerBody "Caz" " carol@example.COM " "other12" None) 4 "s1" 6
    (AuthController.register (H := Fixture.bcrypt) (H0 := Fixture.jwt)
       (H1 := Fixture.emailPattern) Fixture.env
       (Fixture.registerBody "Carol" "Carol@Example.com" "secret1" None)
       3 "s2" 5 Fixture.db0).1
  = ((AuthController.register (H := Fixture.bcrypt) (H0 := Fixture.jwt)
        (H1 := Fixture.emailPattern) Fixture.env
        (Fixture.registerBody "Carol" "Carol@Example.com" "secret1" None)
        3 "s2" 5 Fixture.db0).1,
     Json (fail 400 "User with this email already exists")).
Proof.
  refine (@register_twice_rejected Fixture.bcrypt Fixture.jwt Fixture.emailPattern
            Fixture.env
            (Fixture.registerBody "Carol" "Carol@Example.com" "secret1" None)
            3 "s2" 5 Fixture.db0 _
            (ok 201 (Some "Registration successful")
               (AuthData {| view_id := 3; view_name := "Carol";
                            view_email := "carol@example.com";
                            view_role := "user" |} "a.3.5" "r.3.5"))
            "Carol@Example.com"
            (Fixture.registerBody "Caz" " carol@example.COM " "other12" None)
            4 "s1" 6 " carol@example.COM " _ _ _ _ _).
  - vm_compute. reflexivity.
  - reflexivity.
  - reflexivity.
  - reflexivity.
  - vm_compute. reflexivity.
Defined.

Lemma register_then_login_witness :
  ∃ db'' account access refresh,
    AuthController.login (H := Fixture.bcrypt) (H0 := Fixture.jwt) Fixture.env
      (Fixture.loginBody "Carol@Example.com" "secret1") 6
      (AuthController.register (H := Fixture.bcrypt) (H0 := Fixture.jwt)
         (H1 := Fixture.emailPattern) Fixture.env
         (Fixture.registerBody "Carol" "Carol@Example.com" "secret1" None)
         3 "s2" 5 Fixture.db0).1
    = (db'', Json (ok 200 (Some "Login successful")
                     (AuthData account access refresh)))
    ∧ view_id account = 3.
Proof.
  destruct (@register_then_login Fixture.bcrypt Fixture.jwt Fixture.emailPattern
              Fixture.env
              (Fixture.registerBody "Carol" "Carol@Example.com" "secret1" None)
              3 "s2" 5 Fixture.db0
              (AuthController.register (H := Fixture.bcrypt) (H0 := Fixture.jwt)
                 (H1 := Fixture.emailPattern) Fixture.env
                 (Fixture.registerBody "Carol" "Carol@Example.com" "secret1" None)
                 3 "s2" 5 Fixture.db0).1
              (ok 201 (Some "Registration successful")
                 (AuthData {| view_id := 3; view_name := "Carol";
                              view_email := "carol@example.com";
                              view_role := "user" |} "a.3.5" "r.3.5"))
              "Carol@Example.com" "secret1" 6)
    as (db'' & account & access & refresh & Hrun & Hid & _).
  - vm_compute. reflexivity.
  - reflexivity.
  - reflexivity.
  - reflexivity.
  - vm_compute. reflexivity.
  - exists db'', account, access, refresh. exact (conj Hrun Hid).
Defined.

Lemma updatePassword_failure_writes_nothing_witness :
  (AuthController.updatePassword (H := Fixture.bcrypt) (H0 := Fixture.jwt)
     (H1 := Fixture.emailPattern) Fixture.env Fixture.bob
     {| AuthController.pw_current := Some "wrong";
        AuthController.pw_new := Some "abc123" |} "s2" 5000 Fixture.db0).1
  = Fixture.db0.
Proof.
  refine (proj1 (@updatePassword_failure_writes_nothing Fixture.bcrypt Fixture.jwt
    Fixture.emailPattern Fixture.env Fixture.bob
    {| AuthController.pw_current := Some "wrong";
       AuthController.pw_new := Some "abc123" |} "s2" 5000 Fixture.db0 _)).
  vm_compute. intros H. discriminate H.
Defined.

Lemma updatePassword_then_login_witness :
  AuthController.login (H := Fixture.bcrypt) (H0 := Fixture.jwt) Fixture.env
    (Fixture.loginBody "Bob@Example.com" "secret1") 6000
    (AuthController.updatePassword (H := Fixture.bcrypt) (H0 := Fixture.jwt)
       (H1 := Fixture.emailPattern) Fixture.env Fixture.bob
       {| AuthController.pw_current := Some "secret1";
          AuthController.pw_new := Some "abc123" |} "s2" 5000 Fixture.db0).1
  = ((AuthController.updatePassword (H := Fixture.bcrypt) (H0 := Fixture.jwt)
        (H1 := Fixture.emailPattern) Fixture.env Fixture.bob
        {| AuthController.pw_current := Some "secret1";
           AuthController.pw_new := Some "abc123" |} "s2" 5000 Fixture.db0).1,
     Json InvalidCredentials).
Proof.
  refine (proj2 (@updatePassword_then_login Fixture.bcrypt Fixture.jwt
    Fixture.emailPattern Fixture.env Fixture.bob
    {| AuthController.pw_current := Some "secret1";
       AuthController.pw_new := Some "abc123" |} "s2" 5000 Fixture.db0 _
    (ok 200 (Some "Password updated successfully")
       (AuthData (view Fixture.bob) "a.2.5000" "r.2.5000"))
    "abc123" "secret1" "Bob@Example.com" 6000 _ _ _ _ _ _ _ _)).
  - unfold User.keyed. refine (bool_decide_unpack _ _). vm_compute. exact I.
  - unfold User.unique_emails. refine (bool_decide_unpack _ _). vm_compute. exact I.
  - vm_compute. reflexivity.
  - reflexivity.
  - reflexivity.
  - intros user Hu. vm_compute in Hu. injection Hu as <-. split.
    + intros H. discriminate H.
    + vm_compute. reflexivity.
  - vm_compute. reflexivity.
  - vm_compute. reflexivity.
Defined.

Lemma password_change_keeps_new_tokens_witness :
  ∃ stored,
    users (AuthController.updatePassword (H := Fixture.bcrypt) (H0 := Fixture.jwt)
             (H1 := Fixture.emailPattern) Fixture.env Fixture.bob
             {| AuthController.pw_current := Some "secret1";
                AuthController.pw_new := Some "abc123" |} "s2" 5000 Fixture.db0).1
      !! 2 = Some stored
    ∧ User.changedPasswordAfter stored 5 = false.
Proof.
  destruct (@password_change_keeps_new_tokens Fixture.bcrypt Fixture.jwt
    Fixture.emailPattern Fixture.env Fixture.bob
    {| AuthController.pw_current := Some "secret1";
       AuthController.pw_new := Some "abc123" |} "s2" 5000%Z Fixture.db0
    (AuthController.updatePassword (H := Fixture.bcrypt) (H0 := Fixture.jwt)
       (H1 := Fixture.emailPattern) Fixture.env Fixture.bob
       {| AuthController.pw_current := Some "secret1";
          AuthController.pw_new := Some "abc123" |} "s2" 5000 Fixture.db0).1
    (ok 200 (Some "Password updated successfully")
       (AuthData (view Fixture.bob) "a.2.5000" "r.2.5000")) 5%Z)
    as (stored & Hstored & Hnew & _).
  - unfold User.keyed. refine (bool_decide_unpack _ _). vm_compute. exact I.
  - vm_compute. reflexivity.
  - reflexivity.
  - intros user Hu. vm_compute in Hu. injection Hu as <-.
    intros H. discriminate H.
  - lia.
  - exists stored. split; [exact Hstored|]. apply Hnew. vm_compute.
    intros H. discriminate H.
Defined.

Lemma updateProfile_scope_witness :
  AuthController.updateProfile (H1 := Fixture.emailPattern) Fixture.bob
    {| AuthController.prof_name := None;
       AuthController.prof_email := Some "ADA@example.com" |} 5 Fixture.db0
  = (Fixture.db0, Json (fail 400 "Email is already in use")).
Proof.
  refine (proj2 (proj2 (proj2 (@updateProfile_scope Fixture.emailPattern Fixture.bob
    {| AuthController.prof_name := None;
       AuthController.prof_email := Some "ADA@example.com" |} 5 Fixture.db0)))
    "ADA@example.com" Fixture.admin _ _ _ _).
  - reflexivity.
  - intros H. discriminate H.
  - intros H. discriminate H.
  - vm_compute. reflexivity.
Defined.

Lemma tasks_of_others_untouched_witness :
  tasks (TaskController.bulkDelete (H0 := Fixture.objectIds) Fixture.bob
           (Fixture.bulkBody [10; 13] "") Fixture.db0).1 !! 13
  = Some Fixture.t13.
Proof.
  refine (proj2 (proj2 (proj2 (proj2 (@tasks_of_others_untouched Fixture.objectIds
    Fixture.bob Fixture.db0 13 Fixture.t13 _ _ _)))) (Fixture.bulkBody [10; 13] "")).
  - unfold Task.keyed. refine (bool_decide_unpack _ _). vm_compute. exact I.
  - vm_compute. reflexivity.
  - intros H. discriminate H.
Defined.

Lemma delete_removes_exactly_witness :
  ∃ db', TaskController.deleteTask Fixture.bob 10 Fixture.db0
         = (db', Json (ok 200 (Some "Task deleted successfully") NoData))
         ∧ tasks db' !! 10 = None.
Proof.
  destruct (proj1 (@delete_removes_exactly Fixture.objectIds Fixture.bob
                     Fixture.db0) 10 Fixture.t10)
    as (db' & Hrun & Hgone & _).
  - vm_compute. reflexivity.
  - reflexivity.
  - exists db'. exact (conj Hrun Hgone).
Defined.

Lemma updateTask_keeps_identity_witness :
  ∃ t t',
    tasks Fixture.db0 !! 10 = Some t
    ∧ (TaskController.updateTask Fixture.bob 10 (Fixture.statusBody "completed")
         7 0 Fixture.db0).2
      = Json (ok 200 (Some "Task updated successfully") (TaskData t'))
    ∧ Task.user t' = Task.user t
    ∧ Task.title t' = Task.title t.
Proof.
  destruct (updateTask_keeps_identity Fixture.bob 10 (Fixture.statusBody "completed")
    7 0 Fixture.db0
    (TaskController.updateTask Fixture.bob 10 (Fixture.statusBody "completed")
       7 0 Fixture.db0).1
    (ok 200 (Some "Task updated successfully")
       (TaskData (Task.set_updatedAt 7
                    (Task.set_completedAt (Some 7%Z)
                       (TaskController.assign Fixture.t10
                          (Fixture.statusBody "completed")))))))
    as (t & t' & Ht & Hdata & _ & _ & _ & Huser & _ & Htitle & _).
  - vm_compute. reflexivity.
  - reflexivity.
  - exists t, t'. split_and!; [exact Ht| |exact Huser|apply Htitle; reflexivity].
    simpl in Hdata. injection Hdata as <-. vm_compute. reflexivity.
Defined.

Lemma getTasks_only_own_witness :
  Forall (λ t, Task.user t = 2
               ∧ TaskController.list_query (H := Fixture.mongo) Fixture.bob
                   Fixture.noQuery t = true
               ∧ ∃ k, tasks Fixture.db0 !! k = Some t)
    [Fixture.t12; Fixture.t11; Fixture.t10].
Proof.
  refine (proj1 (proj2 (@getTasks_only_own Fixture.mongo Fixture.bob Fixture.noQuery
    Fixture.db0
    (ok 200 None (TaskPage [Fixture.t12; Fixture.t11; Fixture.t10] 1 10 3 1))
    [Fixture.t12; Fixture.t11; Fixture.t10] 1%Z 10%Z 3%Z 1%Z _ _ _))).
  - intros l. apply fixture_sort_perm.
  - vm_compute. reflexivity.
  - reflexivity.
Defined.


Lemma completion_invariant_kept_witness :
  completion_invariant
    (tasks (TaskController.bulkUpdateStatus (H0 := Fixture.objectIds) Fixture.bob
              (Fixture.bulkBody [10; 11] "completed") 9 Fixture.db0).1).
Proof.
  refine (proj1 (proj2 (proj2 (proj2 (@completion_invariant_kept Fixture.objectIds
    Fixture.bob Fixture.db0 _)))) (Fixture.bulkBody [10; 11] "completed") 9%Z).
  unfold completion_invariant, completed_iff.
  refine (bool_decide_unpack _ _). vm_compute. exact I.
Defined.

Lemma deleteUser_frame_witness :
  users (UserController.deleteUser (H0 := Fixture.objectIds) Fixture.admin
           "000000000000000000000002" Fixture.db0).1 !! 1
  = users Fixture.db0 !! 1.
Proof.
  refine (proj1 (proj1 (@deleteUser_frame Fixture.objectIds Fixture.admin
    "000000000000000000000002" 2 Fixture.db0 _)
    (UserController.deleteUser (H0 := Fixture.objectIds) Fixture.admin
       "000000000000000000000002" Fixture.db0).1
    (ok 200 (Some "User and associated tasks deleted successfully") NoData) _ _)
    1 _).
  - vm_compute. reflexivity.
  - vm_compute. reflexivity.
  - reflexivity.
  - intros H. discriminate H.
Defined.

Lemma valid_roles_kept_witness :
  User.valid_roles
    (users (UserController.updateUser (H := Fixture.emailPattern)
              (H0 := Fixture.objectIds) Fixture.admin "000000000000000000000002"
              (Fixture.roleBody "admin") 5 Fixture.db0).1).
Proof.
  refine (proj1 (proj2 (proj2 (proj2 (proj2 (proj2 (proj2 (proj2
    (@valid_roles_kept Fixture.bcrypt Fixture.jwt Fixture.emailPattern
       Fixture.objectIds Fixture.env Fixture.db0 _))))))))
    Fixture.admin "000000000000000000000002" (Fixture.roleBody "admin") 5%Z).
  unfold User.valid_roles. refine (bool_decide_unpack _ _). vm_compute. exact I.
Defined.

Lemma unique_emails_kept_witness :
  User.unique_emails
    (users (AuthController.register (H := Fixture.bcrypt) (H0 := Fixture.jwt)
              (H1 := Fixture.emailPattern) Fixture.env
              (Fixture.registerBody "Carol" "Carol@Example.com" "secret1" None)
              3 "s2" 5 Fixture.db0).1).
Proof.
  refine (proj1 (@unique_emails_kept Fixture.bcrypt Fixture.jwt Fixture.emailPattern
                   Fixture.objectIds Fixture.env Fixture.db0 _)
    (Fixture.registerBody "Carol" "Carol@Example.com" "secret1" None) 3 "s2" 5%Z).
  unfold User.unique_emails. refine (bool_decide_unpack _ _). vm_compute. exact I.
Defined.

Lemma failed_request_writes_nothing_witness :
  (AuthController.login (H := Fixture.bcrypt) (H0 := Fixture.jwt) Fixture.env
     (Fixture.loginBody "bob@example.com" "wrong") 6 Fixture.db0).1
  = Fixture.db0.
Proof.
  refine (proj1 (proj2 (@failed_request_writes_nothing Fixture.bcrypt Fixture.jwt
    Fixture.emailPattern Fixture.objectIds Fixture.env Fixture.db0))
    (Fixture.loginBody "bob@example.com" "wrong") 6%Z _).
  vm_compute. reflexivity.
Defined.

Lemma createUser_role_witness :
  (UserController.createUser (H := Fixture.bcrypt) (H0 := Fixture.emailPattern)
     {| UserController.new_name := Some "Carol";
        UserController.new_email := Some "carol@example.com";
        UserController.new_password := Some "secret1";
        UserController.new_role := Some "root" |} 3 "s2" 5 Fixture.db0).1
  = Fixture.db0
  ∧ statusCode
      (respond
         (UserController.createUser (H := Fixture.bcrypt)
            (H0 := Fixture.emailPattern)
            {| UserController.new_name := Some "Carol";
               UserController.new_email := Some "carol@example.com";
               UserController.new_password := Some "secret1";
               UserController.new_role := Some "root" |} 3 "s2" 5 Fixture.db0).2)
    = 400.
Proof.
  destruct (proj1 (@createUser_role Fixture.bcrypt Fixture.emailPattern
    {| UserController.new_name := Some "Carol";
       UserController.new_email := Some "carol@example.com";
       UserController.new_password := Some "secret1";
       UserController.new_role := Some "root" |} 3 "s2" 5%Z Fixture.db0))
    as (Hdb & _ & Hstatus).
  - reflexivity.
  - refine (bool_decide_unpack _ _). vm_compute. exact I.
  - exact (conj Hdb Hstatus).
Defined.

Lemma getUserStats_counts_witness :
  UserController.total (UserController.getUserStats (H1 := Fixture.mongoUsers)
                          Fixture.db0)
  = (UserController.admins (UserController.getUserStats (H1 := Fixture.mongoUsers)
                              Fixture.db0)
     + UserController.regular (UserController.getUserStats (H1 := Fixture.mongoUsers)
                                 Fixture.db0))%Z.
Proof.
  refine (proj1 (@getUserStats_counts Fixture.mongoUsers Fixture.db0) _).
  unfold User.valid_roles. refine (bool_decide_unpack _ _). vm_compute. exact I.
Defined.

Lemma getAllTasksAdmin_populated_witness :
  Forall (λ p,
    (∃ k, tasks Fixture.db0 !! k = Some p.1)
    ∧ (∀ owner, Some 2 = Some owner → Task.user p.1 = owner)
    ∧ (true = true → Some (Task.status p.1) = Some "pending")
    ∧ match users Fixture.db0 !! Task.user p.1 with
      | Some u =>
          ∃ o, p.2 = Some o ∧ TaskController.owner_id o = User._id u
               ∧ TaskController.owner_name o = User.name u
               ∧ TaskController.owner_email o = User.email u
      | None => p.2 = None
      end)
    [TaskController.populate (users Fixture.db0) Fixture.t10].
Proof.
  refine (proj1 (@getAllTasksAdmin_populated Fixture.mongo
    {| TaskController.aq_page := None; TaskController.aq_limit := None;
       TaskController.aq_userId := Some 2;
       TaskController.aq_status := Some "pending" |} Fixture.db0
    [TaskController.populate (users Fixture.db0) Fixture.t10] 1%Z 10%Z 1%Z 1%Z _ _)).
  - intros l. apply fixture_sort_perm.
  - vm_compute. reflexivity.
Defined.

